(** * Spendly: monthly aggregation, budgets, reset and report generation

    A shallow embedding of [budget/models.py] and [budget/views.py].

    Conventions of the embedding
    - A stored [DecimalField(max_digits=10, decimal_places=2)] value is the
      integer number of hundredths it denotes ([Z]); sums and differences of
      such values are exact in Python's decimal context.  A [Decimal] in
      general is the rational it denotes ([Q]): a quotient of two decimals is
      rounded to the 28 significant digits of the default context, and a
      value handed to the store is rounded to two places, both half-even.
      That the store refuses values of more than [max_digits] digits is not
      modelled.
    - A Python [float] is a binary64 number ([PrimFloat.float]); [float(d)] of
      a decimal [d] is the correctly rounded conversion.
    - [strftime] is the C library's: [%Y] is the year without padding, the
      other directives the views use are padded to two digits.
    - A database table is the list of its rows, a row carries its primary key.
    - A view is a computation over the world (database, report files, flash
      messages) that may raise; what it wrote before raising stays written.
    - [timezone.now()] is one reading [now] of the clock per request. *)

From stdpp Require Import gmap strings.
From Stdlib Require Import ZArith QArith Qabs Qpower Qround Floats String Ascii List Bool.
From Stdlib Require Import Lia Lqa.
Import ListNotations.

Local Open Scope string_scope.
Local Open Scope Z_scope.

(** ** Text: digits, padding, [str.replace] *)

Definition digit (n : Z) : ascii := ascii_of_nat (48 + Z.to_nat (n mod 10)).

(** The [w] least significant decimal digits of [n], most significant first. *)
Fixpoint fixed_digits (w : nat) (n : Z) : string :=
  match w with
  | O => EmptyString
  | S w' => fixed_digits w' (n / 10) +:+ String (digit n) EmptyString
  end.

Fixpoint digits_from (fuel : nat) (n : Z) (acc : list ascii) : list ascii :=
  match fuel with
  | O => acc
  | S fuel' =>
      if n <? 10 then digit n :: acc
      else digits_from fuel' (n / 10) (digit n :: acc)
  end.

(** The decimal digits of a natural number [n >= 0], without leading zeros. *)
Definition decimal_digits (n : Z) : list ascii :=
  digits_from (S (Z.to_nat (Z.log2 n))) n [].

(** [str(n)] for an integer. *)
Definition str_int (n : Z) : string :=
  if n <? 0 then String "-" (string_of_list_ascii (decimal_digits (- n)))
  else string_of_list_ascii (decimal_digits n).

(** C's [%0wd] for [n >= 0]: at least [w] digits, zero padded. *)
Definition zero_padded (w : nat) (n : Z) : string :=
  if n <? 10 ^ Z.of_nat w then fixed_digits w n else str_int n.

(** Python's thousands separator: a comma before every group of three digits,
    counted from the right.  [rev_digits] is least significant first. *)
Fixpoint group_thousands (rev_digits : list ascii) (k : nat) (acc : list ascii)
  : list ascii :=
  match rev_digits with
  | [] => acc
  | d :: rest =>
      match k with
      | S (S (S _)) => group_thousands rest 1 (d :: ","%char :: acc)
      | _ => group_thousands rest (S k) (d :: acc)
      end
  end.

Definition with_commas (n : Z) : string :=
  string_of_list_ascii (group_thousands (rev (decimal_digits n)) 0 []).

(** [s.replace(old, new)] for a non-empty [old]: every occurrence, scanned
    from the left without overlap.  [skip] counts the characters of an
    occurrence still to be passed over. *)
Fixpoint replace_from (old new : string) (skip : nat) (s : string) : string :=
  match s with
  | EmptyString => EmptyString
  | String c s' =>
      match skip with
      | S k => replace_from old new k s'
      | O =>
          if String.prefix old s
          then new +:+ replace_from old new (String.length old - 1) s'
          else String c (replace_from old new O s')
      end
  end.

Definition replace (old new s : string) : string := replace_from old new O s.

(** ** Numbers: decimals and floats *)

(** Hundredths held by a [DecimalField(decimal_places=2)]. *)
Abbreviation decimal2 := Z (only parsing).

(** The integer nearest to a rational, ties to the even one: decimal's
    [ROUND_HALF_EVEN], the rounding of the default context. *)
Definition round_half_even (q : Q) : Z :=
  let below := Qfloor q in
  match (q - inject_Z below ?= 1 # 2)%Q with
  | Lt => below
  | Gt => below + 1
  | Eq => if Z.even below then below else below + 1
  end.

(** [len(str(n))] for [n > 0]. *)
Definition nb_digits (n : Z) : Z := Z.of_nat (length (decimal_digits n)).

(** The exponent of the last of the [prec] significant digits of [q <> 0]:
    the [e] with [10^(prec-1) <= |q| / 10^e < 10^prec]. *)
Definition last_digit_exponent (prec : Z) (q : Q) : Z :=
  let a := Qabs q in
  let k := nb_digits (Qnum a) - nb_digits (Zpos (Qden a)) in
  (if Qle_bool (10 ^ k) a then k + 1 else k) - prec.

(** What an operation of a decimal context of precision [prec] returns for
    the exact result [q]: [q] rounded to [prec] significant digits. *)
Definition round_to_precision (prec : Z) (q : Q) : Q :=
  if Qeq_bool q 0 then 0%Q
  else
    let e := last_digit_exponent prec q in
    (inject_Z (round_half_even (q / 10 ^ e)) * 10 ^ e)%Q.

(** [a / b] for two decimals in the default context, [prec=28]. *)
Definition Decimal_div (a b : Q) : Q := round_to_precision 28 (a / b).

(** [a > b] for two finite decimals. *)
Definition Decimal_gt (a b : Q) : bool := negb (Qle_bool a b).

(** What the store keeps of a [Decimal] handed to a
    [DecimalField(decimal_places=2)]: [value.quantize(Decimal('0.01'))], in
    hundredths. *)
Definition two_places (value : Q) : decimal2 := round_half_even (value * 100).

(** The binary64 number nearest to a rational (ties to even). *)
Definition float_of_Q (q : Q) : float :=
  let d := S754_finite false (Qden q) 0 in
  match Qnum q with
  | Z0 => SF2Prim (S754_zero false)
  | Zpos p => SF2Prim (SFdiv prec emax (S754_finite false p 0) d)
  | Zneg p => SF2Prim (SFdiv prec emax (S754_finite true p 0) d)
  end.

(** [float(d)] for a two-place decimal [d]. *)
Definition float_of_decimal (d : decimal2) : float := float_of_Q (d # 100).

(** The integer nearest to [100 * m * 2^e], ties to even. *)
Definition round_hundredths (m : positive) (e : Z) : Z :=
  let n := 100 * Zpos m in
  if 0 <=? e then n * 2 ^ e
  else
    let d := 2 ^ (- e) in
    let q := n / d in
    let r := n mod d in
    if 2 * r <? d then q
    else if d <? 2 * r then q + 1
    else if Z.even q then q else q + 1.

(** The number a float denotes; 0 for what is no number. *)
Definition Q_of_float (x : float) : Q :=
  match Prim2SF x with
  | S754_finite s m e => ((if s then -1 else 1) * inject_Z (Zpos m) * 2 ^ e)%Q
  | _ => 0%Q
  end.

(** What the store keeps of a [float] handed to a
    [DecimalField(max_digits=10, decimal_places=2)]: the field turns the
    float into a decimal in a context of precision [max_digits]
    ([create_decimal_from_float]), the store rounds that to two places. *)
Definition DecimalField_of_float (x : float) : decimal2 :=
  two_places (round_to_precision 10 (Q_of_float x)).

(** [f"{x:,.2f}"]. *)
Definition format_2f (x : float) : string :=
  match Prim2SF x with
  | S754_nan => "nan"
  | S754_infinity s => if s then "-inf" else "inf"
  | S754_zero s => if s then "-0.00" else "0.00"
  | S754_finite s m e =>
      let c := round_hundredths m e in
      (if s then "-" else "") +:+ with_commas (c / 100) +:+ "." +:+ fixed_digits 2 c
  end.

(** ** Dates: the part of Python's [datetime] the views use *)

Module datetime.

Record t := mk
  { year : Z; month : Z; day : Z; hour : Z; minute : Z; second : Z }.

Definition _DAYS_IN_MONTH : list Z :=
  [-1; 31; 28; 31; 30; 31; 30; 31; 31; 30; 31; 30; 31].

Definition _DAYS_BEFORE_MONTH : list Z :=
  [-1; 0; 31; 59; 90; 120; 151; 181; 212; 243; 273; 304; 334].

Definition item (l : list Z) (i : Z) : Z := nth (Z.to_nat i) l 0.

Definition _is_leap (y : Z) : bool :=
  (y mod 4 =? 0) && (negb (y mod 100 =? 0) || (y mod 400 =? 0)).

Definition _days_before_year (y : Z) : Z :=
  let y := y - 1 in y * 365 + y / 4 - y / 100 + y / 400.

Definition _days_in_month (y m : Z) : Z :=
  if (m =? 2) && _is_leap y then 29 else item _DAYS_IN_MONTH m.

Definition _days_before_month (y m : Z) : Z :=
  item _DAYS_BEFORE_MONTH m + (if (2 <? m) && _is_leap y then 1 else 0).

Definition _ymd2ord (y m d : Z) : Z :=
  _days_before_year y + _days_before_month y m + d.

Definition _DI400Y : Z := _days_before_year 401.
Definition _DI100Y : Z := _days_before_year 101.
Definition _DI4Y : Z := _days_before_year 5.

Definition _ord2ymd (n : Z) : Z * Z * Z :=
  let n := n - 1 in
  let n400 := n / _DI400Y in
  let n := n mod _DI400Y in
  let year := n400 * 400 + 1 in
  let n100 := n / _DI100Y in
  let n := n mod _DI100Y in
  let n4 := n / _DI4Y in
  let n := n mod _DI4Y in
  let n1 := n / 365 in
  let n := n mod 365 in
  let year := year + n100 * 100 + n4 * 4 + n1 in
  if (n1 =? 4) || (n100 =? 4) then (year - 1, 12, 31)
  else
    let leapyear := (n1 =? 3) && (negb (n4 =? 24) || (n100 =? 3)) in
    let month := Z.shiftr (n + 50) 5 in
    let preceding :=
      item _DAYS_BEFORE_MONTH month + (if (2 <? month) && leapyear then 1 else 0) in
    if n <? preceding then
      let month := month - 1 in
      let preceding :=
        preceding
        - (item _DAYS_IN_MONTH month + (if (month =? 2) && leapyear then 1 else 0)) in
      (year, month, n - preceding + 1)
    else (year, month, n - preceding + 1).

Definition MINYEAR : Z := 1.
Definition MAXYEAR : Z := 9999.
Definition _MAXORDINAL : Z := 3652059.

(** The field ranges the [datetime] constructor checks. *)
Definition valid (d : t) : bool :=
  (MINYEAR <=? year d) && (year d <=? MAXYEAR)
  && (1 <=? month d) && (month d <=? 12)
  && (1 <=? day d) && (day d <=? _days_in_month (year d) (month d))
  && (0 <=? hour d) && (hour d <=? 23)
  && (0 <=? minute d) && (minute d <=? 59)
  && (0 <=? second d) && (second d <=? 59).

Definition toordinal (d : t) : Z := _ymd2ord (year d) (month d) (day d).

(** [d - timedelta(days=n)]: the date moves, the time of day stays;
    [None] is Python's [OverflowError]. *)
Definition sub_days (d : t) (n : Z) : option t :=
  let o := toordinal d - n in
  if (0 <? o) && (o <=? _MAXORDINAL) then
    let '(y, m, dd) := _ord2ymd o in
    Some (mk y m dd (hour d) (minute d) (second d))
  else None.

Definition directive (d : t) (c : ascii) : string :=
  if Ascii.eqb c "Y" then str_int (year d)
  else if Ascii.eqb c "m" then zero_padded 2 (month d)
  else if Ascii.eqb c "d" then zero_padded 2 (day d)
  else if Ascii.eqb c "H" then zero_padded 2 (hour d)
  else if Ascii.eqb c "M" then zero_padded 2 (minute d)
  else if Ascii.eqb c "S" then zero_padded 2 (second d)
  else if Ascii.eqb c "%" then "%"
  else String "%" (String c EmptyString).

Fixpoint strftime_from (d : t) (fmt : string) (pending : bool) : string :=
  match fmt with
  | EmptyString => EmptyString
  | String c rest =>
      if pending then directive d c +:+ strftime_from d rest false
      else if Ascii.eqb c "%" then strftime_from d rest true
      else String c (strftime_from d rest false)
  end.

(** [d.strftime(fmt)] for the directives Y, m, d, H, M and S. *)
Definition strftime (d : t) (fmt : string) : string := strftime_from d fmt false.

End datetime.

(** ** Exceptions *)

Inductive exn :=
| MultipleObjectsReturned
| IntegrityError
| InvalidOperation
| OverflowError
| FileNotFoundError
| RenderError (message traceback : string).

Inductive result (A : Type) :=
| Return (a : A)
| Raise (e : exn).
Arguments Return {A} a.
Arguments Raise {A} e.

(** [str(e)] and [traceback.format_exc()] of a caught exception. *)
Definition str_exn (e : exn) : string :=
  match e with
  | MultipleObjectsReturned => "get() returned more than one object"
  | IntegrityError => "UNIQUE constraint failed"
  | InvalidOperation => "InvalidOperation"
  | OverflowError => "date value out of range"
  | FileNotFoundError => "No such file or directory"
  | RenderError message _ => message
  end.

Definition format_exc (e : exn) : string :=
  match e with
  | RenderError _ traceback => traceback
  | _ => "Traceback (most recent call last): " +:+ str_exn e
  end.

(** ** [models.py] *)

(** What [models.Model] gives every model: a primary key that is unset until
    the first save, and the uniqueness constraints of its [Meta]. *)
Class Model (A : Type) := {
  pk : A -> option Z;
  with_pk : Z -> A -> A;
  same_unique : A -> A -> bool
}.

Section ModelSave.
Context {A : Type} `{Model A}.

Definition has_pk (k : Z) (r : A) : bool :=
  match pk r with Some k' => k' =? k | None => false end.

Definition is_row (x r : A) : bool :=
  match pk x with Some k => has_pk k r | None => false end.

(** The next value of the auto-increment key. *)
Definition next_pk (tbl : list A) : Z :=
  1 + fold_right (fun r m => match pk r with Some k => Z.max k m | None => m end) 0 tbl.

(** Another row already holds the unique key of [x]. *)
Definition violates (x : A) (tbl : list A) : bool :=
  existsb (fun r => same_unique x r && negb (is_row x r)) tbl.

(** [Model.save]: UPDATE the row with the instance's key, INSERT when the
    key is unset or matches no row; the store refuses a duplicate of a
    unique key. *)
Definition Model_save (x : A) (tbl : list A) : result (A * list A) :=
  if violates x tbl then Raise IntegrityError
  else
    match pk x with
    | Some k =>
        if existsb (has_pk k) tbl
        then Return (x, map (fun r => if has_pk k r then x else r) tbl)
        else Return (x, (tbl ++ [x])%list)
    | None =>
        let x' := with_pk (next_pk tbl) x in
        Return (x', (tbl ++ [x'])%list)
    end.

(** [objects.get_or_create(lookup, defaults)]. *)
Definition get_or_create (lookup : A -> bool) (new : A) (tbl : list A)
  : result (A * bool * list A) :=
  match List.filter lookup tbl with
  | [] =>
      match Model_save new tbl with
      | Return (x, tbl') => Return (x, true, tbl')
      | Raise e => Raise e
      end
  | [x] => Return (x, false, tbl)
  | _ :: _ :: _ => Raise MultipleObjectsReturned
  end.

(** [objects.update_or_create(lookup, defaults)]: [update] assigns
    the defaults to the row found, [new] is the row made from the lookup
    and the defaults. *)
Definition update_or_create (lookup : A -> bool) (update : A -> A) (new : A)
                            (tbl : list A)
  : result (A * bool * list A) :=
  match List.filter lookup tbl with
  | [] =>
      match Model_save new tbl with
      | Return (x, tbl') => Return (x, true, tbl')
      | Raise e => Raise e
      end
  | [x] =>
      match Model_save (update x) tbl with
      | Return (x', tbl') => Return (x', false, tbl')
      | Raise e => Raise e
      end
  | _ :: _ :: _ => Raise MultipleObjectsReturned
  end.

(** [queryset.delete()]: the number of rows deleted and the rows left. *)
Definition delete (matching : A -> bool) (tbl : list A) : Z * list A :=
  (Z.of_nat (length (List.filter matching tbl)),
   List.filter (fun r => negb (matching r)) tbl).

End ModelSave.

(** [queryset.order_by(...)]: a stable sort, [before a b] telling that [a]
    may stand before [b]. *)
Fixpoint insert_sorted {A : Type} (before : A -> A -> bool) (x : A) (l : list A)
  : list A :=
  match l with
  | [] => [x]
  | y :: l' => if before x y then x :: l else y :: insert_sorted before x l'
  end.

Definition order_by {A : Type} (before : A -> A -> bool) (l : list A) : list A :=
  fold_right (insert_sorted before) [] l.

(** [queryset.first()]. *)
Definition first {A : Type} (l : list A) : option A := hd_error l.

(** [aggregate(total=Sum('amount'))['total']]: SQL's SUM is NULL over no rows. *)
Definition Sum (amounts : list decimal2) : option decimal2 :=
  match amounts with
  | [] => None
  | _ :: _ => Some (fold_left Z.add amounts 0)
  end.

(** [total or Decimal('0.00')]: [None] and a zero decimal are both falsy. *)
Definition or_zero (total : option decimal2) : decimal2 :=
  match total with
  | Some d => if d =? 0 then 0 else d
  | None => 0
  end.

(** [django.contrib.auth]'s user, as far as the views read it. *)
Module User.
Record t := mk {
  id : Z;
  username : string;
  get_full_name : string;
  email : string;
  is_authenticated : bool
}.
End User.

Module UserProfile.
Record t := mk {
  id : option Z;
  user : Z;
  monthly_salary : decimal2
}.

#[global] Instance model : Model t := {
  pk := id;
  with_pk k p := mk (Some k) (user p) (monthly_salary p);
  same_unique p q := user p =? user q
}.
End UserProfile.

Module Expense.
Definition CATEGORY_CHOICES : list (string * string) :=
  [("Food", "Food"); ("Transport", "Transport"); ("Shopping", "Shopping");
   ("Bills", "Bills"); ("Entertainment", "Entertainment");
   ("Healthcare", "Healthcare"); ("Education", "Education"); ("Other", "Other")].

Record t := mk {
  id : option Z;
  user : Z;
  category : string;
  amount : decimal2;
  description : string;
  date : datetime.t;
  month_year : string
}.

#[global] Instance model : Model t := {
  pk := id;
  with_pk k e :=
    mk (Some k) (user e) (category e) (amount e) (description e) (date e) (month_year e);
  same_unique _ _ := false
}.

Definition set_month_year (e : t) (m : string) : t :=
  mk (id e) (user e) (category e) (amount e) (description e) (date e) m.

Definition save (self : t) (tbl : list t) : result (t * list t) :=
  let self := set_month_year self (datetime.strftime (date self) "%Y-%m") in
  Model_save self tbl.
End Expense.

Module Investment.
Definition INVESTMENT_TYPE_CHOICES : list (string * string) :=
  [("Stocks", "Stocks"); ("Mutual Funds", "Mutual Funds");
   ("Real Estate", "Real Estate"); ("Savings", "Savings");
   ("Crypto", "Crypto"); ("Other", "Other")].

Record t := mk {
  id : option Z;
  user : Z;
  investment_type : string;
  amount : decimal2;
  description : string;
  date : datetime.t;
  month_year : string
}.

#[global] Instance model : Model t := {
  pk := id;
  with_pk k e :=
    mk (Some k) (user e) (investment_type e) (amount e) (description e) (date e)
       (month_year e);
  same_unique _ _ := false
}.

Definition set_month_year (e : t) (m : string) : t :=
  mk (id e) (user e) (investment_type e) (amount e) (description e) (date e) m.

Definition save (self : t) (tbl : list t) : result (t * list t) :=
  let self := set_month_year self (datetime.strftime (date self) "%Y-%m") in
  Model_save self tbl.
End Investment.

Module Budget.
Record t := mk {
  id : option Z;
  user : Z;
  category : string;
  allocated_amount : decimal2;
  month_year : string
}.

(** [unique_together = ['user', 'category', 'month_year']] *)
Definition same_key (a b : t) : bool :=
  (user a =? user b) && String.eqb (category a) (category b)
  && String.eqb (month_year a) (month_year b).

#[global] Instance model : Model t := {
  pk := id;
  with_pk k b := mk (Some k) (user b) (category b) (allocated_amount b) (month_year b);
  same_unique := same_key
}.

Definition set_allocated_amount (b : t) (a : decimal2) : t :=
  mk (id b) (user b) (category b) a (month_year b).

(** [ordering = ['category']] *)
Definition ordering (a b : t) : bool := String.leb (category a) (category b).

Definition get_spent_amount (self : t) (expenses : list Expense.t) : decimal2 :=
  let expenses :=
    List.filter
      (fun e => (Expense.user e =? user self)
                && String.eqb (Expense.category e) (category self)
                && String.eqb (Expense.month_year e) (month_year self))
      expenses in
  fold_left Z.add (map Expense.amount expenses) 0.

Definition get_remaining_budget (self : t) (expenses : list Expense.t) : decimal2 :=
  let spent := get_spent_amount self expenses in
  allocated_amount self - spent.

End Budget.

Module MonthlyReport.
Record t := mk {
  id : option Z;
  user : Z;
  month_year : string;
  total_income : decimal2;
  total_expenses : decimal2;
  total_investments : decimal2;
  total_savings : decimal2;
  report_generated_date : datetime.t;
  pdf_file : string
}.

(** [unique_together = ['user', 'month_year']] *)
Definition same_key (a b : t) : bool :=
  (user a =? user b) && String.eqb (month_year a) (month_year b).

#[global] Instance model : Model t := {
  pk := id;
  with_pk k r :=
    mk (Some k) (user r) (month_year r) (total_income r) (total_expenses r)
       (total_investments r) (total_savings r) (report_generated_date r) (pdf_file r);
  same_unique := same_key
}.
End MonthlyReport.

(** ** The world a view runs in *)

Inductive level := SUCCESS | WARNING | ERROR.

Record World := mkWorld {
  profiles : list UserProfile.t;
  expenses : list Expense.t;
  investments : list Investment.t;
  budgets : list Budget.t;
  reports : list MonthlyReport.t;
  (** the files under the working directory, by relative path *)
  files : gmap string string;
  (** [django.contrib.messages], oldest first *)
  messages : list (level * string)
}.

Definition set_profiles (w : World) (t : list UserProfile.t) : World :=
  mkWorld t (expenses w) (investments w) (budgets w) (reports w) (files w) (messages w).
Definition set_expenses (w : World) (t : list Expense.t) : World :=
  mkWorld (profiles w) t (investments w) (budgets w) (reports w) (files w) (messages w).
Definition set_investments (w : World) (t : list Investment.t) : World :=
  mkWorld (profiles w) (expenses w) t (budgets w) (reports w) (files w) (messages w).
Definition set_budgets (w : World) (t : list Budget.t) : World :=
  mkWorld (profiles w) (expenses w) (investments w) t (reports w) (files w) (messages w).
Definition set_reports (w : World) (t : list MonthlyReport.t) : World :=
  mkWorld (profiles w) (expenses w) (investments w) (budgets w) t (files w) (messages w).
Definition set_files (w : World) (f : gmap string string) : World :=
  mkWorld (profiles w) (expenses w) (investments w) (budgets w) (reports w) f (messages w).
Definition set_messages (w : World) (m : list (level * string)) : World :=
  mkWorld (profiles w) (expenses w) (investments w) (budgets w) (reports w) (files w) m.

(** A computation that reads and writes the world and may raise. *)
Definition M (A : Type) : Type := World -> result A * World.

Definition ret {A : Type} (a : A) : M A := fun w => (Return a, w).

Definition bind {A B : Type} (m : M A) (k : A -> M B) : M B :=
  fun w =>
    match m w with
    | (Return a, w') => k a w'
    | (Raise e, w') => (Raise e, w')
    end.

Definition raise {A : Type} (e : exn) : M A := fun w => (Raise e, w).

(** [try: body except Exception as e: handler(e)] *)
Definition try_except {A : Type} (body : M A) (handler : exn -> M A) : M A :=
  fun w =>
    match body w with
    | (Return a, w') => (Return a, w')
    | (Raise e, w') => handler e w'
    end.

Definition get_world : M World := fun w => (Return w, w).

Notation "'let*' x ':=' m 'in' k" := (bind m (fun x => k))
  (at level 10, x pattern, m at level 100, k at level 200).

(** [for x in xs: body(x)] *)
Fixpoint for_each {A : Type} (xs : list A) (body : A -> M unit) : M unit :=
  match xs with
  | [] => ret tt
  | x :: xs' => let* _ := body x in for_each xs' body
  end.

(** Run a table operation on one table of the database. *)
Definition on_table {T A : Type} (table : World -> list T)
    (set_table : World -> list T -> World)
    (op : list T -> result (A * list T)) : M A :=
  fun w =>
    match op (table w) with
    | Return (a, tbl) => (Return a, set_table w tbl)
    | Raise e => (Raise e, w)
    end.

Definition messages_add (l : level) (text : string) : M unit :=
  fun w => (Return tt, set_messages w (messages w ++ [(l, text)])%list).

(** [with open(path, 'w') as f: f.write(text)] *)
Definition write_file (path text : string) : M unit :=
  fun w => (Return tt, set_files w (<[path := text]> (files w))).

(** [open(path, 'rb')], read by the response. *)
Definition open_rb (path : string) : M string :=
  fun w =>
    match files w !! path with
    | Some body => (Return body, w)
    | None => (Raise FileNotFoundError, w)
    end.

(** ** Requests and responses *)

Module HttpRequest.
Record t := mk {
  method : string;
  user : User.t;
  (** [request.POST.get(key)] is [POST !! key] *)
  POST : gmap string string
}.
End HttpRequest.

Record Totals := mkTotals {
  total_income : float;
  total_expenses : float;
  total_investments : float;
  total_savings : float
}.

(** An entry of the dashboard's [budget_vs_actual]. *)
Record BudgetLine := mkBudgetLine {
  line_category : string;
  line_allocated : float;
  line_actual : float;
  line_remaining : float
}.

(** An entry of [spending_trend]. *)
Record TrendPoint := mkTrendPoint {
  trend_month : string;
  trend_amount : float
}.

Record DashboardContext := mkDashboardContext {
  ctx_profile : UserProfile.t;
  ctx_totals : Totals;
  ctx_budget_vs_actual : list BudgetLine;
  ctx_spending_trend : list TrendPoint;
  ctx_current_month : string;
  ctx_budget_month_used : string
}.

(** An entry of the budget page's [budget_vs_actual]. *)
Record BudgetRow := mkBudgetRow {
  row_category : string;
  row_allocated : float;
  row_actual : float;
  row_remaining : float;
  row_remaining_abs : float;
  row_percent_used : float
}.

Record BudgetContext := mkBudgetContext {
  bctx_categories : list string;
  bctx_budget_dict : gmap string decimal2;
  bctx_budget_vs_actual : list BudgetRow;
  bctx_current_month : string;
  bctx_categories_with_values : list (string * option float)
}.

Inductive Context :=
| NoContext
| Dashboard (c : DashboardContext)
| BudgetManagement (c : BudgetContext).

Inductive Response :=
| redirect (to : string)
| redirect_to_login
| render (template : string) (context : Context)
| FileResponse (body : string) (as_attachment : bool) (filename : string).

(** [@login_required] *)
Definition login_required (view : HttpRequest.t -> M Response)
  : HttpRequest.t -> M Response :=
  fun request =>
    if User.is_authenticated (HttpRequest.user request) then view request
    else ret redirect_to_login.

(** ** [views.py] *)

Definition nl : string := String (ascii_of_nat 10) EmptyString.

(** [os.path.basename] *)
Fixpoint basename_from (s acc : string) : string :=
  match s with
  | EmptyString => acc
  | String c s' =>
      if Ascii.eqb c "/" then basename_from s' EmptyString
      else basename_from s' (acc +:+ String c EmptyString)
  end.

Definition basename (path : string) : string := basename_from path EmptyString.

(** [range(n)] *)
Definition range (n : nat) : list Z := map Z.of_nat (seq 0 n).

(** The totals block of [dashboard] and [download_report]: the month's
    income, expenses, investments and savings of [user]. *)
Definition monthly_totals (profile : UserProfile.t) (user : User.t)
    (current_month : string) (w : World) : Totals :=
  let total_income := float_of_decimal (UserProfile.monthly_salary profile) in
  let total_expenses :=
    float_of_decimal
      (or_zero (Sum (map Expense.amount
         (List.filter
            (fun e => (Expense.user e =? User.id user)
                      && String.eqb (Expense.month_year e) current_month)
            (expenses w))))) in
  let total_investments :=
    float_of_decimal
      (or_zero (Sum (map Investment.amount
         (List.filter
            (fun i => (Investment.user i =? User.id user)
                      && String.eqb (Investment.month_year i) current_month)
            (investments w))))) in
  let total_savings := (total_income - total_expenses - total_investments)%float in
  mkTotals total_income total_expenses total_investments total_savings.

(** [Budget.objects.filter(user=user, month_year=month)], in the model's
    default ordering. *)
Definition budgets_of_month (user : User.t) (month : string) (tbl : list Budget.t)
  : list Budget.t :=
  order_by Budget.ordering
    (List.filter
       (fun b => (Budget.user b =? User.id user)
                 && String.eqb (Budget.month_year b) month)
       tbl).

(** The budgets the dashboard shows and the month they belong to. *)
Definition budgets_shown (user : User.t) (current_month : string)
    (tbl : list Budget.t) : string * list Budget.t :=
  let budgets := budgets_of_month user current_month tbl in
  let budget_month_used := current_month in
  match budgets with
  | [] =>
      let latest :=
        first (order_by
                 (fun a b => String.leb (Budget.month_year b) (Budget.month_year a))
                 (List.filter (fun b => Budget.user b =? User.id user) tbl)) in
      match latest with
      | Some latest =>
          let budget_month_used := Budget.month_year latest in
          (budget_month_used, budgets_of_month user budget_month_used tbl)
      | None => (budget_month_used, budgets)
      end
  | _ :: _ => (budget_month_used, budgets)
  end.

Definition budget_line (expenses : list Expense.t) (budget : Budget.t) : BudgetLine :=
  let actual_spent := Budget.get_spent_amount budget expenses in
  mkBudgetLine (Budget.category budget)
    (float_of_decimal (Budget.allocated_amount budget))
    (float_of_decimal actual_spent)
    (float_of_decimal (Budget.get_remaining_budget budget expenses)).

(** The trend loop: one point per [i], appended in the order of the steps. *)
Fixpoint trend_points (now : datetime.t) (user : User.t) (expenses : list Expense.t)
    (steps : list Z) : result (list TrendPoint) :=
  match steps with
  | [] => Return []
  | i :: steps' =>
      match datetime.sub_days now (30 * i) with
      | None => Raise OverflowError
      | Some d =>
          let month := datetime.strftime d "%Y-%m" in
          let month_expenses :=
            or_zero (Sum (map Expense.amount
              (List.filter
                 (fun e => (Expense.user e =? User.id user)
                           && String.eqb (Expense.month_year e) month)
                 expenses))) in
          match trend_points now user expenses steps' with
          | Return points =>
              Return (mkTrendPoint month (float_of_decimal month_expenses) :: points)
          | Raise e => Raise e
          end
      end
  end.

(** The spending trend of the last [months] steps, oldest first. *)
Definition spending_trend (months : nat) (now : datetime.t) (user : User.t)
    (expenses : list Expense.t) : result (list TrendPoint) :=
  match trend_points now user expenses (range months) with
  | Return points => Return (rev points)
  | Raise e => Raise e
  end.

Definition lift {A : Type} (r : result A) : M A := fun w => (r, w).

Definition dashboard_view (now : datetime.t) (request : HttpRequest.t) : M Response :=
  let user := HttpRequest.user request in
  let current_month := datetime.strftime now "%Y-%m" in
  let* (profile, created) :=
    on_table profiles set_profiles
      (get_or_create (fun p => UserProfile.user p =? User.id user)
                     (UserProfile.mk None (User.id user) 0)) in
  let* w := get_world in
  let totals := monthly_totals profile user current_month w in
  let '(budget_month_used, budgets) := budgets_shown user current_month (budgets w) in
  let budget_vs_actual := map (budget_line (expenses w)) budgets in
  let* spending_trend := lift (spending_trend 6 now user (expenses w)) in
  ret (render "budget/dashboard.html"
         (Dashboard (mkDashboardContext profile totals budget_vs_actual spending_trend
                       current_month budget_month_used))).

Definition dashboard (now : datetime.t) : HttpRequest.t -> M Response :=
  login_required (dashboard_view now).

(** What the PDF backend does with the document [download_report] hands it;
    ReportLab itself is not part of this repository. *)
Inductive pdf_attempt :=
| Built (pdf : string)
    (** [doc.build(story)] wrote [pdf] to the PDF path *)
| Failed (message traceback : string) (left_behind : option string).
    (** building raised; [left_behind] is what stands at the PDF path then,
        if the backend got to write there *)

Section Views.

(** [decimal.Decimal(text)], the number the text denotes to all its places;
    [None] where it raises [InvalidOperation]. *)
Variable Decimal : string -> option Q.

(** [settings.DEFAULT_CURRENCY_SYMBOL], if the settings define it. *)
Variable DEFAULT_CURRENCY_SYMBOL : option string.

(** The body of the loop of [budget_management] for one category. *)
Definition set_budget (request : HttpRequest.t) (current_month category : string)
  : M unit :=
  let user := HttpRequest.user request in
  let budget_key := "budget_" +:+ category in
  match HttpRequest.POST request !! budget_key with
  | None => ret tt
  | Some amount =>
      if String.eqb amount "" then ret tt
      else
        match Decimal amount with
        | None => raise InvalidOperation
        | Some value =>
            if Decimal_gt value 0 then
              let* (budget, created) :=
                on_table budgets set_budgets
                  (get_or_create
                     (fun b => (Budget.user b =? User.id user)
                               && String.eqb (Budget.category b) category
                               && String.eqb (Budget.month_year b) current_month)
                     (Budget.mk None (User.id user) category (two_places value)
                        current_month)) in
              if created then ret tt
              else
                let budget := Budget.set_allocated_amount budget (two_places value) in
                let* _ := on_table budgets set_budgets (Model_save budget) in
                ret tt
            else ret tt
        end
  end.

Definition budget_row (current_month : string) (user : User.t)
    (budget_dict : gmap string decimal2) (expenses : list Expense.t)
    (category : string) : BudgetRow :=
  let budget_amount := default 0 (budget_dict !! category) in
  let actual_spent :=
    or_zero (Sum (map Expense.amount
      (List.filter
         (fun e => (Expense.user e =? User.id user)
                   && String.eqb (Expense.category e) category
                   && String.eqb (Expense.month_year e) current_month)
         expenses))) in
  let percent_used :=
    if negb (budget_amount =? 0)
    then float_of_Q (Decimal_div (actual_spent # 100) (budget_amount # 100) * 100)
    else 0%float in
  let remaining_val := float_of_decimal (budget_amount - actual_spent) in
  mkBudgetRow category (float_of_decimal budget_amount) (float_of_decimal actual_spent)
    remaining_val (PrimFloat.abs remaining_val) percent_used.

Definition budget_management_view (now : datetime.t) (request : HttpRequest.t)
  : M Response :=
  let user := HttpRequest.user request in
  let current_month := datetime.strftime now "%Y-%m" in
  let categories := map fst Expense.CATEGORY_CHOICES in
  if String.eqb (HttpRequest.method request) "POST" then
    let* _ := for_each categories (set_budget request current_month) in
    let* _ := messages_add SUCCESS "Budgets updated successfully!" in
    ret (redirect "budget_management")
  else
    let* w := get_world in
    let budgets := budgets_of_month user current_month (budgets w) in
    let budget_dict : gmap string decimal2 :=
      fold_left (fun d b => <[Budget.category b := Budget.allocated_amount b]> d)
                budgets ∅ in
    let categories_with_values :=
      map (fun category =>
             (category, option_map float_of_decimal (budget_dict !! category)))
          categories in
    let budget_vs_actual :=
      map (budget_row current_month user budget_dict (expenses w)) categories in
    ret (render "budget/budget_management.html"
           (BudgetManagement
              (mkBudgetContext categories budget_dict budget_vs_actual current_month
                 categories_with_values))).

Definition budget_management (now : datetime.t) : HttpRequest.t -> M Response :=
  login_required (budget_management_view now).

Definition reset_month_view (now : datetime.t) (request : HttpRequest.t)
  : M Response :=
  let user := HttpRequest.user request in
  if String.eqb (HttpRequest.method request) "POST" then
    let current_month := datetime.strftime now "%Y-%m" in
    let* exp_count :=
      on_table expenses set_expenses
        (fun tbl =>
           Return (delete
                     (fun e => (Expense.user e =? User.id user)
                               && String.eqb (Expense.month_year e) current_month)
                     tbl)) in
    let* inv_count :=
      on_table investments set_investments
        (fun tbl =>
           Return (delete
                     (fun i => (Investment.user i =? User.id user)
                               && String.eqb (Investment.month_year i) current_month)
                     tbl)) in
    let* _ :=
      messages_add SUCCESS
        ("Reset complete: deleted " +:+ str_int exp_count +:+ " expenses and "
         +:+ str_int inv_count +:+ " investments for " +:+ current_month +:+ ".") in
    ret (redirect "dashboard")
  else ret (render "budget/reset_month.html" NoContext).

Definition reset_month (now : datetime.t) : HttpRequest.t -> M Response :=
  login_required (reset_month_view now).

(** The lines both text fallbacks write. *)
Definition report_text (current_month : string) (user : User.t)
    (currency_symbol : string) (t : Totals) (now : datetime.t) : string :=
  "Spendly Monthly Report - " +:+ current_month +:+ nl
  +:+ "User: "
  +:+ (if String.eqb (User.get_full_name user) "" then User.username user
       else User.get_full_name user) +:+ nl
  +:+ "Email: " +:+ User.email user +:+ nl
  +:+ "Monthly Salary: " +:+ currency_symbol +:+ format_2f (total_income t) +:+ nl
  +:+ "Total Expenses: " +:+ currency_symbol +:+ format_2f (total_expenses t) +:+ nl
  +:+ "Total Investments: " +:+ currency_symbol +:+ format_2f (total_investments t) +:+ nl
  +:+ "Total Savings: " +:+ currency_symbol +:+ format_2f (total_savings t) +:+ nl
  +:+ "Report Generated: " +:+ datetime.strftime now "%Y-%m-%d %H:%M:%S" +:+ nl.

(** [MonthlyReport.objects.update_or_create(user, month_year, defaults)] *)
Definition upsert_report (now : datetime.t) (user : User.t) (current_month : string)
    (t : Totals) (path : string) : M (MonthlyReport.t * bool) :=
  on_table reports set_reports
    (update_or_create
       (fun r => (MonthlyReport.user r =? User.id user)
                 && String.eqb (MonthlyReport.month_year r) current_month)
       (fun r =>
          MonthlyReport.mk (MonthlyReport.id r) (MonthlyReport.user r)
            (MonthlyReport.month_year r)
            (DecimalField_of_float (total_income t))
            (DecimalField_of_float (total_expenses t))
            (DecimalField_of_float (total_investments t))
            (DecimalField_of_float (total_savings t))
            (MonthlyReport.report_generated_date r) path)
       (MonthlyReport.mk None (User.id user) current_month
          (DecimalField_of_float (total_income t))
          (DecimalField_of_float (total_expenses t))
          (DecimalField_of_float (total_investments t))
          (DecimalField_of_float (total_savings t)) now path)).

(** The construction of the PDF, by what the backend makes of it. *)
Definition build_pdf (attempt : pdf_attempt) (pdf_path : string) : M unit :=
  match attempt with
  | Built pdf => write_file pdf_path pdf
  | Failed message traceback left_behind =>
      let* _ :=
        match left_behind with
        | Some partial => write_file pdf_path partial
        | None => ret tt
        end in
      raise (RenderError message traceback)
  end.

(** [reportlab] is [None] when importing ReportLab fails, and otherwise
    what the backend does for this request. *)
Definition download_report_view (reportlab : option pdf_attempt) (now : datetime.t)
    (request : HttpRequest.t) : M Response :=
  let user := HttpRequest.user request in
  if negb (String.eqb (HttpRequest.method request) "POST") then
    let* _ :=
      messages_add ERROR "Report download must be requested via the interface." in
    ret (redirect "dashboard")
  else
    let current_month := datetime.strftime now "%Y-%m" in
    let* (profile, created) :=
      on_table profiles set_profiles
        (get_or_create (fun p => UserProfile.user p =? User.id user)
                       (UserProfile.mk None (User.id user) 0)) in
    let* w := get_world in
    let totals := monthly_totals profile user current_month w in
    let pdf_filename :=
      "monthly_report_" +:+ User.username user +:+ "_" +:+ current_month +:+ ".pdf" in
    let pdf_path := "media/reports/" +:+ pdf_filename in
    let currency_symbol := default "₨" DEFAULT_CURRENCY_SYMBOL in
    let txt_path := replace ".pdf" ".txt" pdf_path in
    match reportlab with
    | None =>
        let* _ :=
          write_file txt_path (report_text current_month user currency_symbol totals now) in
        let* _ := upsert_report now user current_month totals txt_path in
        let* _ :=
          messages_add WARNING
            "ReportLab not available — generated a plain text report instead. To enable PDF reports install reportlab and pillow and restart the server." in
        let* body := open_rb txt_path in
        ret (FileResponse body true (basename txt_path))
    | Some attempt =>
        try_except
          (let* _ := build_pdf attempt pdf_path in
           let* _ := upsert_report now user current_month totals pdf_path in
           let* body := open_rb pdf_path in
           ret (FileResponse body true (basename pdf_path)))
          (fun e =>
             let tb := format_exc e in
             let* _ :=
               write_file txt_path
                 (report_text current_month user currency_symbol totals now
                  +:+ nl +:+ "--- DEBUG TRACEBACK ---" +:+ nl +:+ tb) in
             let* _ :=
               messages_add ERROR
                 ("PDF generation failed, fallback text report saved. Error: "
                  +:+ str_exn e) in
             let* body := open_rb txt_path in
             ret (FileResponse body true (basename txt_path)))
    end.

Definition download_report (reportlab : option pdf_attempt) (now : datetime.t)
  : HttpRequest.t -> M Response :=
  login_required (download_report_view reportlab now).

End Views.

(** ** Integrity constraints and reference definitions for the statements *)

(** No two rows of the table agree on a unique key. *)
Fixpoint unique_together {A : Type} (same : A -> A -> bool) (tbl : list A) : bool :=
  match tbl with
  | [] => true
  | r :: rest => negb (existsb (same r) rest) && unique_together same rest
  end.

(** Every row has a primary key, and no two rows share one. *)
Fixpoint primary_keys {A : Type} `{Model A} (tbl : list A) : bool :=
  match tbl with
  | [] => true
  | r :: rest =>
      match pk r with
      | Some k => negb (existsb (has_pk k) rest) && primary_keys rest
      | None => false
      end
  end.

(** The table satisfies the constraints its model declares. *)
Definition table_ok {A : Type} `{Model A} (tbl : list A) : bool :=
  primary_keys tbl && unique_together same_unique tbl.

(** The sum of [amount] over the rows that satisfy [p], zero over none. *)
Fixpoint total_where {A : Type} (p : A -> bool) (amount : A -> decimal2)
    (rows : list A) : decimal2 :=
  match rows with
  | [] => 0
  | r :: rest => (if p r then amount r else 0) + total_where p amount rest
  end.

(** The bucket of a timestamp in the spec's words: the 4-digit year, a
    hyphen, the 2-digit zero-padded month. *)
Definition spec_month_bucket (d : datetime.t) : string :=
  fixed_digits 4 (datetime.year d) +:+ "-" +:+ fixed_digits 2 (datetime.month d).

(** The rows of [owner] in [bucket]. *)
Definition expense_in (owner : Z) (bucket : string) (e : Expense.t) : bool :=
  (Expense.user e =? owner) && String.eqb (Expense.month_year e) bucket.

Definition investment_in (owner : Z) (bucket : string) (i : Investment.t) : bool :=
  (Investment.user i =? owner) && String.eqb (Investment.month_year i) bucket.


(** [p] is the trend point of the step [i]: the bucket of the date [30 * i]
    days before [now], with the owner's expense total of that bucket. *)
Definition point_at (now : datetime.t) (user : User.t) (exps : list Expense.t)
    (i : Z) (p : TrendPoint) : Prop :=
  exists d,
    datetime.sub_days now (30 * i) = Some d
    /\ p = mkTrendPoint (datetime.strftime d "%Y-%m")
             (float_of_decimal
                (total_where (expense_in (User.id user) (datetime.strftime d "%Y-%m"))
                             Expense.amount exps)).

(** [owner] has a Budget row in [bucket]. *)
Definition has_budgets (owner : Z) (bucket : string) (tbl : list Budget.t) : bool :=
  existsb (fun b => (Budget.user b =? owner) && String.eqb (Budget.month_year b) bucket)
          tbl.

(** [used] is the most recent bucket before [requested] in which [owner] has
    Budget rows, in the lexical order of the keys. *)
Definition most_recent_prior (owner : Z) (requested used : string)
    (tbl : list Budget.t) : Prop :=
  String.ltb used requested = true
  /\ has_budgets owner used tbl = true
  /\ forall b, In b tbl -> Budget.user b = owner ->
               String.ltb (Budget.month_year b) requested = true ->
               String.leb (Budget.month_year b) used = true.

(** [used] is the most recent bucket at all in which [owner] has Budget rows. *)
Definition most_recent (owner : Z) (used : string) (tbl : list Budget.t) : Prop :=
  has_budgets owner used tbl = true
  /\ forall b, In b tbl -> Budget.user b = owner ->
               String.leb (Budget.month_year b) used = true.

(** A computation that leaves the expense and investment tables as they are. *)
Definition keeps_ledger {A : Type} (m : M A) : Prop :=
  forall w, expenses (snd (m w)) = expenses w /\ investments (snd (m w)) = investments w.

(** What a model's key functions must satisfy: [with_pk] sets the key and
    nothing a uniqueness constraint looks at. *)
Class ModelLaws (A : Type) `{Model A} : Prop := {
  pk_with_pk : forall k x, pk (with_pk k x) = Some k;
  same_unique_with_pk : forall k x r, same_unique (with_pk k x) r = same_unique x r;
  same_unique_sym : forall a b, same_unique a b = same_unique b a
}.

(** The Budget row of [owner] for [category] in [bucket]. *)
Definition budget_key_is (owner : Z) (category bucket : string) (b : Budget.t) : bool :=
  (Budget.user b =? owner)
  && String.eqb (Budget.category b) category
  && String.eqb (Budget.month_year b) bucket.

(** What a request submits for a category: nothing to act on (the field is
    absent or empty, or its amount is zero or negative), text that is no
    decimal, or a strictly positive amount. *)
Inductive submitted :=
| Nothing
| NotADecimal
| Positive (value : Q).

Definition submission (Decimal : string -> option Q) (request : HttpRequest.t)
    (category : string) : submitted :=
  match HttpRequest.POST request !! ("budget_" +:+ category) with
  | None => Nothing
  | Some amount =>
      if String.eqb amount "" then Nothing
      else
        match Decimal amount with
        | None => NotADecimal
        | Some value => if Decimal_gt value 0 then Positive value else Nothing
        end
  end.

(** From [old] to [new] no row was deleted, and every row that is new or
    changed holds an allocation that is not negative. *)
Definition evolves (old new : list Budget.t) : Prop :=
  (forall r, In r old ->
     exists r', In r' new /\ Budget.id r' = Budget.id r /\ Budget.same_key r r' = true
                /\ (r' = r \/ 0 <= Budget.allocated_amount r'))
  /\ (forall r', In r' new -> In r' old \/ 0 <= Budget.allocated_amount r').

(** Only the Budget table may differ between [w] and [w']. *)
Definition only_budgets (w w' : World) : Prop :=
  profiles w' = profiles w /\ expenses w' = expenses w
  /\ investments w' = investments w /\ reports w' = reports w
  /\ files w' = files w /\ messages w' = messages w.

(** The MonthlyReport row of [owner] for [bucket]. *)
Definition report_key_is (owner : Z) (bucket : string) (r : MonthlyReport.t) : bool :=
  (MonthlyReport.user r =? owner) && String.eqb (MonthlyReport.month_year r) bucket.

(** The four totals a MonthlyReport row holds, and what the store keeps of
    the totals the view hands it. *)
Definition report_totals (r : MonthlyReport.t)
  : decimal2 * decimal2 * decimal2 * decimal2 :=
  (MonthlyReport.total_income r, MonthlyReport.total_expenses r,
   MonthlyReport.total_investments r, MonthlyReport.total_savings r).

Definition stored_totals (t : Totals) : decimal2 * decimal2 * decimal2 * decimal2 :=
  (DecimalField_of_float (total_income t), DecimalField_of_float (total_expenses t),
   DecimalField_of_float (total_investments t), DecimalField_of_float (total_savings t)).

(** The paths [download_report] derives from the user name and the bucket. *)
Definition pdf_path_of (username bucket : string) : string :=
  "media/reports/" +:+ ("monthly_report_" +:+ username +:+ "_" +:+ bucket +:+ ".pdf").

Definition txt_path_of (username bucket : string) : string :=
  replace ".pdf" ".txt" (pdf_path_of username bucket).

(** The backend outcomes after which [download_report] gets to its
    [update_or_create]. *)
Definition persists (reportlab : option pdf_attempt) : bool :=
  match reportlab with
  | None | Some (Built _) => true
  | Some (Failed _ _ _) => false
  end.

(** ** A demo ledger

    The demo user of [seed_demo_data] with a salary of 5200.00, and for June
    2024 expenses of 1800.00, investments of 300.00 and a Food budget of
    500.00 against 620.00 spent on Food. *)

Definition demo_user : User.t :=
  User.mk 1 "demo" "Demo User" "demo@example.com" true.

Definition demo_now : datetime.t := datetime.mk 2024 6 20 9 30 0.

Definition demo_world : World :=
  mkWorld
    [UserProfile.mk (Some 1) 1 520000]
    [Expense.mk (Some 1) 1 "Food" 62000 "Demo Food expense for 2024-06"
       (datetime.mk 2024 6 5 0 0 0) "2024-06";
     Expense.mk (Some 2) 1 "Bills" 118000 "Demo Bills expense for 2024-06"
       (datetime.mk 2024 6 8 0 0 0) "2024-06";
     Expense.mk (Some 3) 1 "Transport" 7000 "Demo Transport expense for 2024-05"
       (datetime.mk 2024 5 6 0 0 0) "2024-05";
     Expense.mk (Some 4) 2 "Food" 990 "another user's lunch"
       (datetime.mk 2024 6 9 0 0 0) "2024-06"]
    [Investment.mk (Some 1) 1 "Stocks" 30000 "Demo Stocks investment for 2024-06"
       (datetime.mk 2024 6 10 0 0 0) "2024-06"]
    [Budget.mk (Some 1) 1 "Food" 50000 "2024-06"]
    []
    ∅
    [].

Definition demo_get : HttpRequest.t := HttpRequest.mk "GET" demo_user ∅.

Definition demo_post : HttpRequest.t := HttpRequest.mk "POST" demo_user ∅.

(** A backend whose [doc.build] raises. *)
Definition demo_failure : option pdf_attempt :=
  Some (Failed "cannot render" "Traceback (most recent call last): cannot render" None).

(** [Decimal] on the amounts the demo requests submit. *)
Definition demo_Decimal (text : string) : option Q :=
  if String.eqb text "750.00" then Some (75000 # 100)
  else if String.eqb text "12.50" then Some (1250 # 100)
  else if String.eqb text "0.001" then Some (1 # 1000)
  else if String.eqb text "0" then Some 0%Q
  else if String.eqb text "-5" then Some (-5 # 1)
  else None.

(** The demo expense of 15 March 2024 as stored, and as it is handed to
    [save] after its date was edited to 2 April 2024. *)
Definition demo_lunch : Expense.t :=
  Expense.mk (Some 7) 1 "Food" 1250 "lunch" (datetime.mk 2024 3 15 12 0 0) "2024-03".

Definition demo_lunch_moved : Expense.t :=
  Expense.mk (Some 7) 1 "Food" 1250 "lunch" (datetime.mk 2024 4 2 12 0 0) "2024-03".

Definition demo_deposit : Investment.t :=
  Investment.mk None 1 "Savings" 20000 "deposit" (datetime.mk 2024 4 2 12 0 0) "".

(** An expense and a deposit dated in the year 999. *)
Definition demo_old_expense : Expense.t :=
  Expense.mk None 1 "Food" 1250 "lunch" (datetime.mk 999 3 15 12 0 0) "".

Definition demo_old_deposit : Investment.t :=
  Investment.mk None 1 "Savings" 20000 "deposit" (datetime.mk 999 3 15 12 0 0) "".




(** The demo ledger with its only budget in May 2024. *)
Definition demo_world_may_budget : World :=
  set_budgets demo_world [Budget.mk (Some 1) 1 "Food" 50000 "2024-05"].



(** The budget form submitted with 0.001 for Food and 0 for Bills. *)
Definition demo_subcent_post : HttpRequest.t :=
  HttpRequest.mk "POST" demo_user
    (<["budget_Food" := "0.001"]> (<["budget_Bills" := "0"]> ∅)).

(** ** More of [views.py]: transactions, listings and analytics *)

(** [form.cleaned_data] of a valid [ExpenseForm] and of a valid
    [InvestmentForm]: the four fields of their [Meta.fields]. *)
Record ExpenseFields := mkExpenseFields {
  exp_category : string;
  exp_amount : decimal2;
  exp_description : string;
  exp_date : datetime.t
}.

Record InvestmentFields := mkInvestmentFields {
  inv_investment_type : string;
  inv_amount : decimal2;
  inv_description : string;
  inv_date : datetime.t
}.

(** A calendar date, as [forms.DateField] cleans it: year, month, day. *)
Definition date : Type := Z * Z * Z.

(** [cleaned_data] of a valid [ExpenseFilterForm] or [InvestmentFilterForm];
    [kind] is the category or the investment type, empty when none is
    chosen. *)
Record FilterFields := mkFilterFields {
  flt_kind : string;
  flt_start_date : option date;
  flt_end_date : option date;
  flt_search : string
}.

(** [page_obj]: the rows of the page, its number and the number of pages. *)
Record PageObj (A : Type) := mkPageObj {
  object_list : list A;
  number : Z;
  num_pages : Z
}.
Arguments mkPageObj {A} _ _ _.
Arguments object_list {A} _.
Arguments number {A} _.
Arguments num_pages {A} _.

(** An entry of [monthly_data]. *)
Record MonthlyDatum := mkMonthlyDatum {
  datum_month : string;
  datum_expenses : float;
  datum_investments : float
}.

(** A Python number that is an [int] or a [float]. *)
Inductive num :=
| Int (n : Z)
| Float (x : float).

Record AnalyticsContext := mkAnalyticsContext {
  an_monthly_data : list MonthlyDatum;
  an_expense_breakdown : list (string * float);
  an_investment_breakdown : list (string * float);
  an_savings_rate : num;
  an_total_income : float;
  an_total_expenses : float
}.

(** What these views answer.  [Http404] is the exception that
    [get_object_or_404] raises and no view catches.  The Django form objects
    of a page's context are left out; a page is told by its template. *)
Inductive Page :=
| Http404
| plain (r : Response)
| form_page (template : string)
| expense_page (template : string) (expense : Expense.t)
| investment_page (template : string) (investment : Investment.t)
| expense_list_page (page_obj : PageObj Expense.t) (total_expenses : decimal2)
| investment_list_page (page_obj : PageObj Investment.t) (total_investments : decimal2)
| analytics_page (context : AnalyticsContext).

(** [@login_required] on a view that answers with a [Page]. *)
Definition login_required_page (view : HttpRequest.t -> M Page)
  : HttpRequest.t -> M Page :=
  fun request =>
    if User.is_authenticated (HttpRequest.user request) then view request
    else ret (plain redirect_to_login).

(** Run a query on one table of the database. *)
Definition query {T A : Type} (table : World -> list T) (q : list T -> result A) : M A :=
  fun w => (q (table w), w).

(** [get_object_or_404(Model, **lookup)]: [None] is [Http404]. *)
Definition get_object_or_404 {A : Type} (lookup : A -> bool) (tbl : list A)
  : result (option A) :=
  match List.filter lookup tbl with
  | [] => Return None
  | [x] => Return (Some x)
  | _ :: _ :: _ => Raise MultipleObjectsReturned
  end.

(** Python's comparison of tuples of integers. *)
Fixpoint tuple_leb (a b : list Z) : bool :=
  match a, b with
  | [], _ => true
  | _ :: _, [] => false
  | x :: a', y :: b' =>
      if x <? y then true else if y <? x then false else tuple_leb a' b'
  end.

Definition datetime_leb (a b : datetime.t) : bool :=
  tuple_leb
    [datetime.year a; datetime.month a; datetime.day a;
     datetime.hour a; datetime.minute a; datetime.second a]
    [datetime.year b; datetime.month b; datetime.day b;
     datetime.hour b; datetime.minute b; datetime.second b].

Definition date_leb (a b : date) : bool :=
  let '(ya, ma, da) := a in
  let '(yb, mb, db) := b in
  tuple_leb [ya; ma; da] [yb; mb; db].

(** [d.date()] *)
Definition date_of (d : datetime.t) : date :=
  (datetime.year d, datetime.month d, datetime.day d).

(** [django.core.paginator.Paginator(object_list, per_page)] with its
    defaults [orphans=0] and [allow_empty_first_page=True]. *)
Module Paginator.

Definition count {A : Type} (object_list : list A) : Z := Z.of_nat (length object_list).

Definition num_pages {A : Type} (object_list : list A) (per_page : Z) : Z :=
  let hits := Z.max 1 (count object_list - 0) in
  (hits + per_page - 1) / per_page.

(** [object_list[bottom:top]] for [0 <= bottom]. *)
Definition slice {A : Type} (l : list A) (bottom top : Z) : list A :=
  firstn (Z.to_nat (top - bottom)) (skipn (Z.to_nat bottom) l).

(** [page(number)] for a number that [validate_number] accepts. *)
Definition page {A : Type} (object_list : list A) (per_page number : Z) : PageObj A :=
  let bottom := (number - 1) * per_page in
  let top := bottom + per_page in
  let top := if count object_list <=? top + 0 then count object_list else top in
  mkPageObj (slice object_list bottom top) number (num_pages object_list per_page).

(** [get_page(number)]; [number] is [None] where [int(number)] raises, as
    it does for a missing parameter: that gives the first page, and a number
    out of range gives the last one. *)
Definition get_page {A : Type} (object_list : list A) (per_page : Z)
    (number : option Z) : PageObj A :=
  let number :=
    match number with
    | None => 1
    | Some n =>
        if n <? 1 then num_pages object_list per_page
        else if num_pages object_list per_page <? n then num_pages object_list per_page
        else n
    end in
  page object_list per_page number.

End Paginator.

(** [values(key).annotate(total=Sum('amount'))]: one group per key, in the
    order of the first row of each. *)
Fixpoint add_to_group (key : string) (amount : decimal2)
    (groups : list (string * decimal2)) : list (string * decimal2) :=
  match groups with
  | [] => [(key, amount)]
  | (k, total) :: rest =>
      if String.eqb k key then (k, total + amount) :: rest
      else (k, total) :: add_to_group key amount rest
  end.

Definition group_totals (rows : list (string * decimal2)) : list (string * decimal2) :=
  fold_left (fun groups row => add_to_group (fst row) (snd row) groups) rows [].

(** The breakdown block of [dashboard], [analytics] and [download_report]:
    [.values(key).annotate(total=Sum('amount')).order_by('-total')], each
    total as a float. *)
Definition breakdown_totals (rows : list (string * decimal2)) : list (string * decimal2) :=
  order_by (fun a b => snd b <=? snd a) (group_totals rows).

Definition expense_breakdown (user : User.t) (current_month : string)
    (expenses : list Expense.t) : list (string * float) :=
  let expense_qs :=
    breakdown_totals
      (map (fun e => (Expense.category e, Expense.amount e))
         (List.filter
            (fun e => (Expense.user e =? User.id user)
                      && String.eqb (Expense.month_year e) current_month)
            expenses)) in
  map (fun item => (fst item, float_of_decimal (or_zero (Some (snd item))))) expense_qs.

Definition investment_breakdown (user : User.t) (current_month : string)
    (investments : list Investment.t) : list (string * float) :=
  let investment_qs :=
    breakdown_totals
      (map (fun i => (Investment.investment_type i, Investment.amount i))
         (List.filter
            (fun i => (Investment.user i =? User.id user)
                      && String.eqb (Investment.month_year i) current_month)
            investments)) in
  map (fun item => (fst item, float_of_decimal (or_zero (Some (snd item))))) investment_qs.

(** [Expense.objects.filter(user=request.user)[:5]] of [dashboard], in the
    model's ordering [['-date']]. *)
Definition recent_expenses (user : User.t) (expenses : list Expense.t) : list Expense.t :=
  firstn 5
    (order_by (fun a b => datetime_leb (Expense.date b) (Expense.date a))
       (List.filter (fun e => Expense.user e =? User.id user) expenses)).

Definition recent_investments (user : User.t) (investments : list Investment.t)
  : list Investment.t :=
  firstn 5
    (order_by (fun a b => datetime_leb (Investment.date b) (Investment.date a))
       (List.filter (fun i => Investment.user i =? User.id user) investments)).

(** The loop of [analytics] over the months: one entry per [i], appended in
    the order of the steps. *)
Fixpoint monthly_points (now : datetime.t) (user : User.t) (expenses : list Expense.t)
    (investments : list Investment.t) (steps : list Z) : result (list MonthlyDatum) :=
  match steps with
  | [] => Return []
  | i :: steps' =>
      match datetime.sub_days now (30 * i) with
      | None => Raise OverflowError
      | Some d =>
          let month := datetime.strftime d "%Y-%m" in
          let month_expenses :=
            or_zero (Sum (map Expense.amount
              (List.filter
                 (fun e => (Expense.user e =? User.id user)
                           && String.eqb (Expense.month_year e) month)
                 expenses))) in
          let month_investments :=
            or_zero (Sum (map Investment.amount
              (List.filter
                 (fun i => (Investment.user i =? User.id user)
                           && String.eqb (Investment.month_year i) month)
                 investments))) in
          match monthly_points now user expenses investments steps' with
          | Return points =>
              Return (mkMonthlyDatum month (float_of_decimal month_expenses)
                        (float_of_decimal month_investments) :: points)
          | Raise e => Raise e
          end
      end
  end.

Definition monthly_data (now : datetime.t) (user : User.t) (expenses : list Expense.t)
    (investments : list Investment.t) : result (list MonthlyDatum) :=
  match monthly_points now user expenses investments (range 12) with
  | Return points => Return (rev points)
  | Raise e => Raise e
  end.

Definition analytics_view (now : datetime.t) (request : HttpRequest.t) : M Page :=
  let user := HttpRequest.user request in
  let* w := get_world in
  let* monthly_data := lift (monthly_data now user (expenses w) (investments w)) in
  let current_month := datetime.strftime now "%Y-%m" in
  let expense_breakdown := expense_breakdown user current_month (expenses w) in
  let investment_breakdown := investment_breakdown user current_month (investments w) in
  let* (profile, created) :=
    on_table profiles set_profiles
      (get_or_create (fun p => UserProfile.user p =? User.id user)
                     (UserProfile.mk None (User.id user) 0)) in
  let total_income := float_of_decimal (UserProfile.monthly_salary profile) in
  let total_expenses :=
    float_of_decimal
      (or_zero (Sum (map Expense.amount
         (List.filter
            (fun e => (Expense.user e =? User.id user)
                      && String.eqb (Expense.month_year e) current_month)
            (expenses w))))) in
  let savings_rate :=
    if (0 <? total_income)%float
    then Float (((total_income - total_expenses) / total_income) * 100)%float
    else Int 0 in
  ret (analytics_page
         (mkAnalyticsContext monthly_data expense_breakdown investment_breakdown
            savings_rate total_income total_expenses)).

Definition analytics (now : datetime.t) : HttpRequest.t -> M Page :=
  login_required_page (analytics_view now).

Section TransactionViews.

(** What [form.is_valid()] makes of the submitted data: the cleaned fields,
    or [None] for a form with errors.  The validation of a [ModelForm] is
    Django's. *)
Variable ExpenseForm : gmap string string -> option ExpenseFields.
Variable InvestmentForm : gmap string string -> option InvestmentFields.

(** [description__icontains=search] in the database: [icontains text search]. *)
Variable icontains : string -> string -> bool.

Definition add_expense_view (request : HttpRequest.t) : M Page :=
  let user := HttpRequest.user request in
  if String.eqb (HttpRequest.method request) "POST" then
    match ExpenseForm (HttpRequest.POST request) with
    | Some cleaned =>
        (* form.save(commit=False), then expense.user = request.user *)
        let expense :=
          Expense.mk None (User.id user) (exp_category cleaned) (exp_amount cleaned)
            (exp_description cleaned) (exp_date cleaned) "" in
        let* _ := on_table expenses set_expenses (Expense.save expense) in
        let* _ := messages_add SUCCESS "Expense added successfully!" in
        ret (plain (redirect "expense_list"))
    | None => ret (form_page "budget/add_expense.html")
    end
  else ret (form_page "budget/add_expense.html").

Definition add_expense : HttpRequest.t -> M Page := login_required_page add_expense_view.

Definition edit_expense_view (expense_id : Z) (request : HttpRequest.t) : M Page :=
  let user := HttpRequest.user request in
  let* found :=
    query expenses
      (get_object_or_404
         (fun e => has_pk expense_id e && (Expense.user e =? User.id user))) in
  match found with
  | None => ret Http404
  | Some expense =>
      if String.eqb (HttpRequest.method request) "POST" then
        match ExpenseForm (HttpRequest.POST request) with
        | Some cleaned =>
            (* form.save(): the cleaned fields are set on the instance *)
            let expense :=
              Expense.mk (Expense.id expense) (Expense.user expense)
                (exp_category cleaned) (exp_amount cleaned) (exp_description cleaned)
                (exp_date cleaned) (Expense.month_year expense) in
            let* _ := on_table expenses set_expenses (Expense.save expense) in
            let* _ := messages_add SUCCESS "Expense updated successfully!" in
            ret (plain (redirect "expense_list"))
        | None => ret (form_page "budget/edit_expense.html")
        end
      else ret (form_page "budget/edit_expense.html")
  end.

Definition edit_expense (expense_id : Z) : HttpRequest.t -> M Page :=
  login_required_page (edit_expense_view expense_id).

Definition delete_expense_view (expense_id : Z) (request : HttpRequest.t) : M Page :=
  let user := HttpRequest.user request in
  let* found :=
    query expenses
      (get_object_or_404
         (fun e => has_pk expense_id e && (Expense.user e =? User.id user))) in
  match found with
  | None => ret Http404
  | Some expense =>
      if String.eqb (HttpRequest.method request) "POST" then
        let* _ :=
          on_table expenses set_expenses
            (fun tbl => Return (delete (is_row expense) tbl)) in
        let* _ := messages_add SUCCESS "Expense deleted successfully!" in
        ret (plain (redirect "expense_list"))
      else ret (expense_page "budget/delete_expense.html" expense)
  end.

Definition delete_expense (expense_id : Z) : HttpRequest.t -> M Page :=
  login_required_page (delete_expense_view expense_id).

Definition add_investment_view (request : HttpRequest.t) : M Page :=
  let user := HttpRequest.user request in
  if String.eqb (HttpRequest.method request) "POST" then
    match InvestmentForm (HttpRequest.POST request) with
    | Some cleaned =>
        let investment :=
          Investment.mk None (User.id user) (inv_investment_type cleaned)
            (inv_amount cleaned) (inv_description cleaned) (inv_date cleaned) "" in
        let* _ := on_table investments set_investments (Investment.save investment) in
        let* _ := messages_add SUCCESS "Investment added successfully!" in
        ret (plain (redirect "investment_list"))
    | None => ret (form_page "budget/add_investment.html")
    end
  else ret (form_page "budget/add_investment.html").

Definition add_investment : HttpRequest.t -> M Page :=
  login_required_page add_investment_view.

Definition edit_investment_view (investment_id : Z) (request : HttpRequest.t) : M Page :=
  let user := HttpRequest.user request in
  let* found :=
    query investments
      (get_object_or_404
         (fun i => has_pk investment_id i && (Investment.user i =? User.id user))) in
  match found with
  | None => ret Http404
  | Some investment =>
      if String.eqb (HttpRequest.method request) "POST" then
        match InvestmentForm (HttpRequest.POST request) with
        | Some cleaned =>
            let investment :=
              Investment.mk (Investment.id investment) (Investment.user investment)
                (inv_investment_type cleaned) (inv_amount cleaned)
                (inv_description cleaned) (inv_date cleaned)
                (Investment.month_year investment) in
            let* _ := on_table investments set_investments (Investment.save investment) in
            let* _ := messages_add SUCCESS "Investment updated successfully!" in
            ret (plain (redirect "investment_list"))
        | None => ret (form_page "budget/edit_investment.html")
        end
      else ret (form_page "budget/edit_investment.html")
  end.

Definition edit_investment (investment_id : Z) : HttpRequest.t -> M Page :=
  login_required_page (edit_investment_view investment_id).

Definition delete_investment_view (investment_id : Z) (request : HttpRequest.t)
  : M Page :=
  let user := HttpRequest.user request in
  let* found :=
    query investments
      (get_object_or_404
         (fun i => has_pk investment_id i && (Investment.user i =? User.id user))) in
  match found with
  | None => ret Http404
  | Some investment =>
      if String.eqb (HttpRequest.method request) "POST" then
        let* _ :=
          on_table investments set_investments
            (fun tbl => Return (delete (is_row investment) tbl)) in
        let* _ := messages_add SUCCESS "Investment deleted successfully!" in
        ret (plain (redirect "investment_list"))
      else ret (investment_page "budget/delete_investment.html" investment)
  end.

Definition delete_investment (investment_id : Z) : HttpRequest.t -> M Page :=
  login_required_page (delete_investment_view investment_id).

(** The filters of [expense_list]; [cleaned] is [None] when the filter form
    is not valid, and then no filter applies. *)
Definition filter_expenses (cleaned : option FilterFields) (expenses : list Expense.t)
  : list Expense.t :=
  match cleaned with
  | None => expenses
  | Some cleaned_data =>
      let expenses :=
        if negb (String.eqb (flt_kind cleaned_data) "")
        then List.filter
               (fun e => String.eqb (Expense.category e) (flt_kind cleaned_data)) expenses
        else expenses in
      let expenses :=
        match flt_start_date cleaned_data with
        | Some start_date =>
            List.filter (fun e => date_leb start_date (date_of (Expense.date e))) expenses
        | None => expenses
        end in
      let expenses :=
        match flt_end_date cleaned_data with
        | Some end_date =>
            List.filter (fun e => date_leb (date_of (Expense.date e)) end_date) expenses
        | None => expenses
        end in
      if negb (String.eqb (flt_search cleaned_data) "")
      then List.filter
             (fun e => icontains (Expense.description e) (flt_search cleaned_data))
             expenses
      else expenses
  end.

(** [cleaned] and [page_number] are what Django reads from [request.GET]:
    the cleaned filter form and [int] of the [page] parameter. *)
Definition expense_list_view (cleaned : option FilterFields) (page_number : option Z)
    (request : HttpRequest.t) : M Page :=
  let user := HttpRequest.user request in
  let* w := get_world in
  let expenses :=
    order_by (fun a b => datetime_leb (Expense.date b) (Expense.date a))
      (List.filter (fun e => Expense.user e =? User.id user) (expenses w)) in
  let expenses := filter_expenses cleaned expenses in
  let page_obj := Paginator.get_page expenses 20 page_number in
  let total_expenses := or_zero (Sum (map Expense.amount expenses)) in
  ret (expense_list_page page_obj total_expenses).

Definition expense_list (cleaned : option FilterFields) (page_number : option Z)
  : HttpRequest.t -> M Page :=
  login_required_page (expense_list_view cleaned page_number).

Definition filter_investments (cleaned : option FilterFields)
    (investments : list Investment.t) : list Investment.t :=
  match cleaned with
  | None => investments
  | Some cleaned_data =>
      let investments :=
        if negb (String.eqb (flt_kind cleaned_data) "")
        then List.filter
               (fun i => String.eqb (Investment.investment_type i) (flt_kind cleaned_data))
               investments
        else investments in
      let investments :=
        match flt_start_date cleaned_data with
        | Some start_date =>
            List.filter (fun i => date_leb start_date (date_of (Investment.date i)))
                        investments
        | None => investments
        end in
      let investments :=
        match flt_end_date cleaned_data with
        | Some end_date =>
            List.filter (fun i => date_leb (date_of (Investment.date i)) end_date)
                        investments
        | None => investments
        end in
      if negb (String.eqb (flt_search cleaned_data) "")
      then List.filter
             (fun i => icontains (Investment.description i) (flt_search cleaned_data))
             investments
      else investments
  end.

Definition investment_list_view (cleaned : option FilterFields)
    (page_number : option Z) (request : HttpRequest.t) : M Page :=
  let user := HttpRequest.user request in
  let* w := get_world in
  let investments :=
    order_by (fun a b => datetime_leb (Investment.date b) (Investment.date a))
      (List.filter (fun i => Investment.user i =? User.id user) (investments w)) in
  let investments := filter_investments cleaned investments in
  let page_obj := Paginator.get_page investments 20 page_number in
  let total_investments := or_zero (Sum (map Investment.amount investments)) in
  ret (investment_list_page page_obj total_investments).

Definition investment_list (cleaned : option FilterFields) (page_number : option Z)
  : HttpRequest.t -> M Page :=
  login_required_page (investment_list_view cleaned page_number).

End TransactionViews.

(** ** [seed_demo_data]: the month of step [m] *)

(** [while month_index < 0: month_index += 12; year -= 1], run for at most
    [fuel] rounds; [None] when the loop has not ended by then. *)
Fixpoint shift_years (fuel : nat) (month_index year : Z) : option (Z * Z) :=
  if month_index <? 0 then
    match fuel with
    | O => None
    | S fuel' => shift_years fuel' (month_index + 12) (year - 1)
    end
  else Some (month_index, year).

(** The date [d] that [handle] computes for the step [m] of its loop; the
    inner [None] is the [ValueError] of the [datetime] constructor. *)
Definition seed_month (fuel : nat) (now : datetime.t) (m : Z)
  : option (option datetime.t) :=
  let month_date := datetime.mk (datetime.year now) (datetime.month now) 1 0 0 0 in
  let month_index := datetime.month month_date - m - 1 in
  let year := datetime.year month_date in
  match shift_years fuel month_index year with
  | None => None
  | Some (month_index, year) =>
      let d := datetime.mk year (month_index + 1) 15 12 0 0 in
      Some (if datetime.valid d then Some d else None)
  end.

(** ** Demo requests for the transaction pages *)

(** A form that accepts a category and an amount [demo_Decimal] reads as a
    non-negative decimal of two places, and dates the transaction at the demo
    clock. *)
Definition demo_ExpenseForm (data : gmap string string) : option ExpenseFields :=
  match data !! "category", data !! "amount" with
  | Some category, Some amount =>
      match demo_Decimal amount with
      | Some value =>
          if Qle_bool 0 value && Qeq_bool (inject_Z (two_places value) / 100) value
          then Some (mkExpenseFields category (two_places value)
                       (default "" (data !! "description")) demo_now)
          else None
      | None => None
      end
  | _, _ => None
  end.

Definition demo_InvestmentForm (data : gmap string string) : option InvestmentFields :=
  match data !! "investment_type", data !! "amount" with
  | Some investment_type, Some amount =>
      match demo_Decimal amount with
      | Some value =>
          if Qle_bool 0 value && Qeq_bool (inject_Z (two_places value) / 100) value
          then Some (mkInvestmentFields investment_type (two_places value)
                       (default "" (data !! "description")) demo_now)
          else None
      | None => None
      end
  | _, _ => None
  end.

(** The transaction form submitted with 12.50 for a Food lunch or a Savings
    deposit. *)
Definition demo_transaction_post : HttpRequest.t :=
  HttpRequest.mk "POST" demo_user
    (<["category" := "Food"]> (<["investment_type" := "Savings"]>
       (<["amount" := "12.50"]> (<["description" := "lunch"]> ∅)))).

(** Another user, who owns the expense 4 of the demo ledger. *)
Definition demo_other_user : User.t :=
  User.mk 2 "other" "" "other@example.com" true.

(** ** Reference definitions for the listings *)

(** Every element of [l] may stand before the ones that follow it. *)
Fixpoint ordered {A : Type} (before : A -> A -> bool) (l : list A) : bool :=
  match l with
  | [] => true
  | x :: rest => forallb (before x) rest && ordered before rest
  end.

(** A transaction of the given kind, description and date passes the
    filter form: no valid form filters nothing, and an empty field of a
    valid form does not filter. *)
Definition passes (icontains : string -> string -> bool) (cleaned : option FilterFields)
    (kind description : string) (d : datetime.t) : bool :=
  match cleaned with
  | None => true
  | Some f =>
      (String.eqb (flt_kind f) "" || String.eqb kind (flt_kind f))
      && match flt_start_date f with
         | Some start_date => date_leb start_date (date_of d)
         | None => true
         end
      && match flt_end_date f with
         | Some end_date => date_leb (date_of d) end_date
         | None => true
         end
      && (String.eqb (flt_search f) "" || icontains description (flt_search f))
  end.

Definition expense_passes (icontains : string -> string -> bool)
    (cleaned : option FilterFields) (e : Expense.t) : bool :=
  passes icontains cleaned (Expense.category e) (Expense.description e) (Expense.date e).

Definition investment_passes (icontains : string -> string -> bool)
    (cleaned : option FilterFields) (i : Investment.t) : bool :=
  passes icontains cleaned (Investment.investment_type i) (Investment.description i)
    (Investment.date i).

(** The rows a listing shows, and the number of its pages. *)
Definition expenses_shown (answer : result Page * World) : list Expense.t :=
  match fst answer with
  | Return (expense_list_page page_obj _) => object_list page_obj
  | _ => []
  end.

Definition investments_shown (answer : result Page * World) : list Investment.t :=
  match fst answer with
  | Return (investment_list_page page_obj _) => object_list page_obj
  | _ => []
  end.

Definition pages_of (answer : result Page * World) : Z :=
  match fst answer with
  | Return (expense_list_page page_obj _) => num_pages page_obj
  | Return (investment_list_page page_obj _) => num_pages page_obj
  | _ => 0
  end.

(** A search that finds the text of the demo ledger by its first word. *)
Definition demo_icontains (text search : string) : bool := String.prefix search text.

(** The filter form asking for Food from 1 June 2024 on. *)
Definition demo_filter : FilterFields :=
  mkFilterFields "Food" (Some (2024, 6, 1)) None "".

(** ** Reference definitions for the analytics *)

(** [p] is the entry of the step [i]: the bucket of the date [30 * i] days
    before [now], with the owner's expense and investment totals of that
    bucket. *)
Definition datum_at (now : datetime.t) (user : User.t) (exps : list Expense.t)
    (invs : list Investment.t) (i : Z) (p : MonthlyDatum) : Prop :=
  exists d,
    datetime.sub_days now (30 * i) = Some d
    /\ p = mkMonthlyDatum (datetime.strftime d "%Y-%m")
             (float_of_decimal
                (total_where (expense_in (User.id user) (datetime.strftime d "%Y-%m"))
                             Expense.amount exps))
             (float_of_decimal
                (total_where (investment_in (User.id user) (datetime.strftime d "%Y-%m"))
                             Investment.amount invs)).

(** Only the profile table may differ between [w] and [w']. *)
Definition only_profiles (w w' : World) : Prop :=
  expenses w' = expenses w /\ investments w' = investments w
  /\ budgets w' = budgets w /\ reports w' = reports w
  /\ files w' = files w /\ messages w' = messages w.



(** ** Reference definitions for the dates *)

(** The month and the day that [_ord2ymd] reads off the day [n] of a year,
    counted from 0: its estimate of the month, corrected where it is one
    too large. *)
Definition month_and_day (leapyear : bool) (n : Z) : Z * Z :=
  let month := Z.shiftr (n + 50) 5 in
  let preceding :=
    datetime.item datetime._DAYS_BEFORE_MONTH month
    + (if (2 <? month) && leapyear then 1 else 0) in
  if n <? preceding then
    let month := month - 1 in
    let preceding :=
      preceding
      - (datetime.item datetime._DAYS_IN_MONTH month
         + (if (month =? 2) && leapyear then 1 else 0)) in
    (month, n - preceding + 1)
  else (month, n - preceding + 1).

(** * Properties *)

(** ** Aggregates *)

Lemma fold_left_add_shift (l : list Z) (a : Z) :
  fold_left Z.add l a = a + fold_left Z.add l 0.
Proof.
  revert a; induction l as [|x l IH]; intros a; simpl.
  - lia.
  - rewrite IH, (IH (0 + x)). lia.
Qed.

Lemma fold_left_total_where {A : Type} (p : A -> bool) (amount : A -> decimal2)
    (rows : list A) :
  fold_left Z.add (map amount (List.filter p rows)) 0 = total_where p amount rows.
Proof.
  induction rows as [|r rows IH]; simpl; [reflexivity|].
  destruct (p r); simpl.
  - rewrite fold_left_add_shift, IH. reflexivity.
  - rewrite IH. reflexivity.
Qed.

(** [aggregate(Sum) or 0] is the plain sum over the matching rows. *)
Lemma or_zero_Sum {A : Type} (p : A -> bool) (amount : A -> decimal2) (rows : list A) :
  or_zero (Sum (map amount (List.filter p rows))) = total_where p amount rows.
Proof.
  rewrite <- fold_left_total_where.
  destruct (map amount (List.filter p rows)) as [|x l] eqn:E; [reflexivity|].
  unfold Sum, or_zero.
  destruct (fold_left Z.add (x :: l) 0 =? 0) eqn:Z0; [|reflexivity].
  apply Z.eqb_eq in Z0. symmetry. exact Z0.
Qed.

Lemma total_where_none {A : Type} (p : A -> bool) (amount : A -> decimal2)
    (rows : list A) :
  List.filter p rows = [] -> total_where p amount rows = 0.
Proof.
  intros E. rewrite <- fold_left_total_where, E. reflexivity.
Qed.


(** ** Text *)

Lemma append_nil_r (s : string) : s +:+ "" = s.
Proof.
  induction s as [|c s IH]; [reflexivity|].
  change (String c (s +:+ "") = String c s). rewrite IH. reflexivity.
Qed.

Lemma append_assoc (a b c : string) : (a +:+ b) +:+ c = a +:+ (b +:+ c).
Proof.
  induction a as [|x a IH]; [reflexivity|].
  change (String x ((a +:+ b) +:+ c) = String x (a +:+ (b +:+ c))).
  rewrite IH. reflexivity.
Qed.

Lemma length_append (a b : string) :
  String.length (a +:+ b) = (String.length a + String.length b)%nat.
Proof.
  induction a as [|x a IH]; [reflexivity|].
  change (S (String.length (a +:+ b)) = S (String.length a + String.length b)).
  rewrite IH. reflexivity.
Qed.

Lemma length_fixed_digits (w : nat) (n : Z) : String.length (fixed_digits w n) = w.
Proof.
  revert n; induction w as [|w IH]; intros n; [reflexivity|].
  cbn [fixed_digits]. rewrite length_append, IH. cbn. lia.
Qed.

Lemma zero_padded_fixed (w : nat) (n : Z) :
  n < 10 ^ Z.of_nat w -> zero_padded w n = fixed_digits w n.
Proof.
  intros Hn. unfold zero_padded.
  destruct (n <? 10 ^ Z.of_nat w) eqn:E; [reflexivity|].
  apply Z.ltb_ge in E. lia.
Qed.

(** ** Month buckets *)

Lemma strftime_Ym (d : datetime.t) :
  datetime.strftime d "%Y-%m"
  = str_int (datetime.year d) +:+ "-" +:+ zero_padded 2 (datetime.month d).
Proof.
  unfold datetime.strftime. simpl. unfold datetime.directive. simpl.
  rewrite append_nil_r. reflexivity.
Qed.

(** A year of four digits is printed as its four digits. *)
Lemma str_int_four_digits (y : Z) :
  1000 <= y <= 9999 -> str_int y = fixed_digits 4 y.
Proof.
  intros Hy.
  assert (H : forallb (fun k => String.eqb (str_int (1000 + Z.of_nat k))
                                           (fixed_digits 4 (1000 + Z.of_nat k)))
                      (seq 0 (Z.to_nat 9000)) = true) by (vm_compute; reflexivity).
  rewrite forallb_forall in H.
  specialize (H (Z.to_nat (y - 1000))).
  rewrite Z2Nat.id in H by lia. replace (1000 + (y - 1000)) with y in H by lia.
  apply String.eqb_eq, H, in_seq. lia.
Qed.

Lemma valid_fields (d : datetime.t) :
  datetime.valid d = true ->
  1 <= datetime.year d <= 9999 /\ 1 <= datetime.month d <= 12
  /\ 1 <= datetime.day d <= datetime._days_in_month (datetime.year d) (datetime.month d).
Proof.
  unfold datetime.valid, datetime.MINYEAR, datetime.MAXYEAR. intros H.
  repeat (apply andb_prop in H; destruct H as [H ?]).
  repeat match goal with
         | H : (_ <=? _) = true |- _ => apply Z.leb_le in H
         end.
  lia.
Qed.

(** For a valid timestamp from the year 1000 on the code's bucket is the
    spec's bucket. *)
Lemma strftime_Ym_spec (d : datetime.t) :
  datetime.valid d = true -> 1000 <= datetime.year d ->
  datetime.strftime d "%Y-%m" = spec_month_bucket d.
Proof.
  intros V Hk. apply valid_fields in V. destruct V as (Hy & Hm & _).
  rewrite strftime_Ym. unfold spec_month_bucket.
  rewrite str_int_four_digits by lia.
  rewrite zero_padded_fixed; [reflexivity|]. simpl. lia.
Qed.

Lemma length_spec_month_bucket (d : datetime.t) :
  String.length (spec_month_bucket d) = 7%nat.
Proof.
  unfold spec_month_bucket. rewrite !length_append, !length_fixed_digits. reflexivity.
Qed.

(** ** Saving rows *)

Section SaveFacts.
Context {A : Type} `{Model A}.

Hypothesis with_pk_sets : forall k x, pk (with_pk k x) = Some k.

Lemma next_pk_above (tbl : list A) (r : A) (k : Z) :
  In r tbl -> pk r = Some k -> k < next_pk tbl.
Proof using Type.
  unfold next_pk. induction tbl as [|x tbl IH]; simpl; [tauto|].
  intros [->|Hin] Hk.
  - rewrite Hk. lia.
  - specialize (IH Hin Hk). destruct (pk x); lia.
Qed.

Lemma has_pk_iff (k : Z) (r : A) : has_pk k r = true <-> pk r = Some k.
Proof using Type.
  unfold has_pk. destruct (pk r) as [k'|]; split; intros E; try discriminate.
  - apply Z.eqb_eq in E. congruence.
  - injection E as ->. apply Z.eqb_refl.
Qed.

(** After a save that is not refused, the saved instance is in the table
    and is the only row with its key. *)
Lemma Model_save_stored (x x' : A) (tbl tbl' : list A) :
  Model_save x tbl = Return (x', tbl') ->
  In x' tbl' /\ (forall r, In r tbl' -> pk r = pk x' -> pk x' <> None -> r = x').
Proof using with_pk_sets.
  unfold Model_save. destruct (violates x tbl); [discriminate|].
  destruct (pk x) as [k|] eqn:Hk.
  - destruct (existsb (has_pk k) tbl) eqn:Hex; intros E; injection E as <- <-.
    + split.
      * apply existsb_exists in Hex. destruct Hex as (r & Hin & Hr).
        apply in_map_iff. exists r. rewrite Hr. auto.
      * intros r Hin Hpk _. apply in_map_iff in Hin. destruct Hin as (r0 & E & _).
        destruct (has_pk k r0) eqn:Hr0; [congruence|]. subst r0.
        rewrite Hk in Hpk. apply has_pk_iff in Hpk. congruence.
    + split; [apply in_or_app; right; left; reflexivity|].
      intros r Hin Hpk _. apply in_app_or in Hin. destruct Hin as [Hin|[<-|[]]]; [|reflexivity].
      exfalso. rewrite Hk in Hpk.
      assert (existsb (has_pk k) tbl = true); [|congruence].
      apply existsb_exists. exists r. split; [assumption|]. apply has_pk_iff. assumption.
  - intros E; injection E as <- <-.
    split; [apply in_or_app; right; left; reflexivity|].
    intros r Hin Hpk _. apply in_app_or in Hin. destruct Hin as [Hin|[<-|[]]]; [|reflexivity].
    exfalso. rewrite with_pk_sets in Hpk.
    pose proof (next_pk_above tbl r _ Hin Hpk). lia.
Qed.
End SaveFacts.

Lemma Expense_save_total (e : Expense.t) (tbl : list Expense.t) :
  exists e' tbl', Expense.save e tbl = Return (e', tbl')
    /\ Expense.month_year e' = datetime.strftime (Expense.date e) "%Y-%m"
    /\ Expense.date e' = Expense.date e
    /\ Expense.amount e' = Expense.amount e
    /\ (Expense.id e <> None -> Expense.id e' = Expense.id e)
    /\ Expense.id e' <> None.
Proof.
  unfold Expense.save, Model_save, violates.
  replace (existsb _ tbl) with false.
  2:{ symmetry. induction tbl; simpl; auto. }
  destruct e as [i u c a ds d m]; simpl.
  destruct i as [k|]; [destruct (existsb (has_pk k) tbl)|];
    eexists; eexists; (split; [reflexivity|]); simpl; repeat split; congruence.
Qed.

Lemma Investment_save_total (i : Investment.t) (tbl : list Investment.t) :
  exists i' tbl', Investment.save i tbl = Return (i', tbl')
    /\ Investment.month_year i' = datetime.strftime (Investment.date i) "%Y-%m"
    /\ Investment.date i' = Investment.date i
    /\ Investment.amount i' = Investment.amount i
    /\ (Investment.id i <> None -> Investment.id i' = Investment.id i)
    /\ Investment.id i' <> None.
Proof.
  unfold Investment.save, Model_save, violates.
  replace (existsb _ tbl) with false.
  2:{ symmetry. induction tbl; simpl; auto. }
  destruct i as [i u c a ds d m]; simpl.
  destruct i as [k|]; [destruct (existsb (has_pk k) tbl)|];
    eexists; eexists; (split; [reflexivity|]); simpl; repeat split; congruence.
Qed.

(** Every save of an Expense or an Investment, new or already stored,
    stores the row with the month bucket recomputed from its event timestamp,
    whatever bucket the instance carried; from the year 1000 on the bucket is
    the 4-digit year, a hyphen and the 2-digit month. *)
Lemma save_recomputes_bucket
    (e : Expense.t) (etbl : list Expense.t)
    (i : Investment.t) (itbl : list Investment.t) :
  datetime.valid (Expense.date e) = true ->
  datetime.valid (Investment.date i) = true ->
  (exists e' etbl',
      (forall supplied,
          Expense.save (Expense.set_month_year e supplied) etbl = Return (e', etbl'))
      /\ Expense.month_year e' = datetime.strftime (Expense.date e) "%Y-%m"
      /\ (1000 <= datetime.year (Expense.date e) ->
          Expense.month_year e' = spec_month_bucket (Expense.date e)
          /\ String.length (Expense.month_year e') = 7%nat)
      /\ Expense.date e' = Expense.date e
      /\ (Expense.id e <> None -> Expense.id e' = Expense.id e)
      /\ In e' etbl'
      /\ (forall r, In r etbl' -> Expense.id r = Expense.id e' -> r = e'))
  /\ (exists i' itbl',
      (forall supplied,
          Investment.save (Investment.set_month_year i supplied) itbl = Return (i', itbl'))
      /\ Investment.month_year i' = datetime.strftime (Investment.date i) "%Y-%m"
      /\ (1000 <= datetime.year (Investment.date i) ->
          Investment.month_year i' = spec_month_bucket (Investment.date i)
          /\ String.length (Investment.month_year i') = 7%nat)
      /\ Investment.date i' = Investment.date i
      /\ (Investment.id i <> None -> Investment.id i' = Investment.id i)
      /\ In i' itbl'
      /\ (forall r, In r itbl' -> Investment.id r = Investment.id i' -> r = i')).
Proof.
  intros Ve Vi. split.
  - destruct (Expense_save_total e etbl) as (e' & tbl' & Hs & Hm & Hd & _ & Hid & Hsome).
    exists e', tbl'.
    split; [|split; [|split; [|split; [|split]]]]; try assumption.
    + intros supplied. rewrite <- Hs. destruct e; reflexivity.
    + intros Hy.
      assert (Hb : Expense.month_year e' = spec_month_bucket (Expense.date e)).
      { rewrite Hm. apply strftime_Ym_spec; assumption. }
      split; [assumption|]. rewrite Hb. apply length_spec_month_bucket.
    + unfold Expense.save in Hs.
      apply (Model_save_stored (A := Expense.t)) in Hs; [|reflexivity].
      destruct Hs as [Hin Huniq]. split; [assumption|].
      intros r Hr Hpk. apply Huniq; assumption.
  - destruct (Investment_save_total i itbl) as (i' & tbl' & Hs & Hm & Hd & _ & Hid & Hsome).
    exists i', tbl'.
    split; [|split; [|split; [|split; [|split]]]]; try assumption.
    + intros supplied. rewrite <- Hs. destruct i; reflexivity.
    + intros Hy.
      assert (Hb : Investment.month_year i' = spec_month_bucket (Investment.date i)).
      { rewrite Hm. apply strftime_Ym_spec; assumption. }
      split; [assumption|]. rewrite Hb. apply length_spec_month_bucket.
    + unfold Investment.save in Hs.
      apply (Model_save_stored (A := Investment.t)) in Hs; [|reflexivity].
      destruct Hs as [Hin Huniq]. split; [assumption|].
      intros r Hr Hpk. apply Huniq; assumption.
Qed.

(** C2, at the failing input: an expense and an investment dated 15 March of
    the year 999, a date [datetime] accepts, are stored under the bucket
    999-03 - six characters, the year not padded - where the claim, like the
    field's own help text, says 0999-03. *)
Theorem save_short_year_bucket :
  datetime.valid (Expense.date demo_old_expense) = true
  /\ datetime.valid (Investment.date demo_old_deposit) = true
  /\ (forall supplied etbl,
        exists e' etbl',
          Expense.save (Expense.set_month_year demo_old_expense supplied) etbl
          = Return (e', etbl')
          /\ Expense.date e' = datetime.mk 999 3 15 12 0 0
          /\ Expense.month_year e' = "999-03"
          /\ String.length (Expense.month_year e') = 6%nat
          /\ spec_month_bucket (Expense.date e') = "0999-03")
  /\ (forall supplied itbl,
        exists i' itbl',
          Investment.save (Investment.set_month_year demo_old_deposit supplied) itbl
          = Return (i', itbl')
          /\ Investment.date i' = datetime.mk 999 3 15 12 0 0
          /\ Investment.month_year i' = "999-03"
          /\ String.length (Investment.month_year i') = 6%nat
          /\ spec_month_bucket (Investment.date i') = "0999-03").
Proof.
  split; [reflexivity|]. split; [reflexivity|]. split.
  - intros supplied etbl.
    destruct (Expense_save_total (Expense.set_month_year demo_old_expense supplied) etbl)
      as (e' & tbl' & Hs & Hm & Hd & _).
    exists e', tbl'. split; [exact Hs|].
    cbn in Hm, Hd. split; [exact Hd|]. split; [exact Hm|].
    rewrite Hm, Hd. split; reflexivity.
  - intros supplied itbl.
    destruct (Investment_save_total (Investment.set_month_year demo_old_deposit supplied)
                itbl) as (i' & tbl' & Hs & Hm & Hd & _).
    exists i', tbl'. split; [exact Hs|].
    cbn in Hm, Hd. split; [exact Hd|]. split; [exact Hm|].
    rewrite Hm, Hd. split; reflexivity.
Qed.

(** ** Query sets *)

Lemma total_where_ext {A : Type} (p q : A -> bool) (amount : A -> decimal2)
    (rows : list A) :
  (forall r, p r = q r) -> total_where p amount rows = total_where q amount rows.
Proof.
  intros E. induction rows as [|r rows IH]; simpl; [reflexivity|].
  rewrite E, IH. reflexivity.
Qed.

Lemma In_insert_sorted {A : Type} (before : A -> A -> bool) (x y : A) (l : list A) :
  In y (insert_sorted before x l) <-> y = x \/ In y l.
Proof.
  induction l as [|z l IH]; simpl.
  - intuition.
  - destruct (before x z); simpl; [intuition|]. rewrite IH. intuition.
Qed.

Lemma In_order_by {A : Type} (before : A -> A -> bool) (y : A) (l : list A) :
  In y (order_by before l) <-> In y l.
Proof.
  unfold order_by. induction l as [|x l IH]; simpl; [tauto|].
  rewrite In_insert_sorted, IH. intuition.
Qed.

Lemma length_insert_sorted {A : Type} (before : A -> A -> bool) (x : A) (l : list A) :
  length (insert_sorted before x l) = S (length l).
Proof.
  induction l as [|z l IH]; simpl; [reflexivity|].
  destruct (before x z); simpl; [reflexivity|]. rewrite IH. reflexivity.
Qed.

Lemma length_order_by {A : Type} (before : A -> A -> bool) (l : list A) :
  length (order_by before l) = length l.
Proof.
  unfold order_by. induction l as [|x l IH]; simpl; [reflexivity|].
  rewrite length_insert_sorted, IH. reflexivity.
Qed.

Lemma order_by_nil_iff {A : Type} (before : A -> A -> bool) (l : list A) :
  order_by before l = [] <-> l = [].
Proof.
  split; intros E.
  - apply length_zero_iff_nil. rewrite <- (length_order_by before), E. reflexivity.
  - subst. reflexivity.
Qed.

(** Two rows of a table that agree on a unique key are one row. *)
Lemma unique_together_In {A : Type} (same : A -> A -> bool) (tbl : list A) (x y : A) :
  (forall a b, same a b = same b a) ->
  unique_together same tbl = true ->
  In x tbl -> In y tbl -> same x y = true -> x = y.
Proof.
  intros Hsym. induction tbl as [|r tbl IH]; simpl; [tauto|].
  intros U Hx Hy S. apply andb_prop in U. destruct U as [Hr U].
  apply negb_true_iff in Hr.
  assert (Hno : forall z, In z tbl -> same r z = false).
  { intros z Hz. destruct (same r z) eqn:E; [|reflexivity].
    assert (existsb (same r) tbl = true); [|congruence].
    apply existsb_exists. eauto. }
  destruct Hx as [->|Hx], Hy as [->|Hy]; auto.
  - rewrite (Hno y Hy) in S. discriminate.
  - rewrite Hsym, (Hno x Hx) in S. discriminate.
Qed.

Lemma Budget_same_key_sym (a b : Budget.t) : Budget.same_key a b = Budget.same_key b a.
Proof.
  unfold Budget.same_key.
  rewrite (Z.eqb_sym (Budget.user a)), (String.eqb_sym (Budget.category a)),
    (String.eqb_sym (Budget.month_year a)). reflexivity.
Qed.

Lemma table_ok_unique {A : Type} `{Model A} (tbl : list A) :
  table_ok tbl = true -> unique_together same_unique tbl = true.
Proof. unfold table_ok. intros E. apply andb_prop in E. tauto. Qed.

Lemma table_ok_keys {A : Type} `{Model A} (tbl : list A) :
  table_ok tbl = true -> primary_keys tbl = true.
Proof. unfold table_ok. intros E. apply andb_prop in E. tauto. Qed.

(** ** Decimal arithmetic *)

Lemma round_half_even_cases (q : Q) :
  let c := round_half_even q in
  (c = Qfloor q \/ c = Qfloor q + 1)
  /\ (inject_Z c - q <= 1 # 2)%Q /\ (q - inject_Z c <= 1 # 2)%Q.
Proof.
  intros c. unfold c, round_half_even.
  pose proof (Qfloor_le q) as Hlo. pose proof (Qlt_floor q) as Hhi.
  rewrite inject_Z_plus in Hhi. change (inject_Z 1) with 1%Q in Hhi.
  destruct (Qcompare_spec (q - inject_Z (Qfloor q)) (1 # 2)) as [E|E|E].
  - destruct (Z.even (Qfloor q)).
    + split; [left; reflexivity|]. split; lra.
    + split; [right; reflexivity|]. rewrite inject_Z_plus. change (inject_Z 1) with 1%Q.
      split; lra.
  - split; [left; reflexivity|]. split; lra.
  - split; [right; reflexivity|]. rewrite inject_Z_plus. change (inject_Z 1) with 1%Q.
    split; lra.
Qed.



Lemma round_half_even_nonneg (q : Q) : (0 <= q)%Q -> 0 <= round_half_even q.
Proof.
  intros H. destruct (round_half_even_cases q) as ([E|E] & _); rewrite E.
  - change 0 with (Qfloor 0). apply Qfloor_resp_le. assumption.
  - assert (Qfloor 0 <= Qfloor q) by (apply Qfloor_resp_le; assumption).
    change (Qfloor 0) with 0 in *. lia.
Qed.











(** ** The budget page's dictionary *)

Lemma budget_dict_other (l : list Budget.t) (d : gmap string decimal2) (c : string) :
  (forall x, In x l -> Budget.category x <> c) ->
  fold_left (fun d b => <[Budget.category b := Budget.allocated_amount b]> d) l d !! c
  = d !! c.
Proof.
  revert d; induction l as [|x l IH]; intros d Hno; simpl; [reflexivity|].
  rewrite IH by (intros y Hy; apply Hno; right; assumption).
  apply lookup_insert_ne. apply Hno. left. reflexivity.
Qed.





(** ** Dates *)

Lemma days_before_year_step (y : Z) :
  datetime._days_before_year (y + 1)
  = datetime._days_before_year y + 365 + (if datetime._is_leap y then 1 else 0).
Proof.
  unfold datetime._days_before_year, datetime._is_leap.
  replace (y + 1 - 1) with y by lia.
  destruct (y mod 4 =? 0) eqn:E4; destruct (y mod 100 =? 0) eqn:E100;
    destruct (y mod 400 =? 0) eqn:E400; cbn [andb orb negb];
    repeat match goal with
           | H : (_ =? _) = true |- _ => apply Z.eqb_eq in H
           | H : (_ =? _) = false |- _ => apply Z.eqb_neq in H
           end;
    Z.to_euclidean_division_equations; lia.
Qed.

Lemma days_before_year_mono (y z : Z) :
  y <= z -> datetime._days_before_year y <= datetime._days_before_year z.
Proof.
  unfold datetime._days_before_year. intros H.
  Z.to_euclidean_division_equations; lia.
Qed.

Lemma day_of_year_bounds (y m d : Z) :
  1 <= m <= 12 -> 1 <= d <= datetime._days_in_month y m ->
  1 <= datetime._days_before_month y m + d
    <= 365 + (if datetime._is_leap y then 1 else 0).
Proof.
  intros Hm Hd.
  assert (M : m = 1 \/ m = 2 \/ m = 3 \/ m = 4 \/ m = 5 \/ m = 6 \/ m = 7 \/ m = 8
              \/ m = 9 \/ m = 10 \/ m = 11 \/ m = 12) by lia.
  unfold datetime._days_in_month, datetime._days_before_month in *.
  destruct (datetime._is_leap y);
    repeat match goal with H : _ \/ _ |- _ => destruct H end;
    subst m; cbv -[Z.add Z.le Z.lt] in *; lia.
Qed.

(** A valid timestamp has an ordinal in Python's range. *)
Lemma toordinal_bounds (d : datetime.t) :
  datetime.valid d = true -> 1 <= datetime.toordinal d <= datetime._MAXORDINAL.
Proof.
  intros V. apply valid_fields in V. destruct V as (Hy & Hm & Hd).
  pose proof (day_of_year_bounds _ _ _ Hm Hd) as B.
  unfold datetime.toordinal, datetime._ymd2ord.
  pose proof (days_before_year_step (datetime.year d)) as S.
  pose proof (days_before_year_mono 1 (datetime.year d) ltac:(lia)) as L.
  pose proof (days_before_year_mono (datetime.year d + 1) 10000 ltac:(lia)) as U.
  change (datetime._days_before_year 1) with 0 in L.
  change (datetime._days_before_year 10000) with 3652059 in U.
  unfold datetime._MAXORDINAL. lia.
Qed.

Lemma sub_days_some (d : datetime.t) (n : Z) :
  datetime.valid d = true -> 0 <= n < datetime.toordinal d ->
  exists d', datetime.sub_days d n = Some d'.
Proof.
  intros V Hn. pose proof (toordinal_bounds d V) as B.
  unfold datetime.sub_days.
  replace (0 <? datetime.toordinal d - n) with true by (symmetry; apply Z.ltb_lt; lia).
  replace (datetime.toordinal d - n <=? datetime._MAXORDINAL) with true
    by (symmetry; apply Z.leb_le; lia).
  cbn [andb]. destruct (datetime._ord2ymd _) as [[y m] dd]. eauto.
Qed.

(** ** The spending trend *)

Lemma trend_points_steps (now : datetime.t) (user : User.t) (exps : list Expense.t)
    (steps : list Z) :
  (forall i, In i steps -> exists d, datetime.sub_days now (30 * i) = Some d) ->
  exists points,
    trend_points now user exps steps = Return points
    /\ Forall2 (point_at now user exps) steps points.
Proof.
  induction steps as [|i steps IH]; intros Hs.
  - exists []. split; [reflexivity|constructor].
  - destruct (Hs i (or_introl eq_refl)) as [d Hd].
    destruct IH as (points & Hp & Hf); [intros j Hj; apply Hs; right; assumption|].
    eexists. cbn [trend_points]. rewrite Hd, Hp. split; [reflexivity|].
    constructor; [|assumption].
    exists d. split; [assumption|]. rewrite or_zero_Sum. reflexivity.
Qed.

Lemma nth_error_range (n k : nat) :
  (k < n)%nat -> nth_error (range n) k = Some (Z.of_nat k).
Proof.
  intros H. unfold range. rewrite nth_error_map, nth_error_seq.
  destruct (Nat.ltb_spec k n); [reflexivity|lia].
Qed.

Lemma Forall2_nth_error {A B : Type} (P : A -> B -> Prop) (l1 : list A) (l2 : list B)
    (k : nat) (x : A) :
  Forall2 P l1 l2 -> nth_error l1 k = Some x ->
  exists y, nth_error l2 k = Some y /\ P x y.
Proof.
  intros F. revert k. induction F as [|a b l1 l2 Hab F IH]; intros k Hk.
  - destruct k; discriminate.
  - destruct k as [|k]; simpl in *.
    + injection Hk as <-. eauto.
    + apply IH. assumption.
Qed.

Lemma length_range (n : nat) : length (range n) = n.
Proof. unfold range. rewrite length_map, length_seq. reflexivity. Qed.


(** The trend of [months] steps exists whenever the oldest step does, and its
    [k]-th entry is the point of the step [months - 1 - k]. *)
Lemma spending_trend_points (months : nat) (now : datetime.t) (user : User.t)
    (exps : list Expense.t) :
  datetime.valid now = true ->
  30 * (Z.of_nat months - 1) < datetime.toordinal now ->
  exists points,
    spending_trend months now user exps = Return points
    /\ length points = months
    /\ forall k, (k < months)%nat ->
         exists p, nth_error points k = Some p
                   /\ point_at now user exps (Z.of_nat (months - 1 - k)) p.
Proof.
  intros V Hn.
  destruct (trend_points_steps now user exps (range months)) as (points & Hp & F).
  { intros i Hi. unfold range in Hi. apply in_map_iff in Hi.
    destruct Hi as (j & <- & Hj). apply in_seq in Hj.
    apply sub_days_some; [assumption|lia]. }
  exists (rev points). unfold spending_trend. rewrite Hp.
  pose proof (Forall2_length F) as L. rewrite length_range in L.
  split; [reflexivity|]. split; [rewrite length_rev; lia|].
  intros k Hk. rewrite nth_error_rev.
  destruct (Nat.ltb_spec k (length points)); [|lia].
  destruct (Forall2_nth_error _ _ _ (length points - S k) (Z.of_nat (months - 1 - k)) F)
    as (p & Hp' & Hpt).
  { rewrite nth_error_range by lia. do 2 f_equal. lia. }
  eauto.
Qed.

(** ** The order of bucket keys *)

Lemma leb_refl (s : string) : String.leb s s = true.
Proof.
  destruct (String.leb_total s s) as [E|E]; exact E.
Qed.

Lemma leb_trans (a b c : string) :
  String.leb a b = true -> String.leb b c = true -> String.leb a c = true.
Proof.
  intros H1 H2. apply Is_true_true.
  change (String.le a c). transitivity b; unfold String.le; apply Is_true_true; assumption.
Qed.

Lemma ltb_leb (a b : string) : String.ltb a b = true -> String.leb a b = true.
Proof.
  unfold String.ltb, String.leb. destruct (String.compare a b); congruence.
Qed.

Lemma ltb_not_leb (a b : string) : String.ltb a b = true -> String.leb b a = false.
Proof.
  unfold String.ltb, String.leb. rewrite (String.compare_antisym b a).
  destruct (String.compare a b); simpl; congruence.
Qed.

Lemma leb_neq_ltb (a b : string) : String.leb a b = true -> a <> b -> String.ltb a b = true.
Proof.
  unfold String.ltb, String.leb. intros H N.
  destruct (String.compare a b) eqn:E; try congruence.
  apply String.compare_eq_iff in E. contradiction.
Qed.

(** ** The first row of an ordered query set *)

Section FirstOfOrdered.
Context {A : Type} (before : A -> A -> bool).
Hypothesis before_refl : forall a, before a a = true.
Hypothesis before_trans :
  forall a b c, before a b = true -> before b c = true -> before a c = true.
Hypothesis before_total : forall a b, before a b = true \/ before b a = true.

Lemma first_insert_sorted (x : A) (l : list A) :
  first (insert_sorted before x l)
  = match first l with
    | None => Some x
    | Some h => if before x h then Some x else Some h
    end.
Proof using Type.
  destruct l as [|h l]; simpl; [reflexivity|].
  destruct (before x h); reflexivity.
Qed.

Lemma first_order_by (l : list A) :
  match first (order_by before l) with
  | None => l = []
  | Some h => In h l /\ forall y, In y l -> before h y = true
  end.
Proof using before_refl before_trans before_total.
  induction l as [|x l IH]; [reflexivity|].
  change (order_by before (x :: l)) with (insert_sorted before x (order_by before l)).
  rewrite first_insert_sorted.
  destruct (first (order_by before l)) as [h|].
  - destruct IH as [Hin Hmax].
    destruct (before x h) eqn:E.
    + split; [left; reflexivity|].
      intros y [<-|Hy]; [apply before_refl|].
      eapply before_trans; [exact E|]. apply Hmax. assumption.
    + split; [right; assumption|].
      intros y [<-|Hy]; [|apply Hmax; assumption].
      destruct (before_total h x) as [H|H]; [assumption|congruence].
  - subst l. split; [left; reflexivity|].
    intros y [<-|[]]. apply before_refl.
Qed.
End FirstOfOrdered.

Lemma has_budgets_filter (user : User.t) (bucket : string) (tbl : list Budget.t) :
  has_budgets (User.id user) bucket tbl = false <-> budgets_of_month user bucket tbl = [].
Proof.
  unfold has_budgets, budgets_of_month. rewrite order_by_nil_iff.
  induction tbl as [|b tbl IH]; simpl; [tauto|].
  destruct ((Budget.user b =? User.id user) && String.eqb (Budget.month_year b) bucket);
    simpl; [split; discriminate|exact IH].
Qed.

Lemma has_budgets_true (owner : Z) (bucket : string) (tbl : list Budget.t) :
  has_budgets owner bucket tbl = true
  <-> exists b, In b tbl /\ Budget.user b = owner /\ Budget.month_year b = bucket.
Proof.
  unfold has_budgets. rewrite existsb_exists. split.
  - intros (b & Hin & H). apply andb_prop in H. destruct H as [H1 H2].
    apply Z.eqb_eq in H1. apply String.eqb_eq in H2. eauto.
  - intros (b & Hin & <- & <-). exists b. split; [assumption|].
    rewrite Z.eqb_refl, String.eqb_refl. reflexivity.
Qed.

(** What [budgets_shown] picks when the requested bucket has no budgets. *)
Lemma budgets_shown_fallback (user : User.t) (requested : string) (tbl : list Budget.t) :
  has_budgets (User.id user) requested tbl = false ->
  ((forall b, In b tbl -> Budget.user b <> User.id user)
   /\ budgets_shown user requested tbl = (requested, []))
  \/ (exists used,
        most_recent (User.id user) used tbl
        /\ budgets_shown user requested tbl = (used, budgets_of_month user used tbl)).
Proof.
  intros Hnone. apply has_budgets_filter in Hnone.
  unfold budgets_shown. rewrite Hnone.
  set (before := fun a b => String.leb (Budget.month_year b) (Budget.month_year a)).
  pose proof (first_order_by before) as F.
  specialize (F ltac:(intros a; apply leb_refl)).
  specialize (F ltac:(intros a b c H1 H2; unfold before in *; eapply leb_trans; eassumption)).
  specialize (F ltac:(intros a b; unfold before; destruct (String.leb_total (Budget.month_year a) (Budget.month_year b)); auto)).
  specialize (F (List.filter (fun b => Budget.user b =? User.id user) tbl)).
  destruct (first _) as [latest|].
  - right. destruct F as [Hin Hmax]. apply filter_In in Hin. destruct Hin as [Hin Hu].
    apply Z.eqb_eq in Hu.
    exists (Budget.month_year latest). split; [|reflexivity].
    split.
    + apply has_budgets_true. eauto.
    + intros b Hb Hbu. apply (Hmax b). apply filter_In. split; [assumption|].
      apply Z.eqb_eq. assumption.
  - left. split; [|reflexivity].
    intros b Hb Hbu.
    assert (In b (List.filter (fun b => Budget.user b =? User.id user) tbl)) as X.
    { apply filter_In. split; [assumption|]. apply Z.eqb_eq. assumption. }
    rewrite F in X. destruct X.
Qed.

Lemma budgets_shown_present (user : User.t) (requested : string) (tbl : list Budget.t) :
  has_budgets (User.id user) requested tbl = true ->
  budgets_shown user requested tbl = (requested, budgets_of_month user requested tbl).
Proof.
  intros H. unfold budgets_shown.
  destruct (budgets_of_month user requested tbl) eqn:E; [|reflexivity].
  apply has_budgets_filter in E. congruence.
Qed.

(** ** Tables under their constraints *)

#[global] Instance UserProfile_laws : ModelLaws UserProfile.t.
Proof.
  split; intros; cbn; try reflexivity. apply Z.eqb_sym.
Qed.

#[global] Instance Budget_laws : ModelLaws Budget.t.
Proof.
  split; intros; cbn; try reflexivity. apply Budget_same_key_sym.
Qed.

#[global] Instance MonthlyReport_laws : ModelLaws MonthlyReport.t.
Proof.
  split; intros; cbn; try reflexivity.
  unfold MonthlyReport.same_key.
  rewrite (Z.eqb_sym (MonthlyReport.user a)), (String.eqb_sym (MonthlyReport.month_year a)).
  reflexivity.
Qed.

Section TableFacts.
Context {A : Type} `{ModelLaws A}.

Lemma existsb_false_In (p : A -> bool) (l : list A) (x : A) :
  existsb p l = false -> In x l -> p x = false.
Proof using Type.
  intros E Hx. destruct (p x) eqn:P; [|reflexivity].
  assert (existsb p l = true); [|congruence].
  apply existsb_exists. eauto.
Qed.

Lemma existsb_false_intro (p : A -> bool) (l : list A) :
  (forall x, In x l -> p x = false) -> existsb p l = false.
Proof using Type.
  intros Hp. apply not_true_is_false. intros E.
  apply existsb_exists in E. destruct E as (x & Hx & P).
  rewrite (Hp x Hx) in P. discriminate.
Qed.

Lemma existsb_map_pred (p : A -> bool) (f : A -> A) (l : list A) :
  existsb p (map f l) = existsb (fun r => p (f r)) l.
Proof using Type.
  induction l as [|x l IH]; simpl; [reflexivity|]. rewrite IH. reflexivity.
Qed.

Lemma existsb_pointwise (p q : A -> bool) (l : list A) :
  (forall r, p r = q r) -> existsb p l = existsb q l.
Proof using Type.
  intros E. induction l as [|x l IH]; simpl; [reflexivity|]. rewrite E, IH. reflexivity.
Qed.

Lemma primary_keys_In (tbl : list A) (r : A) :
  primary_keys tbl = true -> In r tbl -> exists k, pk r = Some k.
Proof using Type.
  induction tbl as [|x tbl IH]; simpl; [tauto|].
  destruct (pk x) as [k|] eqn:Hk; [|discriminate].
  intros E [<-|Hr]; [eauto|].
  apply andb_prop in E. destruct E as [_ E]. auto.
Qed.

Lemma primary_keys_unique (tbl : list A) (a b : A) :
  primary_keys tbl = true -> In a tbl -> In b tbl -> pk a = pk b -> a = b.
Proof using Type.
  induction tbl as [|x tbl IH]; simpl; [tauto|].
  destruct (pk x) as [k|] eqn:Hk; [|discriminate].
  intros E Ha Hb Hab. apply andb_prop in E. destruct E as [Hx E].
  apply negb_true_iff in Hx.
  destruct Ha as [<-|Ha], Hb as [<-|Hb]; auto.
  - pose proof (existsb_false_In _ _ _ Hx Hb) as N.
    unfold has_pk in N. rewrite <- Hab, Hk, Z.eqb_refl in N. discriminate.
  - pose proof (existsb_false_In _ _ _ Hx Ha) as N.
    unfold has_pk in N. rewrite Hab, Hk, Z.eqb_refl in N. discriminate.
Qed.

Lemma primary_keys_app_one (tbl : list A) (x : A) (k : Z) :
  primary_keys tbl = true -> pk x = Some k -> existsb (has_pk k) tbl = false ->
  primary_keys (tbl ++ [x]) = true.
Proof using Type.
  intros P Hk Hno. induction tbl as [|r tbl IH]; simpl.
  - rewrite Hk. reflexivity.
  - simpl in P. destruct (pk r) as [kr|] eqn:Hr; [|discriminate].
    apply andb_prop in P. destruct P as [P1 P2]. apply negb_true_iff in P1.
    simpl in Hno. apply orb_false_elim in Hno. destruct Hno as [Hno1 Hno2].
    rewrite existsb_app, P1, (IH P2 Hno2). simpl.
    unfold has_pk in *. rewrite Hk. rewrite Hr in Hno1.
    rewrite Z.eqb_sym, Hno1. reflexivity.
Qed.

Lemma unique_together_app_one (tbl : list A) (x : A) :
  unique_together same_unique tbl = true ->
  existsb (same_unique x) tbl = false ->
  unique_together same_unique (tbl ++ [x]) = true.
Proof using H0.
  intros U Hno. induction tbl as [|r tbl IH]; simpl; [reflexivity|].
  simpl in U. apply andb_prop in U. destruct U as [U1 U2]. apply negb_true_iff in U1.
  simpl in Hno. apply orb_false_elim in Hno. destruct Hno as [Hno1 Hno2].
  rewrite existsb_app, U1, (IH U2 Hno2). simpl.
  rewrite same_unique_sym, Hno1. reflexivity.
Qed.

Lemma primary_keys_map (f : A -> A) (tbl : list A) :
  (forall r, pk (f r) = pk r) -> primary_keys (map f tbl) = primary_keys tbl.
Proof using Type.
  intros Hf. induction tbl as [|r tbl IH]; simpl; [reflexivity|].
  rewrite Hf, IH. destruct (pk r) as [k|]; [|reflexivity].
  f_equal. f_equal. rewrite existsb_map_pred. apply existsb_pointwise.
  intros z. unfold has_pk. rewrite Hf. reflexivity.
Qed.

Lemma map_replace_absent (x : A) (k : Z) (tbl : list A) :
  existsb (has_pk k) tbl = false ->
  map (fun r => if has_pk k r then x else r) tbl = tbl.
Proof using Type.
  intros Hno. rewrite <- (map_id tbl) at 2. apply map_ext_in.
  intros r Hr. rewrite (existsb_false_In _ _ _ Hno Hr). reflexivity.
Qed.

Lemma unique_together_replace (tbl : list A) (x : A) (k : Z) :
  unique_together same_unique tbl = true ->
  primary_keys tbl = true ->
  (forall r, In r tbl -> same_unique x r = true -> has_pk k r = true) ->
  unique_together same_unique (map (fun r => if has_pk k r then x else r) tbl) = true.
Proof using H0.
  intros U P Hx. induction tbl as [|r tbl IH]; simpl; [reflexivity|].
  simpl in U, P. apply andb_prop in U. destruct U as [U1 U2]. apply negb_true_iff in U1.
  destruct (pk r) as [kr|] eqn:Hr; [|discriminate].
  apply andb_prop in P. destruct P as [P1 P2]. apply negb_true_iff in P1.
  assert (Hx' : forall z, In z tbl -> same_unique x z = true -> has_pk k z = true)
    by (intros z Hz; apply Hx; right; assumption).
  destruct (has_pk k r) eqn:Hkr.
  - assert (kr = k) as ->.
    { unfold has_pk in Hkr. rewrite Hr in Hkr. apply Z.eqb_eq. assumption. }
    rewrite (map_replace_absent x k tbl P1), U2, andb_true_r.
    apply negb_true_iff. apply existsb_false_intro.
    intros z Hz. destruct (same_unique x z) eqn:S; [|reflexivity].
    specialize (Hx' z Hz S).
    rewrite (existsb_false_In _ _ _ P1 Hz) in Hx'. discriminate.
  - rewrite (IH U2 P2 Hx'), andb_true_r.
    apply negb_true_iff. rewrite existsb_map_pred. apply existsb_false_intro.
    intros z Hz. destruct (has_pk k z).
    + destruct (same_unique r x) eqn:S; [|reflexivity].
      rewrite same_unique_sym in S.
      rewrite (Hx r (or_introl eq_refl) S) in Hkr. discriminate.
    + apply (existsb_false_In _ _ _ U1 Hz).
Qed.

(** How [Model_save] changes a table. *)
Lemma Model_save_cases (x x' : A) (tbl tbl' : list A) :
  Model_save x tbl = Return (x', tbl') ->
  violates x tbl = false
  /\ ((exists k, pk x = Some k /\ existsb (has_pk k) tbl = true /\ x' = x
                 /\ tbl' = map (fun r => if has_pk k r then x else r) tbl)
      \/ (exists k, pk x' = Some k /\ existsb (has_pk k) tbl = false
                    /\ (forall r, same_unique x' r = same_unique x r)
                    /\ (forall r, In r tbl -> is_row x r = false)
                    /\ tbl' = (tbl ++ [x'])%list)).
Proof using H0.
  unfold Model_save. destruct (violates x tbl) eqn:V; [discriminate|].
  intros E. split; [reflexivity|]. revert E.
  destruct (pk x) as [k|] eqn:Hk.
  - destruct (existsb (has_pk k) tbl) eqn:Ex; intros E; injection E as <- <-.
    + left. exists k. auto.
    + right. exists k. repeat split; auto.
      intros r Hr. unfold is_row. rewrite Hk. apply (existsb_false_In _ _ _ Ex Hr).
  - intros E; injection E as <- <-. right. exists (next_pk tbl).
    split; [apply pk_with_pk|]. split.
    + apply existsb_false_intro. intros r Hr.
      destruct (has_pk (next_pk tbl) r) eqn:E; [|reflexivity].
      apply has_pk_iff in E. pose proof (next_pk_above tbl r _ Hr E). lia.
    + split; [intros r; apply same_unique_with_pk|]. split; [|reflexivity].
      intros r _. unfold is_row. rewrite Hk. reflexivity.
Qed.

(** The store's backstop: a save that goes through leaves the primary keys
    and the unique keys of the table in order. *)
Lemma Model_save_ok (x x' : A) (tbl tbl' : list A) :
  table_ok tbl = true -> Model_save x tbl = Return (x', tbl') -> table_ok tbl' = true.
Proof using H0.
  intros Hok Hs. pose proof (table_ok_keys _ Hok) as P.
  pose proof (table_ok_unique _ Hok) as U.
  apply Model_save_cases in Hs. destruct Hs as [V [(k & Hk & Ex & -> & ->)|(k & Hk & Ex & Hsame & Hrow & ->)]].
  - unfold table_ok. apply andb_true_intro. split.
    + rewrite primary_keys_map; [assumption|].
      intros r. destruct (has_pk k r) eqn:E; [|reflexivity].
      apply has_pk_iff in E. congruence.
    + apply unique_together_replace; try assumption.
      intros r Hr S. unfold violates in V.
      pose proof (existsb_false_In _ _ _ V Hr) as N. cbn beta in N.
      rewrite S in N. cbn in N. apply negb_false_iff in N.
      unfold is_row in N. rewrite Hk in N. assumption.
  - unfold table_ok. apply andb_true_intro. split.
    + eapply primary_keys_app_one; eassumption.
    + apply unique_together_app_one; [assumption|].
      apply existsb_false_intro. intros r Hr. rewrite Hsame.
      unfold violates in V.
      pose proof (existsb_false_In _ _ _ V Hr) as N. cbn beta in N.
      rewrite (Hrow r Hr) in N. cbn in N. rewrite andb_true_r in N. assumption.
Qed.

End TableFacts.

(** ** Looking rows up by a unique key *)

Lemma unique_filter {A : Type} (same : A -> A -> bool) (p : A -> bool) (tbl : list A) :
  unique_together same tbl = true ->
  (forall a b, p a = true -> p b = true -> same a b = true) ->
  List.filter p tbl = [] \/ exists x, List.filter p tbl = [x].
Proof.
  intros U Hp. induction tbl as [|r tbl IH]; [left; reflexivity|].
  simpl in U. apply andb_prop in U. destruct U as [Hr U]. apply negb_true_iff in Hr.
  simpl. destruct (p r) eqn:Pr; [|apply IH; assumption].
  right. exists r. f_equal.
  destruct (List.filter p tbl) as [|z l] eqn:E; [reflexivity|].
  assert (Hz : In z (List.filter p tbl)) by (rewrite E; left; reflexivity).
  apply filter_In in Hz. destruct Hz as [Hz Pz].
  assert (existsb (same r) tbl = true); [|congruence].
  apply existsb_exists. exists z. split; [assumption|]. apply Hp; assumption.
Qed.

Lemma filter_nil_none {A : Type} (p : A -> bool) (l : list A) (x : A) :
  List.filter p l = [] -> In x l -> p x = false.
Proof.
  intros E Hx. destruct (p x) eqn:P; [|reflexivity].
  assert (In x (List.filter p l)) as X by (apply filter_In; auto).
  rewrite E in X. destruct X.
Qed.

Lemma filter_singleton {A : Type} (p : A -> bool) (l : list A) (x y : A) :
  List.filter p l = [x] -> In y l -> p y = true -> y = x.
Proof.
  intros E Hy P.
  assert (In y (List.filter p l)) as X by (apply filter_In; auto).
  rewrite E in X. destruct X as [<-|[]]. reflexivity.
Qed.

(** [UserProfile.objects.get_or_create(user=u)] on a table that respects the
    one-to-one constraint. *)
Lemma profile_get_or_create (u : Z) (tbl : list UserProfile.t) :
  table_ok tbl = true ->
  exists p created tbl',
    get_or_create (fun p => UserProfile.user p =? u) (UserProfile.mk None u 0) tbl
    = Return (p, created, tbl')
    /\ UserProfile.user p = u
    /\ (forall q, In q tbl -> UserProfile.user q = u -> p = q /\ tbl' = tbl)
    /\ ((forall q, In q tbl -> UserProfile.user q <> u) ->
        UserProfile.monthly_salary p = 0)
    /\ table_ok tbl' = true.
Proof.
  intros Hok'. pose proof (table_ok_unique _ Hok') as Hok.
  unfold get_or_create.
  destruct (unique_filter _ (fun p => UserProfile.user p =? u) tbl Hok) as [E|[x E]].
  { intros a b Ha Hb. apply Z.eqb_eq in Ha, Hb. cbn. rewrite Ha, Hb. apply Z.eqb_refl. }
  - rewrite E. unfold Model_save.
    assert (V : violates (UserProfile.mk None u 0) tbl = false).
    { unfold violates. apply not_true_is_false. intros X.
      apply existsb_exists in X. destruct X as (r & Hr & S).
      apply andb_prop in S. destruct S as [S _]. cbn in S.
      pose proof (filter_nil_none _ _ r E Hr) as N. cbn in N.
      rewrite Z.eqb_sym in S. congruence. }
    assert (S : Model_save (UserProfile.mk None u 0) tbl
                = Return (UserProfile.mk (Some (next_pk tbl)) u 0,
                          (tbl ++ [UserProfile.mk (Some (next_pk tbl)) u 0])%list)).
    { unfold Model_save. rewrite V. reflexivity. }
    rewrite V. cbn.
    eexists _, true, _. split; [reflexivity|]. cbn.
    split; [reflexivity|]. split; [|split; [reflexivity|]].
    + intros q Hq Hu. pose proof (filter_nil_none _ _ q E Hq) as N. cbn in N.
      apply Z.eqb_neq in N. contradiction.
    + eapply Model_save_ok; [exact Hok'|exact S].
  - rewrite E. exists x, false, tbl. split; [reflexivity|].
    assert (Hx : In x (List.filter (fun p => UserProfile.user p =? u) tbl))
      by (rewrite E; left; reflexivity).
    apply filter_In in Hx. destruct Hx as [Hx Hxu]. apply Z.eqb_eq in Hxu.
    split; [assumption|]. split; [|split; [|assumption]].
    + intros q Hq Hu. split; [|reflexivity]. symmetry.
      eapply filter_singleton; [exact E|assumption|]. apply Z.eqb_eq. assumption.
    + intros Hno. exfalso. exact (Hno x Hx Hxu).
Qed.

(** ** What the dashboard renders *)

Lemma dashboard_renders (now : datetime.t) (request : HttpRequest.t) (w : World) :
  let user := HttpRequest.user request in
  let cur := datetime.strftime now "%Y-%m" in
  User.is_authenticated user = true ->
  datetime.valid now = true ->
  150 < datetime.toordinal now ->
  table_ok (profiles w) = true ->
  exists profile profiles' trend,
    dashboard now request w
    = (Return
         (render "budget/dashboard.html"
            (Dashboard
               (mkDashboardContext profile (monthly_totals profile user cur w)
                  (map (budget_line (expenses w))
                       (snd (budgets_shown user cur (budgets w))))
                  trend cur (fst (budgets_shown user cur (budgets w)))))),
       set_profiles w profiles')
    /\ spending_trend 6 now user (expenses w) = Return trend
    /\ UserProfile.user profile = User.id user
    /\ (forall q, In q (profiles w) -> UserProfile.user q = User.id user ->
                  profile = q /\ profiles' = profiles w)
    /\ ((forall q, In q (profiles w) -> UserProfile.user q <> User.id user) ->
        UserProfile.monthly_salary profile = 0).
Proof.
  intros user cur Hauth V Hord Hok.
  destruct (profile_get_or_create (User.id user) (profiles w) Hok)
    as (p & created & tbl' & Hg & Hu & Hsame & Hnew & _).
  destruct (spending_trend_points 6 now user (expenses w) V) as (trend & Ht & _);
    [simpl; lia|].
  exists p, tbl', trend.
  split; [|auto].
  unfold dashboard, login_required. fold user. rewrite Hauth.
  unfold dashboard_view, bind, on_table, get_world, lift, ret. fold user.
  rewrite Hg. cbn [expenses budgets set_profiles]. unfold cur.
  destruct (budgets_shown user (datetime.strftime now "%Y-%m") (budgets w)) as [used shown].
  cbn [fst snd]. rewrite Ht. reflexivity.
Qed.

(** ** Computations that do not touch the ledger *)

Create HintDb ledger.

Lemma keeps_ret {A : Type} (a : A) : keeps_ledger (ret a).
Proof. intros w. split; reflexivity. Qed.

Lemma keeps_raise {A : Type} (e : exn) : keeps_ledger (raise e : M A).
Proof. intros w. split; reflexivity. Qed.

Lemma keeps_get_world : keeps_ledger get_world.
Proof. intros w. split; reflexivity. Qed.

Lemma keeps_lift {A : Type} (r : result A) : keeps_ledger (lift r).
Proof. intros w. split; reflexivity. Qed.

Lemma keeps_bind {A B : Type} (m : M A) (k : A -> M B) :
  keeps_ledger m -> (forall a, keeps_ledger (k a)) -> keeps_ledger (bind m k).
Proof.
  intros Hm Hk w. unfold bind. specialize (Hm w).
  destruct (m w) as [[a|e] w1]; cbn [snd] in *.
  - destruct (Hk a w1) as [H1 H2]. destruct Hm as [H3 H4]. split; congruence.
  - exact Hm.
Qed.

Lemma keeps_try_except {A : Type} (body : M A) (handler : exn -> M A) :
  keeps_ledger body -> (forall e, keeps_ledger (handler e)) ->
  keeps_ledger (try_except body handler).
Proof.
  intros Hm Hk w. unfold try_except. specialize (Hm w).
  destruct (body w) as [[a|e] w1]; cbn [snd] in *.
  - exact Hm.
  - destruct (Hk e w1) as [H1 H2]. destruct Hm as [H3 H4]. split; congruence.
Qed.

Lemma keeps_on_profiles {A : Type}
    (op : list UserProfile.t -> result (A * list UserProfile.t)) :
  keeps_ledger (on_table profiles set_profiles op).
Proof.
  intros w. unfold on_table. destruct (op (profiles w)) as [[a t]|e]; split; reflexivity.
Qed.

Lemma keeps_on_reports {A : Type}
    (op : list MonthlyReport.t -> result (A * list MonthlyReport.t)) :
  keeps_ledger (on_table reports set_reports op).
Proof.
  intros w. unfold on_table. destruct (op (reports w)) as [[a t]|e]; split; reflexivity.
Qed.

Lemma keeps_on_budgets {A : Type}
    (op : list Budget.t -> result (A * list Budget.t)) :
  keeps_ledger (on_table budgets set_budgets op).
Proof.
  intros w. unfold on_table. destruct (op (budgets w)) as [[a t]|e]; split; reflexivity.
Qed.

Lemma keeps_messages_add (l : level) (text : string) : keeps_ledger (messages_add l text).
Proof. intros w. split; reflexivity. Qed.

Lemma keeps_write_file (path text : string) : keeps_ledger (write_file path text).
Proof. intros w. split; reflexivity. Qed.

Lemma keeps_open_rb (path : string) : keeps_ledger (open_rb path).
Proof. intros w. unfold open_rb. destruct (files w !! path); split; reflexivity. Qed.

#[export] Hint Resolve keeps_ret keeps_raise keeps_get_world keeps_lift keeps_bind
  keeps_try_except keeps_on_profiles keeps_on_reports keeps_on_budgets
  keeps_messages_add keeps_write_file keeps_open_rb : ledger.

Lemma keeps_login_required (view : HttpRequest.t -> M Response) (request : HttpRequest.t) :
  keeps_ledger (view request) -> keeps_ledger (login_required view request).
Proof.
  intros H. unfold login_required.
  destruct (User.is_authenticated _); auto with ledger.
Qed.

(** Report generation never touches the expenses or the investments. *)
Lemma download_report_keeps_ledger (symbol : option string)
    (reportlab : option pdf_attempt) (now : datetime.t) (request : HttpRequest.t) :
  keeps_ledger (download_report symbol reportlab now request).
Proof.
  apply keeps_login_required. unfold download_report_view.
  destruct (negb _); [auto with ledger|].
  apply keeps_bind; [auto with ledger|]. intros [profile created].
  apply keeps_bind; [auto with ledger|]. intros w1.
  destruct reportlab as [attempt|].
  - apply keeps_try_except.
    + apply keeps_bind.
      * unfold build_pdf. destruct attempt as [pdf|msg tb [partial|]]; auto 6 with ledger.
      * intros _. unfold upsert_report. auto 8 with ledger.
    + intros e. auto 8 with ledger.
  - unfold upsert_report. auto 10 with ledger.
Qed.

Lemma length_filter_split {A : Type} (p : A -> bool) (l : list A) :
  length l = (length (List.filter (fun r => negb (p r)) l) + length (List.filter p l))%nat.
Proof.
  induction l as [|x l IH]; simpl; [reflexivity|].
  destruct (p x); simpl; lia.
Qed.

(** ** One step of the budget form *)

Lemma evolves_refl (tbl : list Budget.t) : evolves tbl tbl.
Proof.
  split.
  - intros r Hr. exists r. repeat split; auto.
    unfold Budget.same_key. rewrite Z.eqb_refl, !String.eqb_refl. reflexivity.
  - auto.
Qed.

Lemma Budget_same_key_trans (a b c : Budget.t) :
  Budget.same_key a b = true -> Budget.same_key b c = true -> Budget.same_key a c = true.
Proof.
  unfold Budget.same_key. intros H1 H2.
  apply andb_prop in H1. destruct H1 as [H1 H1c]. apply andb_prop in H1. destruct H1 as [H1a H1b].
  apply andb_prop in H2. destruct H2 as [H2 H2c]. apply andb_prop in H2. destruct H2 as [H2a H2b].
  apply Z.eqb_eq in H1a, H2a. apply String.eqb_eq in H1b, H1c, H2b, H2c.
  rewrite H1a, H2a, H1b, H2b, H1c, H2c, Z.eqb_refl, !String.eqb_refl. reflexivity.
Qed.

Lemma evolves_trans (a b c : list Budget.t) : evolves a b -> evolves b c -> evolves a c.
Proof.
  intros [Hab1 Hab2] [Hbc1 Hbc2]. split.
  - intros r Hr. destruct (Hab1 r Hr) as (r1 & Hr1 & Hid1 & Hk1 & Hc1).
    destruct (Hbc1 r1 Hr1) as (r2 & Hr2 & Hid2 & Hk2 & Hc2).
    exists r2. split; [assumption|]. split; [congruence|].
    split; [eapply Budget_same_key_trans; eassumption|].
    destruct Hc2 as [->|Hpos]; [assumption|right; assumption].
  - intros r2 Hr2. destruct (Hbc2 r2 Hr2) as [Hr1|Hpos]; [|right; assumption].
    apply Hab2. assumption.
Qed.

Lemma only_budgets_refl (w : World) : only_budgets w w.
Proof. repeat split. Qed.

Lemma only_budgets_set (w : World) (tbl : list Budget.t) : only_budgets w (set_budgets w tbl).
Proof. repeat split. Qed.

Lemma only_budgets_trans (a b c : World) :
  only_budgets a b -> only_budgets b c -> only_budgets a c.
Proof.
  unfold only_budgets. intros (?&?&?&?&?&?) (?&?&?&?&?&?). repeat split; congruence.
Qed.

Lemma filter_map_frame {A : Type} (p : A -> bool) (f : A -> A) (l : list A) :
  (forall r, In r l -> f r = r \/ (p r = false /\ p (f r) = false)) ->
  List.filter p (map f l) = List.filter p l.
Proof.
  induction l as [|x l IH]; intros Hf; simpl; [reflexivity|].
  rewrite IH by (intros r Hr; apply Hf; right; assumption).
  destruct (Hf x (or_introl eq_refl)) as [->|[-> ->]]; reflexivity.
Qed.

Lemma filter_map_commute {A : Type} (p : A -> bool) (f : A -> A) (l : list A) :
  (forall r, In r l -> p (f r) = p r) ->
  List.filter p (map f l) = map f (List.filter p l).
Proof.
  induction l as [|x l IH]; intros Hf; simpl; [reflexivity|].
  rewrite IH by (intros r Hr; apply Hf; right; assumption).
  rewrite (Hf x (or_introl eq_refl)). destruct (p x); reflexivity.
Qed.

Lemma budget_key_is_same (owner : Z) (c cur : string) (a b : Budget.t) :
  budget_key_is owner c cur a = true -> budget_key_is owner c cur b = true ->
  Budget.same_key a b = true.
Proof.
  unfold budget_key_is, Budget.same_key. intros Ha Hb.
  apply andb_prop in Ha. destruct Ha as [Ha Ha3]. apply andb_prop in Ha. destruct Ha as [Ha1 Ha2].
  apply andb_prop in Hb. destruct Hb as [Hb Hb3]. apply andb_prop in Hb. destruct Hb as [Hb1 Hb2].
  apply Z.eqb_eq in Ha1, Hb1. apply String.eqb_eq in Ha2, Ha3, Hb2, Hb3.
  rewrite Ha1, Hb1, Ha2, Hb2, Ha3, Hb3, Z.eqb_refl, !String.eqb_refl. reflexivity.
Qed.

Lemma budget_key_is_of_same (owner : Z) (c cur : string) (a b : Budget.t) :
  budget_key_is owner c cur a = true -> Budget.same_key a b = true ->
  budget_key_is owner c cur b = true.
Proof.
  unfold budget_key_is, Budget.same_key. intros Ha Hb.
  apply andb_prop in Ha. destruct Ha as [Ha Ha3]. apply andb_prop in Ha. destruct Ha as [Ha1 Ha2].
  apply andb_prop in Hb. destruct Hb as [Hb Hb3]. apply andb_prop in Hb. destruct Hb as [Hb1 Hb2].
  apply Z.eqb_eq in Ha1, Hb1. apply String.eqb_eq in Ha2, Ha3, Hb2, Hb3.
  rewrite <- Hb1, Ha1, <- Hb2, Ha2, <- Hb3, Ha3, Z.eqb_refl, !String.eqb_refl. reflexivity.
Qed.

(** Creating the row of a key no row holds. *)
Lemma create_budget (owner : Z) (c cur : string) (v : Z) (tbl : list Budget.t) :
  List.filter (budget_key_is owner c cur) tbl = [] ->
  Model_save (Budget.mk None owner c v cur) tbl
  = Return (Budget.mk (Some (next_pk tbl)) owner c v cur,
            (tbl ++ [Budget.mk (Some (next_pk tbl)) owner c v cur])%list).
Proof.
  intros E. unfold Model_save.
  replace (violates _ tbl) with false; [reflexivity|].
  symmetry. apply existsb_false_intro. intros r Hr.
  pose proof (filter_nil_none _ _ r E Hr) as N.
  cbn. destruct (Budget.same_key _ r) eqn:S; [|reflexivity].
  exfalso. rewrite Budget_same_key_sym in S.
  assert (budget_key_is owner c cur r = true); [|congruence].
  unfold budget_key_is, Budget.same_key in *. cbn in S. exact S.
Qed.

(** Updating the one row of a key in place. *)
Lemma update_budget (owner : Z) (c cur : string) (v : Z) (tbl : list Budget.t)
    (b : Budget.t) :
  table_ok tbl = true ->
  List.filter (budget_key_is owner c cur) tbl = [b] ->
  exists k,
    Budget.id b = Some k
    /\ Model_save (Budget.set_allocated_amount b v) tbl
       = Return (Budget.set_allocated_amount b v,
                 map (fun r => if has_pk k r then Budget.set_allocated_amount b v else r) tbl)
    /\ forall r, In r tbl -> has_pk k r = true -> r = b.
Proof.
  intros Hok E.
  assert (Hb : In b tbl /\ budget_key_is owner c cur b = true).
  { apply filter_In. rewrite E. left. reflexivity. }
  destruct Hb as [Hb Kb].
  destruct (primary_keys_In tbl b (table_ok_keys _ Hok) Hb) as [k Hk].
  exists k. split; [exact Hk|]. split.
  - unfold Model_save.
    replace (violates _ tbl) with false.
    + cbn [pk Budget.model Budget.set_allocated_amount Budget.id].
      change (Budget.id b) with (pk b). rewrite Hk.
      replace (existsb (has_pk k) tbl) with true; [reflexivity|].
      symmetry. apply existsb_exists. exists b. split; [assumption|].
      apply has_pk_iff. assumption.
    + symmetry. apply existsb_false_intro. intros r Hr.
      destruct (same_unique (Budget.set_allocated_amount b v) r) eqn:S; [|reflexivity].
      change (Budget.same_key b r = true) in S.
      assert (b = r) as <-.
      { eapply (unique_together_In Budget.same_key tbl);
          eauto using Budget_same_key_sym. apply table_ok_unique in Hok. exact Hok. }
      cbn. unfold is_row. cbn. change (Budget.id b) with (pk b). rewrite Hk.
      replace (has_pk k b) with true; [reflexivity|].
      symmetry. apply has_pk_iff. assumption.
  - intros r Hr Hpk. apply has_pk_iff in Hpk.
    apply (primary_keys_unique tbl); [apply table_ok_keys; assumption|assumption..|congruence].
Qed.

Lemma set_budget_positive (Decimal : string -> option Q) (request : HttpRequest.t)
    (cur c : string) (v : Q) (w : World) :
  submission Decimal request c = Positive v ->
  set_budget Decimal request cur c w
  = bind (on_table budgets set_budgets
            (get_or_create (budget_key_is (User.id (HttpRequest.user request)) c cur)
               (Budget.mk None (User.id (HttpRequest.user request)) c (two_places v)
                  cur)))
         (fun '(budget, created) =>
            if created then ret tt
            else bind (on_table budgets set_budgets
                         (Model_save (Budget.set_allocated_amount budget (two_places v))))
                      (fun _ => ret tt)) w.
Proof.
  unfold submission, set_budget.
  destruct (HttpRequest.POST request !! ("budget_" +:+ c)) as [amount|]; [|discriminate].
  destruct (String.eqb amount ""); [discriminate|].
  destruct (Decimal amount) as [value|]; [|discriminate].
  destruct (Decimal_gt value 0); [|discriminate].
  intros E; injection E as ->. reflexivity.
Qed.

Lemma set_budget_nothing (Decimal : string -> option Q) (request : HttpRequest.t)
    (cur c : string) (w : World) :
  submission Decimal request c = Nothing ->
  set_budget Decimal request cur c w = (Return tt, w).
Proof.
  unfold submission, set_budget.
  destruct (HttpRequest.POST request !! ("budget_" +:+ c)) as [amount|]; [|reflexivity].
  destruct (String.eqb amount ""); [reflexivity|].
  destruct (Decimal amount) as [value|]; [|discriminate].
  destruct (Decimal_gt value 0); [discriminate|reflexivity].
Qed.

Lemma set_budget_invalid (Decimal : string -> option Q) (request : HttpRequest.t)
    (cur c : string) (w : World) :
  submission Decimal request c = NotADecimal ->
  set_budget Decimal request cur c w = (Raise InvalidOperation, w).
Proof.
  unfold submission, set_budget.
  destruct (HttpRequest.POST request !! ("budget_" +:+ c)) as [amount|]; [|discriminate].
  destruct (String.eqb amount ""); [discriminate|].
  destruct (Decimal amount) as [value|]; [|reflexivity].
  destruct (Decimal_gt value 0); discriminate.
Qed.

Lemma Decimal_gt_0 (value : Q) : Decimal_gt value 0 = true -> (0 < value)%Q.
Proof.
  unfold Decimal_gt. intros H. apply negb_true_iff in H.
  apply Qnot_le_lt. intros X. apply Qle_bool_iff in X. congruence.
Qed.

Lemma Decimal_gt_not (value : Q) : (value <= 0)%Q -> Decimal_gt value 0 = false.
Proof.
  unfold Decimal_gt. intros H. apply Qle_bool_iff in H. rewrite H. reflexivity.
Qed.

(** A strictly positive amount is stored as an amount that is not negative,
    and as zero when it is below half a hundredth. *)
Lemma two_places_nonneg (value : Q) : (0 < value)%Q -> 0 <= two_places value.
Proof.
  intros H. unfold two_places. apply round_half_even_nonneg. lra.
Qed.

(** What one step of the loop does to a table that respects its
    constraints. *)
Lemma set_budget_step (Decimal : string -> option Q) (request : HttpRequest.t)
    (cur c : string) (w : World) :
  let owner := User.id (HttpRequest.user request) in
  table_ok (budgets w) = true ->
  exists res w',
    set_budget Decimal request cur c w = (res, w')
    /\ only_budgets w w'
    /\ table_ok (budgets w') = true
    /\ evolves (budgets w) (budgets w')
    /\ (forall p, (forall r, p r = true -> budget_key_is owner c cur r = false) ->
                  List.filter p (budgets w') = List.filter p (budgets w))
    /\ match submission Decimal request c with
       | Nothing => res = Return tt /\ w' = w
       | NotADecimal => res = Raise InvalidOperation /\ w' = w
       | Positive v =>
           res = Return tt
           /\ exists b',
               List.filter (budget_key_is owner c cur) (budgets w') = [b']
               /\ Budget.allocated_amount b' = two_places v
               /\ (forall b, In b (budgets w) -> budget_key_is owner c cur b = true ->
                             b' = Budget.set_allocated_amount b (two_places v))
               /\ (List.filter (budget_key_is owner c cur) (budgets w) = [] ->
                   budgets w' = (budgets w ++ [b'])%list)
       end.
Proof.
  intros owner Hok.
  destruct (submission Decimal request c) as [| |v] eqn:Sub.
  - exists (Return tt), w. rewrite (set_budget_nothing _ _ _ _ _ Sub).
    repeat split; auto using evolves_refl; apply evolves_refl.
  - exists (Raise InvalidOperation), w. rewrite (set_budget_invalid _ _ _ _ _ Sub).
    repeat split; auto using evolves_refl; apply evolves_refl.
  - rewrite (set_budget_positive _ _ _ _ _ _ Sub). fold owner.
    assert (Hv : 0 <= two_places v).
    { unfold submission in Sub.
      destruct (HttpRequest.POST request !! ("budget_" +:+ c)) as [amount|]; [|discriminate].
      destruct (String.eqb amount ""); [discriminate|].
      destruct (Decimal amount) as [value|]; [|discriminate].
      destruct (Decimal_gt value 0) eqn:L; [|discriminate].
      injection Sub as <-. apply two_places_nonneg. apply Decimal_gt_0. assumption. }
    unfold bind, on_table, get_or_create.
    destruct (unique_filter Budget.same_key (budget_key_is owner c cur) (budgets w))
      as [E|[b E]].
    { apply table_ok_unique in Hok. exact Hok. }
    { intros a b. apply budget_key_is_same. }
    + (* no row yet: one is created *)
      rewrite E, (create_budget owner c cur (two_places v) (budgets w) E).
      set (b' := Budget.mk (Some (next_pk (budgets w))) owner c (two_places v) cur).
      exists (Return tt), (set_budgets w (budgets w ++ [b'])%list).
      split; [reflexivity|]. split; [apply only_budgets_set|].
      cbn [budgets set_budgets].
      assert (Kb' : budget_key_is owner c cur b' = true).
      { unfold budget_key_is, b'. cbn. rewrite Z.eqb_refl, !String.eqb_refl. reflexivity. }
      split.
      { eapply Model_save_ok; [exact Hok|]. apply create_budget. exact E. }
      split.
      { split.
        - intros r Hr. exists r. split; [apply in_or_app; left; assumption|].
          split; [reflexivity|]. split; [|left; reflexivity].
          unfold Budget.same_key. rewrite Z.eqb_refl, !String.eqb_refl. reflexivity.
        - intros r' Hr'. apply in_app_or in Hr'. destruct Hr' as [Hr'|[<-|[]]]; [left; assumption|].
          right. exact Hv. }
      split.
      { intros p Hp. rewrite filter_app. cbn [List.filter].
        destruct (p b') eqn:Pb; [|apply app_nil_r].
        rewrite (Hp b' Pb) in Kb'. discriminate. }
      split; [reflexivity|].
      exists b'. split.
      { rewrite filter_app, E. cbn [List.filter app]. rewrite Kb'. reflexivity. }
      split; [reflexivity|]. split.
      { intros b Hb Kb. pose proof (filter_nil_none _ _ b E Hb). congruence. }
      { intros _. reflexivity. }
    + (* the row exists: it is updated in place *)
      rewrite E.
      destruct (update_budget owner c cur (two_places v) (budgets w) b Hok E)
        as (k & Hk & Hs & Hrow).
      cbn [budgets set_budgets]. rewrite Hs.
      set (b' := Budget.set_allocated_amount b (two_places v)) in *.
      set (f := fun r : Budget.t => if has_pk k r then b' else r) in *.
      exists (Return tt), (set_budgets w (map f (budgets w))).
      split; [reflexivity|]. split; [apply only_budgets_set|].
      cbn [budgets set_budgets].
      assert (Hb : In b (budgets w) /\ budget_key_is owner c cur b = true).
      { apply filter_In. rewrite E. left. reflexivity. }
      destruct Hb as [Hb Kb].
      assert (Kb' : budget_key_is owner c cur b' = true) by exact Kb.
      assert (Hf : forall r, In r (budgets w) -> (f r = r /\ has_pk k r = false)
                                                  \/ (r = b /\ f r = b')).
      { intros r Hr. unfold f. destruct (has_pk k r) eqn:Hp; [right|left; auto].
        split; [apply Hrow; assumption|reflexivity]. }
      split.
      { eapply Model_save_ok; [exact Hok|exact Hs]. }
      split.
      { split.
        - intros r Hr. exists (f r). split; [apply in_map; assumption|].
          destruct (Hf r Hr) as [[-> _]|[-> ->]].
          + split; [reflexivity|]. split; [|left; reflexivity].
            unfold Budget.same_key. rewrite Z.eqb_refl, !String.eqb_refl. reflexivity.
          + split; [reflexivity|]. split; [|right; exact Hv].
            unfold Budget.same_key, b'. cbn. rewrite Z.eqb_refl, !String.eqb_refl. reflexivity.
        - intros r' Hr'. apply in_map_iff in Hr'. destruct Hr' as (r & <- & Hr).
          destruct (Hf r Hr) as [[-> _]|[-> ->]]; [left; assumption|right; exact Hv]. }
      split.
      { intros p Hp. apply filter_map_frame. intros r Hr.
        destruct (Hf r Hr) as [[-> _]|[-> ->]]; [left; reflexivity|right].
        split.
        - destruct (p b) eqn:Pb; [|reflexivity]. rewrite (Hp b Pb) in Kb. discriminate.
        - destruct (p b') eqn:Pb; [|reflexivity]. rewrite (Hp b' Pb) in Kb'. discriminate. }
      split; [reflexivity|].
      exists b'. split.
      { rewrite filter_map_commute.
        - rewrite E. cbn [map]. unfold f.
          replace (has_pk k b) with true; [reflexivity|].
          symmetry. apply has_pk_iff. exact Hk.
        - intros r Hr. destruct (Hf r Hr) as [[-> _]|[-> ->]]; [reflexivity|].
          rewrite Kb, Kb'. reflexivity. }
      split; [reflexivity|]. split.
      { intros b0 Hb0 Kb0. f_equal. symmetry.
        eapply filter_singleton; eassumption. }
      { intros N. rewrite N in E. discriminate. }
Qed.

(** ** The loop of the budget form *)

Lemma budget_key_is_other (owner : Z) (c c' cur : string) (r : Budget.t) :
  c <> c' -> budget_key_is owner c cur r = true -> budget_key_is owner c' cur r = false.
Proof.
  unfold budget_key_is. intros N H.
  apply andb_prop in H. destruct H as [H _]. apply andb_prop in H. destruct H as [_ H].
  apply String.eqb_eq in H. subst c.
  apply String.eqb_neq in N. rewrite N, andb_false_r. reflexivity.
Qed.

Lemma budget_loop (Decimal : string -> option Q) (request : HttpRequest.t)
    (cur : string) (cs : list string) (w : World) :
  let owner := User.id (HttpRequest.user request) in
  table_ok (budgets w) = true ->
  exists res w',
    for_each cs (set_budget Decimal request cur) w = (res, w')
    /\ only_budgets w w'
    /\ table_ok (budgets w') = true
    /\ evolves (budgets w) (budgets w')
    /\ (forall p,
          (forall c, In c cs ->
             (forall r, p r = true -> budget_key_is owner c cur r = false)
             \/ (forall v, submission Decimal request c <> Positive v)) ->
          List.filter p (budgets w') = List.filter p (budgets w))
    /\ ((forall c, In c cs -> submission Decimal request c <> NotADecimal) ->
        res = Return tt
        /\ forall c v b,
             NoDup cs -> In c cs -> submission Decimal request c = Positive v ->
             In b (budgets w) -> budget_key_is owner c cur b = true ->
             List.filter (budget_key_is owner c cur) (budgets w')
             = [Budget.set_allocated_amount b (two_places v)]).
Proof.
  intros owner. revert w. induction cs as [|c1 cs IH]; intros w Hok.
  - exists (Return tt), w. split; [reflexivity|].
    split; [apply only_budgets_refl|]. split; [assumption|].
    split; [apply evolves_refl|]. split; [reflexivity|].
    intros _. split; [reflexivity|]. intros c v b _ [].
  - destruct (set_budget_step Decimal request cur c1 w Hok)
      as (res1 & w1 & Hstep & Hframe1 & Hok1 & Hev1 & Hfil1 & Hsub).
    fold owner in Hfil1, Hsub.
    cbn [for_each]. unfold bind at 1. rewrite Hstep.
    destruct (submission Decimal request c1) as [| |v1] eqn:Sub.
    + (* nothing submitted for [c1] *)
      destruct Hsub as [-> ->].
      destruct (IH w Hok) as (res & w' & Hloop & Hframe & Hok' & Hev & Hfil & Hall).
      exists res, w'. split; [exact Hloop|].
      split; [assumption|]. split; [assumption|]. split; [assumption|].
      split.
      { intros p Hp. apply Hfil. intros c Hc. apply Hp. right. assumption. }
      intros Hvalid.
      destruct Hall as [Hres Hupd]; [intros c Hc; apply Hvalid; right; assumption|].
      split; [assumption|].
      intros c v b Hnd [<-|Hc] Hpos Hb Kb; [congruence|].
      apply Hupd; try assumption. inversion Hnd; assumption.
    + (* the amount of [c1] is no decimal: the view raises here *)
      destruct Hsub as [-> ->].
      exists (Raise InvalidOperation), w. split; [reflexivity|].
      split; [apply only_budgets_refl|]. split; [assumption|].
      split; [apply evolves_refl|]. split; [reflexivity|].
      intros Hvalid. exfalso. apply (Hvalid c1); [left; reflexivity|assumption].
    + (* a positive amount for [c1] *)
      destruct Hsub as [-> (b' & Hb' & Hamount & Hsame & Hnew)].
      destruct (IH w1 Hok1) as (res & w' & Hloop & Hframe & Hok' & Hev & Hfil & Hall).
      exists res, w'. split; [exact Hloop|].
      split; [eapply only_budgets_trans; eassumption|]. split; [assumption|].
      split; [eapply evolves_trans; eassumption|].
      split.
      { intros p Hp. rewrite Hfil by (intros c Hc; apply Hp; right; assumption).
        apply Hfil1. destruct (Hp c1 (or_introl eq_refl)) as [H|H]; [assumption|].
        exfalso. exact (H v1 Sub). }
      intros Hvalid.
      destruct Hall as [Hres Hupd]; [intros c Hc; apply Hvalid; right; assumption|].
      split; [assumption|].
      intros c v b Hnd Hc Hpos Hb Kb.
      inversion Hnd as [|? ? Hnotin Hnd']; subst.
      destruct Hc as [<-|Hc].
      * (* this step updated the row; the later steps leave it alone *)
        rewrite Hpos in Sub. injection Sub as ->.
        rewrite Hfil.
        -- rewrite Hb'. f_equal. apply Hsame; assumption.
        -- intros c' Hc'. left. intros r Kr.
           apply (budget_key_is_other owner c1 c' cur r); [|assumption].
           intros ->. contradiction.
      * (* this step left the row alone; a later step updates it *)
        apply Hupd; try assumption.
        assert (In b (List.filter (budget_key_is owner c cur) (budgets w1))) as X.
        { rewrite Hfil1.
          - apply filter_In. split; assumption.
          - intros r Kr. apply (budget_key_is_other owner c c1 cur r); [|assumption].
            intros ->. contradiction. }
        apply filter_In in X. tauto.
Qed.

Lemma NoDup_categories : NoDup (map fst Expense.CATEGORY_CHOICES).
Proof.
  cbn. repeat (constructor; [cbn; intuition discriminate|]). constructor.
Qed.

(** What a POST of the budget form does. *)
Lemma budget_management_post (Decimal : string -> option Q) (now : datetime.t)
    (request : HttpRequest.t) (w : World) :
  let cur := datetime.strftime now "%Y-%m" in
  let categories := map fst Expense.CATEGORY_CHOICES in
  User.is_authenticated (HttpRequest.user request) = true ->
  HttpRequest.method request = "POST" ->
  forall res w1,
    for_each categories (set_budget Decimal request cur) w = (res, w1) ->
    budget_management Decimal now request w
    = match res with
      | Return _ =>
          (Return (redirect "budget_management"),
           set_messages w1 (messages w1 ++ [(SUCCESS, "Budgets updated successfully!")])%list)
      | Raise e => (Raise e, w1)
      end.
Proof.
  intros cur categories Hauth Hpost res w1 Hloop.
  unfold budget_management, login_required. rewrite Hauth.
  unfold budget_management_view. rewrite Hpost. cbn [String.eqb Ascii.eqb Bool.eqb].
  fold categories cur. unfold bind at 1. rewrite Hloop.
  destruct res as [[]|e]; reflexivity.
Qed.

(** The budget table after a request to the budget page, whatever it was. *)
Lemma budget_management_budgets (Decimal : string -> option Q) (now : datetime.t)
    (request : HttpRequest.t) (w : World) :
  let cur := datetime.strftime now "%Y-%m" in
  let categories := map fst Expense.CATEGORY_CHOICES in
  budgets (snd (budget_management Decimal now request w)) = budgets w
  \/ (User.is_authenticated (HttpRequest.user request) = true
      /\ HttpRequest.method request = "POST"
      /\ budgets (snd (budget_management Decimal now request w))
         = budgets (snd (for_each categories (set_budget Decimal request cur) w))).
Proof.
  intros cur categories.
  destruct (User.is_authenticated (HttpRequest.user request)) eqn:Hauth.
  - destruct (String.eqb_spec (HttpRequest.method request) "POST") as [Hpost|Hget].
    + right. split; [reflexivity|]. split; [assumption|].
      destruct (for_each categories (set_budget Decimal request cur) w) as [res w1] eqn:Hloop.
      rewrite (budget_management_post Decimal now request w Hauth Hpost res w1 Hloop).
      destruct res; reflexivity.
    + left. unfold budget_management, login_required. rewrite Hauth.
      unfold budget_management_view.
      apply String.eqb_neq in Hget. rewrite Hget. reflexivity.
  - left. unfold budget_management, login_required. rewrite Hauth. reflexivity.
Qed.

(** ** Upserts *)

Section Upsert.
Context {A : Type} `{ModelLaws A}.
Variables (lookup : A -> bool) (update : A -> A) (new : A).

Hypothesis lookup_unique :
  forall a b, lookup a = true -> lookup b = true -> same_unique a b = true.
Hypothesis new_key : forall r, same_unique new r = true -> lookup r = true.
Hypothesis new_unsaved : pk new = None.
Hypothesis new_found : forall k, lookup (with_pk k new) = true.
Hypothesis update_pk : forall x, pk (update x) = pk x.
Hypothesis update_key : forall x r, same_unique (update x) r = same_unique x r.
Hypothesis update_found : forall x, lookup (update x) = lookup x.

(** On a table that respects its constraints [update_or_create] succeeds
    and leaves exactly one row for the lookup: the row found, updated in
    place, or else a new one. *)
Lemma update_or_create_one_row (tbl : list A) :
  table_ok tbl = true ->
  exists x created tbl',
    update_or_create lookup update new tbl = Return (x, created, tbl')
    /\ table_ok tbl' = true
    /\ List.filter lookup tbl' = [x]
    /\ (forall p, (forall r, p r = true -> lookup r = false) ->
                  List.filter p tbl' = List.filter p tbl)
    /\ (if created
        then List.filter lookup tbl = [] /\ x = with_pk (next_pk tbl) new
        else exists x0, List.filter lookup tbl = [x0] /\ x = update x0).
Proof using All.
  intros Hok. unfold update_or_create.
  destruct (unique_filter same_unique lookup tbl (table_ok_unique _ Hok) lookup_unique)
    as [E|[x0 E]]; rewrite E.
  - assert (S : Model_save new tbl
                = Return (with_pk (next_pk tbl) new,
                          (tbl ++ [with_pk (next_pk tbl) new])%list)).
    { unfold Model_save. rewrite new_unsaved.
      replace (violates new tbl) with false; [reflexivity|].
      symmetry. apply existsb_false_intro. intros r Hr.
      destruct (same_unique new r) eqn:K; [|reflexivity].
      pose proof (new_key r K) as L.
      rewrite (filter_nil_none _ _ r E Hr) in L. discriminate. }
    rewrite S. eexists _, true, _. split; [reflexivity|].
    split; [eapply Model_save_ok; eassumption|].
    split; [rewrite filter_app, E; cbn; rewrite new_found; reflexivity|].
    split; [|auto].
    intros p Hp. rewrite filter_app. cbn.
    destruct (p (with_pk (next_pk tbl) new)) eqn:P; [|apply app_nil_r].
    pose proof (new_found (next_pk tbl)) as L. rewrite (Hp _ P) in L. discriminate.
  - assert (Hx0 : In x0 tbl /\ lookup x0 = true).
    { apply filter_In. rewrite E. left. reflexivity. }
    destruct Hx0 as [Hx0 Lx0].
    destruct (primary_keys_In tbl x0 (table_ok_keys _ Hok) Hx0) as [k Hk].
    assert (S : Model_save (update x0) tbl
                = Return (update x0,
                          map (fun r => if has_pk k r then update x0 else r) tbl)).
    { unfold Model_save. rewrite update_pk, Hk.
      replace (violates (update x0) tbl) with false.
      - replace (existsb (has_pk k) tbl) with true; [reflexivity|].
        symmetry. apply existsb_exists. exists x0. split; [assumption|].
        apply has_pk_iff. assumption.
      - symmetry. apply existsb_false_intro. intros r Hr.
        destruct (same_unique (update x0) r) eqn:K; [|reflexivity].
        rewrite update_key in K.
        assert (x0 = r) as <-.
        { eapply (unique_together_In same_unique tbl); eauto using same_unique_sym.
          apply table_ok_unique. assumption. }
        cbn. unfold is_row. rewrite update_pk, Hk.
        replace (has_pk k x0) with true; [reflexivity|].
        symmetry. apply has_pk_iff. assumption. }
    rewrite S. eexists _, false, _. split; [reflexivity|].
    split; [eapply Model_save_ok; eassumption|].
    assert (Hf : forall r, In r tbl ->
                   (if has_pk k r then update x0 else r) = r
                   \/ (r = x0 /\ (if has_pk k r then update x0 else r) = update x0)).
    { intros r Hr. destruct (has_pk k r) eqn:Hp; [right|left; reflexivity].
      split; [|reflexivity]. apply has_pk_iff in Hp.
      apply (primary_keys_unique tbl); [apply table_ok_keys|..]; congruence. }
    split.
    { rewrite filter_map_commute.
      - rewrite E. cbn. replace (has_pk k x0) with true; [reflexivity|].
        symmetry. apply has_pk_iff. assumption.
      - intros r Hr. destruct (Hf r Hr) as [->|[-> ->]]; [reflexivity|].
        apply update_found. }
    split; [|eauto].
    intros p Hp. apply filter_map_frame. intros r Hr.
    destruct (Hf r Hr) as [->|[-> ->]]; [left; reflexivity|right].
    split.
    + destruct (p x0) eqn:P; [|reflexivity]. rewrite (Hp _ P) in Lx0. discriminate.
    + destruct (p (update x0)) eqn:P; [|reflexivity].
      pose proof (Hp _ P) as N. rewrite update_found, Lx0 in N. discriminate.
Qed.
End Upsert.

(** [upsert_report] on a report table that respects its constraints. *)
Lemma upsert_report_one_row (now : datetime.t) (user : User.t) (cur : string)
    (t : Totals) (path : string) (w : World) :
  table_ok (reports w) = true ->
  exists r created tbl',
    upsert_report now user cur t path w = (Return (r, created), set_reports w tbl')
    /\ table_ok tbl' = true
    /\ List.filter (report_key_is (User.id user) cur) tbl' = [r]
    /\ (forall p, (forall r, p r = true -> report_key_is (User.id user) cur r = false) ->
                  List.filter p tbl' = List.filter p (reports w))
    /\ MonthlyReport.pdf_file r = path
    /\ report_totals r = stored_totals t.
Proof.
  intros Hok. unfold upsert_report, on_table.
  match goal with
  | |- context [update_or_create ?l ?u ?n (reports w)] =>
      destruct (update_or_create_one_row l u n) with (tbl := reports w)
        as (r & created & tbl' & Hu & Hok' & Hone & Hfr & Hcase)
  end.
  - intros a b Ha Hb. apply andb_prop in Ha, Hb. destruct Ha as [Ha1 Ha2], Hb as [Hb1 Hb2].
    apply Z.eqb_eq in Ha1, Hb1. apply String.eqb_eq in Ha2, Hb2.
    cbn. unfold MonthlyReport.same_key.
    rewrite Ha1, Hb1, Ha2, Hb2, Z.eqb_refl, String.eqb_refl. reflexivity.
  - intros r K. cbn in K. unfold MonthlyReport.same_key in K. cbn in K.
    apply andb_prop in K. destruct K as [K1 K2].
    rewrite Z.eqb_sym, K1, String.eqb_sym, K2. reflexivity.
  - reflexivity.
  - intros k. cbn. rewrite Z.eqb_refl, String.eqb_refl. reflexivity.
  - reflexivity.
  - reflexivity.
  - reflexivity.
  - assumption.
  - rewrite Hu. exists r, created, tbl'. split; [reflexivity|].
    split; [assumption|]. split; [exact Hone|]. split; [exact Hfr|].
    destruct created.
    + destruct Hcase as [_ ->]. split; reflexivity.
    + destruct Hcase as (x0 & _ & ->). split; reflexivity.
Qed.

(** ** The three ways a report request ends *)

Section ReportPaths.
Variables (symbol : option string) (now : datetime.t) (request : HttpRequest.t)
          (w : World).
Let user := HttpRequest.user request.
Let cur := datetime.strftime now "%Y-%m".
Let pdf := pdf_path_of (User.username user) cur.
Let txt := txt_path_of (User.username user) cur.

Hypothesis Hauth : User.is_authenticated user = true.
Hypothesis Hpost : HttpRequest.method request = "POST".
Hypothesis Hprofiles : table_ok (profiles w) = true.

(** Up to the choice of the backend: the profile is fetched (or made) and
    the totals are computed. *)
Lemma download_report_begin (reportlab : option pdf_attempt) :
  exists profile profiles',
    UserProfile.user profile = User.id user
    /\ (forall q, In q (profiles w) -> UserProfile.user q = User.id user ->
                  profile = q /\ profiles' = profiles w)
    /\ ((forall q, In q (profiles w) -> UserProfile.user q <> User.id user) ->
        UserProfile.monthly_salary profile = 0)
    /\ table_ok profiles' = true
    /\ let w0 := set_profiles w profiles' in
       let t := monthly_totals profile user cur w in
       let text := report_text cur user (default "₨" symbol) t now in
       download_report symbol reportlab now request w
       = match reportlab with
         | None =>
             bind (write_file txt text) (fun _ =>
             bind (upsert_report now user cur t txt) (fun _ =>
             bind (messages_add WARNING
                     "ReportLab not available — generated a plain text report instead. To enable PDF reports install reportlab and pillow and restart the server.")
                  (fun _ =>
             bind (open_rb txt) (fun body =>
             ret (FileResponse body true (basename txt)))))) w0
         | Some attempt =>
             try_except
               (bind (build_pdf attempt pdf) (fun _ =>
                bind (upsert_report now user cur t pdf) (fun _ =>
                bind (open_rb pdf) (fun body =>
                ret (FileResponse body true (basename pdf))))))
               (fun e =>
                  bind (write_file txt
                          (text +:+ nl +:+ "--- DEBUG TRACEBACK ---" +:+ nl
                           +:+ format_exc e)) (fun _ =>
                  bind (messages_add ERROR
                          ("PDF generation failed, fallback text report saved. Error: "
                           +:+ str_exn e)) (fun _ =>
                  bind (open_rb txt) (fun body =>
                  ret (FileResponse body true (basename txt)))))) w0
         end.
Proof using Hauth Hpost Hprofiles.
  destruct (profile_get_or_create (User.id user) (profiles w) Hprofiles)
    as (p & created & tbl' & Hg & Hu & Hsame & Hnew & Hok').
  exists p, tbl'. split; [assumption|]. split; [assumption|]. split; [assumption|].
  split; [assumption|]. cbn zeta.
  unfold download_report, login_required. fold user. rewrite Hauth.
  unfold download_report_view. fold user. rewrite Hpost.
  cbn [String.eqb Ascii.eqb Bool.eqb negb].
  unfold bind at 1. unfold on_table at 1. rewrite Hg.
  unfold bind at 1. unfold get_world at 1.
  destruct reportlab; reflexivity.
Qed.

(** Without the backend: the text file is written, the record points at
    it, the caller is warned and gets the file. *)
Lemma download_report_without_backend :
  table_ok (reports w) = true ->
  exists profile r w',
    let t := monthly_totals profile user cur w in
    let text := report_text cur user (default "₨" symbol) t now in
    download_report symbol None now request w
    = (Return (FileResponse text true (basename txt)), w')
    /\ files w' = <[txt := text]> (files w)
    /\ table_ok (reports w') = true
    /\ List.filter (report_key_is (User.id user) cur) (reports w') = [r]
    /\ (forall p, (forall x, p x = true -> report_key_is (User.id user) cur x = false) ->
                  List.filter p (reports w') = List.filter p (reports w))
    /\ MonthlyReport.pdf_file r = txt
    /\ report_totals r = stored_totals t
    /\ (exists warning, messages w' = (messages w ++ [(WARNING, warning)])%list)
    /\ table_ok (profiles w') = true
    /\ (forall q, In q (profiles w) -> UserProfile.user q = User.id user -> profile = q)
    /\ UserProfile.user profile = User.id user
    /\ ((forall q, In q (profiles w) -> UserProfile.user q <> User.id user) ->
        UserProfile.monthly_salary profile = 0).
Proof using Hauth Hpost Hprofiles.
  intros Hreports.
  destruct (download_report_begin None) as (p & tbl' & Hu & Hsame & Hnew & Hptbl & Hrun).
  cbn zeta in Hrun.
  set (t := monthly_totals p user cur w) in *.
  set (text := report_text cur user (default "₨" symbol) t now) in *.
  set (w1 := set_files (set_profiles w tbl') (<[txt := text]> (files w))).
  destruct (upsert_report_one_row now user cur t txt w1 Hreports)
    as (r & created & rtbl & Hup & Hok' & Hone & Hfr & Hpath & Htotals).
  exists p, r. eexists. cbn zeta. fold t text.
  split.
  { rewrite Hrun. unfold bind at 1. unfold write_file at 1.
    cbn [files set_profiles]. fold w1.
    unfold bind at 1. rewrite Hup.
    unfold bind at 1. unfold messages_add at 1.
    unfold bind at 1. unfold open_rb at 1.
    cbn [files set_messages set_reports set_files w1].
    rewrite lookup_insert_eq. reflexivity. }
  cbn [files reports messages profiles set_messages set_reports set_files set_profiles w1].
  split; [reflexivity|]. split; [assumption|]. split; [assumption|].
  split; [exact Hfr|]. split; [assumption|].
  split; [assumption|].
  split; [eexists; reflexivity|]. split; [assumption|].
  split; [intros q Hq Hqu; apply (Hsame q Hq Hqu)|]. split; assumption.
Qed.

(** With a backend that builds the document: the PDF is written, the
    record points at it and the caller gets the file. *)
Lemma download_report_built (content : string) :
  table_ok (reports w) = true ->
  exists profile r w',
    let t := monthly_totals profile user cur w in
    download_report symbol (Some (Built content)) now request w
    = (Return (FileResponse content true (basename pdf)), w')
    /\ files w' = <[pdf := content]> (files w)
    /\ table_ok (reports w') = true
    /\ List.filter (report_key_is (User.id user) cur) (reports w') = [r]
    /\ (forall p, (forall x, p x = true -> report_key_is (User.id user) cur x = false) ->
                  List.filter p (reports w') = List.filter p (reports w))
    /\ MonthlyReport.pdf_file r = pdf
    /\ report_totals r = stored_totals t
    /\ messages w' = messages w
    /\ table_ok (profiles w') = true.
Proof using Hauth Hpost Hprofiles.
  intros Hreports.
  destruct (download_report_begin (Some (Built content)))
    as (p & tbl' & Hu & Hsame & Hnew & Hptbl & Hrun).
  cbn zeta in Hrun.
  set (t := monthly_totals p user cur w) in *.
  set (w1 := set_files (set_profiles w tbl') (<[pdf := content]> (files w))).
  destruct (upsert_report_one_row now user cur t pdf w1 Hreports)
    as (r & created & rtbl & Hup & Hok' & Hone & Hfr & Hpath & Htotals).
  exists p, r. eexists. cbn zeta. fold t.
  split.
  { rewrite Hrun. unfold try_except.
    unfold bind at 1. unfold build_pdf, write_file at 1.
    cbn [files set_profiles]. fold w1.
    unfold bind at 1. rewrite Hup.
    unfold bind at 1. unfold open_rb at 1.
    cbn [files set_reports set_files w1].
    rewrite lookup_insert_eq. reflexivity. }
  cbn [files reports messages profiles set_messages set_reports set_files set_profiles w1].
  split; [reflexivity|]. split; [assumption|]. split; [assumption|].
  split; [exact Hfr|]. split; [assumption|].
  split; [assumption|].
  split; [reflexivity|]. assumption.
Qed.

End ReportPaths.

(** ** Report generation that reaches its upsert *)

Lemma download_report_persisting (symbol : option string)
    (reportlab : option pdf_attempt) (now : datetime.t) (request : HttpRequest.t)
    (w : World) :
  let user := HttpRequest.user request in
  let cur := datetime.strftime now "%Y-%m" in
  User.is_authenticated user = true ->
  HttpRequest.method request = "POST" ->
  table_ok (profiles w) = true ->
  table_ok (reports w) = true ->
  persists reportlab = true ->
  exists response r w',
    download_report symbol reportlab now request w = (Return response, w')
    /\ table_ok (profiles w') = true
    /\ table_ok (reports w') = true
    /\ List.filter (report_key_is (User.id user) cur) (reports w') = [r]
    /\ (MonthlyReport.pdf_file r = pdf_path_of (User.username user) cur
        \/ MonthlyReport.pdf_file r = txt_path_of (User.username user) cur)
    /\ files w' !! MonthlyReport.pdf_file r <> None
    /\ dom (files w') = {[ MonthlyReport.pdf_file r ]} ∪ dom (files w).
Proof.
  intros user cur Hauth Hpost Hp Hr Hper.
  destruct reportlab as [[content|m t l]|]; [| discriminate |].
  - destruct (download_report_built symbol now request w Hauth Hpost Hp content Hr)
      as (p & r & w' & Hrun & Hfiles & Hok & Hone & _ & Hpath & _ & _ & Hpok).
    exists (FileResponse content true
              (basename (pdf_path_of (User.username user) cur))), r, w'.
    split; [exact Hrun|]. split; [assumption|]. split; [assumption|].
    split; [assumption|]. split; [left; assumption|].
    rewrite Hfiles, Hpath. split; [rewrite lookup_insert_eq; discriminate|].
    apply dom_insert_L.
  - destruct (download_report_without_backend symbol now request w Hauth Hpost Hp Hr)
      as (p & r & w' & Hrun & Hfiles & Hok & Hone & _ & Hpath & _ & _ & Hpok & _).
    eexists _, r, w'.
    split; [exact Hrun|]. split; [assumption|]. split; [assumption|].
    split; [assumption|]. split; [right; assumption|].
    rewrite Hfiles, Hpath. split; [rewrite lookup_insert_eq; discriminate|].
    apply dom_insert_L.
Qed.

(** Generating twice through branches that reach the upsert leaves one
    record for the owner and the bucket. *)
Lemma download_report_twice (symbol : option string)
    (first second : option pdf_attempt) (now : datetime.t) (request : HttpRequest.t)
    (w : World) :
  let user := HttpRequest.user request in
  let cur := datetime.strftime now "%Y-%m" in
  User.is_authenticated user = true ->
  HttpRequest.method request = "POST" ->
  table_ok (profiles w) = true ->
  table_ok (reports w) = true ->
  persists first = true -> persists second = true ->
  let w1 := snd (download_report symbol first now request w) in
  let w2 := snd (download_report symbol second now request w1) in
  exists r,
    List.filter (report_key_is (User.id user) cur) (reports w2) = [r]
    /\ table_ok (reports w2) = true.
Proof.
  intros user cur Hauth Hpost Hp Hr H1 H2 w1 w2.
  destruct (download_report_persisting symbol first now request w Hauth Hpost Hp Hr H1)
    as (resp1 & r1 & w1' & Hrun1 & Hp1 & Hr1 & _).
  assert (w1 = w1') as E1 by (unfold w1; rewrite Hrun1; reflexivity).
  rewrite <- E1 in Hp1, Hr1.
  destruct (download_report_persisting symbol second now request w1 Hauth Hpost Hp1 Hr1 H2)
    as (resp2 & r2 & w2' & Hrun2 & _ & Hr2 & Hone & _).
  exists r2. unfold w2. rewrite Hrun2. auto.
Qed.

(** The amounts of the text summary carry two decimals. *)
Lemma format_2f_two_decimals (x : float) :
  match Prim2SF x with
  | S754_nan | S754_infinity _ => True
  | _ => exists whole cents,
           format_2f x = whole +:+ "." +:+ cents /\ String.length cents = 2%nat
  end.
Proof.
  unfold format_2f. destruct (Prim2SF x) as [s|s| |s m e]; try exact I.
  - destruct s; [exists "-0", "00"|exists "0", "00"]; split; reflexivity.
  - eexists _, _. rewrite <- append_assoc. split; [reflexivity|].
    apply length_fixed_digits.
Qed.

(** C5, at the failing input: when building the PDF raises, the view writes
    the text summary with the failure detail, tells the caller and returns the
    file, but upserts no MonthlyReport row - which the branch for a missing
    backend does. *)
Theorem failed_pdf_fallback_skips_record :
  let failed := download_report None demo_failure demo_now demo_post demo_world in
  let unavailable := download_report None None demo_now demo_post demo_world in
  let summary := report_text "2024-06" demo_user "₨" (mkTotals 5200 1800 300 3100) demo_now in
  let detailed :=
    summary +:+ nl +:+ "--- DEBUG TRACEBACK ---" +:+ nl
    +:+ "Traceback (most recent call last): cannot render" in
  fst failed = Return (FileResponse detailed true "monthly_report_demo_2024-06.txt")
  /\ files (snd failed) !! "media/reports/monthly_report_demo_2024-06.txt" = Some detailed
  /\ messages (snd failed)
     = [(ERROR, "PDF generation failed, fallback text report saved. Error: cannot render")]
  /\ reports (snd failed) = []
  /\ fst unavailable = Return (FileResponse summary true "monthly_report_demo_2024-06.txt")
  /\ map MonthlyReport.pdf_file (reports (snd unavailable))
     = ["media/reports/monthly_report_demo_2024-06.txt"].
Proof.
  vm_compute. repeat split; reflexivity.
Qed.

(** C6, at the failing input: two generations for one owner and bucket whose
    PDF construction raises leave no MonthlyReport row for the pair, where
    the specification promises exactly one; the text file is one file, overwritten.
    And the text path of a user name that contains ".pdf" departs from the
    pattern. *)
Theorem regeneration_after_failure_leaves_no_record :
  let w1 := snd (download_report None demo_failure demo_now demo_post demo_world) in
  let w2 := snd (download_report None demo_failure demo_now demo_post w1) in
  List.filter (report_key_is 1 "2024-06") (reports w2) = []
  /\ map fst (map_to_list (files w2)) = ["media/reports/monthly_report_demo_2024-06.txt"]
  /\ txt_path_of "a.pdf" "2024-06" = "media/reports/monthly_report_a.txt_2024-06.txt".
Proof.
  vm_compute. repeat split; reflexivity.
Qed.

(** C8: the trend walks back from the anchor in steps of 30 days, one bucket
    key per step for the requested number of steps, attaches to each key the
    owner's expense total of that bucket (0 without rows) and returns the
    entries oldest first; a bucket key can come twice and a month can be
    skipped. *)
Theorem spending_trend_spec (months : nat) (now : datetime.t) (user : User.t)
    (exps : list Expense.t) :
  datetime.valid now = true ->
  30 * (Z.of_nat months - 1) < datetime.toordinal now ->
  (exists points,
      spending_trend months now user exps = Return points
      /\ length points = months
      /\ forall k, (k < months)%nat ->
           exists p, nth_error points k = Some p
                     /\ point_at now user exps (Z.of_nat (months - 1 - k)) p)
  /\ (forall bucket,
        List.filter (expense_in (User.id user) bucket) exps = [] ->
        float_of_decimal (total_where (expense_in (User.id user) bucket) Expense.amount exps)
        = 0%float)
  /\ map trend_month
        (match spending_trend 2 (datetime.mk 2024 3 31 12 0 0) user exps with
         | Return points => points
         | Raise _ => []
         end) = ["2024-03"; "2024-03"]
  /\ map trend_month
        (match spending_trend 2 (datetime.mk 2024 3 1 12 0 0) user exps with
         | Return points => points
         | Raise _ => []
         end) = ["2024-01"; "2024-03"].
Proof.
  intros V Hn.
  split; [apply spending_trend_points; assumption|].
  split; [|split; reflexivity].
  intros bucket E. rewrite total_where_none by assumption. reflexivity.
Qed.

(** C4, as stated, fails: with budgets in 2024-05 and in 2024-07 and none in
    the requested 2024-06, the dashboard shows 2024-07, which is not a prior
    bucket. *)
Lemma fallback_prior_counterexample :
  ~ (forall (user : User.t) (requested : string) (tbl : list Budget.t),
        has_budgets (User.id user) requested tbl = false ->
        (exists prior, String.ltb prior requested = true
                       /\ has_budgets (User.id user) prior tbl = true) ->
        most_recent_prior (User.id user) requested
          (fst (budgets_shown user requested tbl)) tbl).
Proof.
  intros H.
  specialize (H (User.mk 1 "alice" "" "alice@example.com" true) "2024-06"
                [Budget.mk (Some 1) 1 "Food" 50000 "2024-05";
                 Budget.mk (Some 2) 1 "Food" 45000 "2024-07"]
                eq_refl).
  destruct H as [Hlt _].
  - exists "2024-05". split; reflexivity.
  - vm_compute in Hlt. discriminate.
Qed.

(** C4, amended: when the owner has no Budget rows in the current bucket the
    dashboard falls back to the owner's most recent bucket with Budget rows -
    the greatest bucket key, which is the most recent prior bucket whenever
    the owner has no budgets in a later bucket - shows one entry per row of
    that bucket and reports the bucket used; without any Budget rows it
    reports the current bucket and no entries. *)
Theorem dashboard_budget_fallback (now : datetime.t) (request : HttpRequest.t)
    (w : World) :
  let user := HttpRequest.user request in
  let cur := datetime.strftime now "%Y-%m" in
  User.is_authenticated user = true ->
  datetime.valid now = true ->
  150 < datetime.toordinal now ->
  table_ok (profiles w) = true ->
  has_budgets (User.id user) cur (budgets w) = false ->
  exists ctx w',
    dashboard now request w
    = (Return (render "budget/dashboard.html" (Dashboard ctx)), w')
    /\ ctx_current_month ctx = cur
    /\ ctx_budget_vs_actual ctx
       = map (budget_line (expenses w))
             (budgets_of_month user (ctx_budget_month_used ctx) (budgets w))
    /\ ((exists b, In b (budgets w) /\ Budget.user b = User.id user) ->
        most_recent (User.id user) (ctx_budget_month_used ctx) (budgets w)
        /\ ctx_budget_vs_actual ctx <> []
        /\ ((forall b, In b (budgets w) -> Budget.user b = User.id user ->
                       String.leb (Budget.month_year b) cur = true) ->
            most_recent_prior (User.id user) cur (ctx_budget_month_used ctx) (budgets w)))
    /\ ((forall b, In b (budgets w) -> Budget.user b <> User.id user) ->
        ctx_budget_month_used ctx = cur /\ ctx_budget_vs_actual ctx = []).
Proof.
  intros user cur Hauth V Hord Hok Hnone.
  destruct (dashboard_renders now request w Hauth V Hord Hok)
    as (p & tbl' & trend & Hd & _).
  fold user cur in Hd.
  eexists _, _. split; [exact Hd|]. cbn [ctx_current_month ctx_budget_vs_actual
                                          ctx_budget_month_used].
  split; [reflexivity|].
  destruct (budgets_shown_fallback user cur (budgets w) Hnone)
    as [[Hno E]|(used & [Hhas Hmax] & E)]; rewrite E; cbn [fst snd].
  - pose proof (proj1 (has_budgets_filter user cur (budgets w)) Hnone) as F.
    rewrite F. split; [reflexivity|]. split.
    + intros (b & Hb & Hu). exfalso. exact (Hno b Hb Hu).
    + intros _. split; reflexivity.
  - split; [reflexivity|]. split.
    + intros _. split; [split; assumption|]. split.
      * intros Hnil. apply map_eq_nil in Hnil.
        apply has_budgets_filter in Hnil. congruence.
      * intros Hle. split; [|split; [assumption|]].
        -- pose proof Hhas as Hrow.
           apply has_budgets_true in Hrow. destruct Hrow as (b & Hb & Hu & Hm).
           apply leb_neq_ltb.
           ++ rewrite <- Hm. apply Hle; assumption.
           ++ intros Heq. rewrite Heq in Hhas. congruence.
        -- intros b Hb Hu _. apply Hmax; assumption.
    + intros Hno. exfalso.
      apply has_budgets_true in Hhas. destruct Hhas as (b & Hb & Hu & _).
      exact (Hno b Hb Hu).
Qed.

(** C7: the reset deletes the owner's expenses and investments of the bucket
    of the call time, whatever the request carries, and reports how many it
    deleted; it does so only on a POST - any other request changes nothing -
    and report generation never deletes a row. *)
Theorem reset_month_spec (now : datetime.t) (request : HttpRequest.t) (w : World) :
  let user := HttpRequest.user request in
  let cur := datetime.strftime now "%Y-%m" in
  let gone_e := List.filter (expense_in (User.id user) cur) (expenses w) in
  let gone_i := List.filter (investment_in (User.id user) cur) (investments w) in
  (User.is_authenticated user = true -> HttpRequest.method request = "POST" ->
   exists w',
     reset_month now request w = (Return (redirect "dashboard"), w')
     /\ expenses w'
        = List.filter (fun e => negb (expense_in (User.id user) cur e)) (expenses w)
     /\ investments w'
        = List.filter (fun i => negb (investment_in (User.id user) cur i)) (investments w)
     /\ length (expenses w) = (length (expenses w') + length gone_e)%nat
     /\ length (investments w) = (length (investments w') + length gone_i)%nat
     /\ messages w'
        = (messages w
           ++ [(SUCCESS,
                "Reset complete: deleted " +:+ str_int (Z.of_nat (length gone_e))
                +:+ " expenses and " +:+ str_int (Z.of_nat (length gone_i))
                +:+ " investments for " +:+ cur +:+ ".")])%list
     /\ profiles w' = profiles w /\ budgets w' = budgets w
     /\ reports w' = reports w /\ files w' = files w
     /\ forall other,
          HttpRequest.user other = user -> HttpRequest.method other = "POST" ->
          reset_month now other w = (Return (redirect "dashboard"), w'))
  /\ (User.is_authenticated user = true -> HttpRequest.method request <> "POST" ->
      reset_month now request w = (Return (render "budget/reset_month.html" NoContext), w))
  /\ (User.is_authenticated user = false ->
      reset_month now request w = (Return redirect_to_login, w))
  /\ (forall symbol reportlab,
        let w' := snd (download_report symbol reportlab now request w) in
        expenses w' = expenses w /\ investments w' = investments w).
Proof.
  intros user cur gone_e gone_i.
  split; [|split; [|split]].
  - intros Hauth Hpost.
    assert (R : forall other,
               HttpRequest.user other = user -> HttpRequest.method other = "POST" ->
               reset_month now other w
               = (Return (redirect "dashboard"),
                  set_messages
                    (set_investments
                       (set_expenses w
                          (List.filter (fun e => negb (expense_in (User.id user) cur e))
                                       (expenses w)))
                       (List.filter (fun i => negb (investment_in (User.id user) cur i))
                                    (investments w)))
                    (messages w
                     ++ [(SUCCESS,
                          "Reset complete: deleted " +:+ str_int (Z.of_nat (length gone_e))
                          +:+ " expenses and " +:+ str_int (Z.of_nat (length gone_i))
                          +:+ " investments for " +:+ cur +:+ ".")])%list)).
    { intros other Hu Hm. unfold reset_month, login_required.
      rewrite Hu. fold user. rewrite Hauth.
      unfold reset_month_view. rewrite Hm, Hu. reflexivity. }
    eexists. split; [apply R; [reflexivity|assumption]|].
    cbn [expenses investments messages profiles budgets reports files
         set_messages set_investments set_expenses].
    split; [reflexivity|]. split; [reflexivity|].
    split; [apply length_filter_split|]. split; [apply length_filter_split|].
    split; [reflexivity|]. repeat (split; [reflexivity|]).
    exact R.
  - intros Hauth Hget. unfold reset_month, login_required. fold user. rewrite Hauth.
    unfold reset_month_view.
    destruct (String.eqb_spec (HttpRequest.method request) "POST"); [contradiction|].
    reflexivity.
  - intros Hanon. unfold reset_month, login_required. fold user. rewrite Hanon. reflexivity.
  - intros symbol reportlab. apply download_report_keeps_ledger.
Qed.

(** The budget table a request to the budget page leaves behind. *)
Lemma budget_management_table (Decimal : string -> option Q) (now : datetime.t)
    (request : HttpRequest.t) (w : World) :
  let owner := User.id (HttpRequest.user request) in
  let cur := datetime.strftime now "%Y-%m" in
  let categories := map fst Expense.CATEGORY_CHOICES in
  let w' := snd (budget_management Decimal now request w) in
  table_ok (budgets w) = true ->
  table_ok (budgets w') = true
  /\ evolves (budgets w) (budgets w')
  /\ (forall p,
        (forall c, In c categories ->
           (forall r, p r = true -> budget_key_is owner c cur r = false)
           \/ (forall v, submission Decimal request c <> Positive v)) ->
        List.filter p (budgets w') = List.filter p (budgets w)).
Proof.
  intros owner cur categories w' Hok.
  destruct (budget_management_budgets Decimal now request w) as [E|(_ & _ & E)];
    fold w' in E; rewrite E.
  - split; [assumption|]. split; [apply evolves_refl|]. reflexivity.
  - destruct (budget_loop Decimal request (datetime.strftime now "%Y-%m")
                (map fst Expense.CATEGORY_CHOICES) w Hok)
      as (res & w1 & Hloop & _ & Hok1 & Hev & Hfil & _).
    rewrite Hloop. cbn [snd]. auto.
Qed.


Lemma not_positive_submission (Decimal : string -> option Q) (request : HttpRequest.t)
    (c : string) :
  HttpRequest.POST request !! ("budget_" +:+ c) = None
  \/ HttpRequest.POST request !! ("budget_" +:+ c) = Some ""
  \/ (exists amount value,
        HttpRequest.POST request !! ("budget_" +:+ c) = Some amount
        /\ Decimal amount = Some value /\ (value <= 0)%Q) ->
  submission Decimal request c = Nothing.
Proof.
  unfold submission. intros [->|[->|(amount & value & -> & Hd & Hv)]]; try reflexivity.
  destruct (String.eqb amount ""); [reflexivity|]. rewrite Hd.
  rewrite (Decimal_gt_not value Hv). reflexivity.
Qed.

(** An amount below half a hundredth is stored as zero. *)
Lemma two_places_subcent (value : Q) :
  (0 < value)%Q -> (value < 1 # 200)%Q -> two_places value = 0.
Proof.
  intros Hlo Hhi. unfold two_places, round_half_even.
  assert (F : Qfloor (value * 100) = 0).
  { apply Z.le_antisymm.
    - apply Z.lt_succ_r. rewrite Zlt_Qlt.
      apply Qle_lt_trans with (value * 100)%Q; [apply Qfloor_le|].
      change (inject_Z (Z.succ 0)) with 1%Q. lra.
    - change 0 with (Qfloor 0). apply Qfloor_resp_le. lra. }
  rewrite F. change (inject_Z 0) with 0%Q.
  destruct (Qcompare_spec (value * 100 - 0) (1 # 2)) as [X|X|X]; [lra|reflexivity|lra].
Qed.

(** A category whose submitted amount is absent, empty, zero or negative is
    skipped - its Budget rows stay exactly as they were and none is created;
    the budget page never deletes a Budget row nor writes a negative
    allocation; but a strictly positive amount below half a hundredth
    overwrites the allocation of its category with zero. *)
Lemma budget_update_skips (Decimal : string -> option Q)
    (now : datetime.t) (request : HttpRequest.t) (w : World) (c : string) :
  let owner := User.id (HttpRequest.user request) in
  let cur := datetime.strftime now "%Y-%m" in
  let w' := snd (budget_management Decimal now request w) in
  table_ok (budgets w) = true ->
  ((HttpRequest.POST request !! ("budget_" +:+ c) = None
    \/ HttpRequest.POST request !! ("budget_" +:+ c) = Some ""
    \/ (exists amount value,
          HttpRequest.POST request !! ("budget_" +:+ c) = Some amount
          /\ Decimal amount = Some value /\ (value <= 0)%Q)) ->
   List.filter (fun b => String.eqb (Budget.category b) c) (budgets w')
   = List.filter (fun b => String.eqb (Budget.category b) c) (budgets w))
  /\ (forall r, In r (budgets w) ->
        exists r', In r' (budgets w') /\ Budget.id r' = Budget.id r
                   /\ Budget.same_key r r' = true
                   /\ (r' = r \/ 0 <= Budget.allocated_amount r'))
  /\ (forall r', In r' (budgets w') -> In r' (budgets w) \/ 0 <= Budget.allocated_amount r')
  /\ (forall c', (forall v, submission Decimal request c' <> Positive v) ->
        List.filter (fun b => String.eqb (Budget.category b) c') (budgets w')
        = List.filter (fun b => String.eqb (Budget.category b) c') (budgets w))
  /\ (forall b v,
        User.is_authenticated (HttpRequest.user request) = true ->
        HttpRequest.method request = "POST" ->
        (forall c', In c' (map fst Expense.CATEGORY_CHOICES) ->
                    submission Decimal request c' <> NotADecimal) ->
        In c (map fst Expense.CATEGORY_CHOICES) ->
        In b (budgets w) -> budget_key_is owner c cur b = true ->
        submission Decimal request c = Positive v -> (v < 1 # 200)%Q ->
        List.filter (budget_key_is owner c cur) (budgets w')
        = [Budget.set_allocated_amount b 0]).
Proof.
  intros owner cur w' Hok.
  destruct (budget_management_table Decimal now request w Hok) as (_ & [Hkeep Hnew] & Hfil).
  fold w' in Hkeep, Hnew, Hfil.
  assert (Hcat : forall c', (forall v, submission Decimal request c' <> Positive v) ->
            List.filter (fun b => String.eqb (Budget.category b) c') (budgets w')
            = List.filter (fun b => String.eqb (Budget.category b) c') (budgets w)).
  { intros c' Hnp. apply Hfil. intros c0 _.
    destruct (String.eqb_spec c0 c') as [->|N]; [right; assumption|left].
    intros r Hr. apply String.eqb_eq in Hr.
    unfold budget_key_is. rewrite Hr.
    apply String.eqb_neq in N. rewrite String.eqb_sym, N, andb_false_r. reflexivity. }
  split.
  { intros Hskip. apply Hcat. intros v.
    rewrite (not_positive_submission _ _ _ Hskip). discriminate. }
  split; [assumption|]. split; [assumption|]. split; [assumption|].
  intros b v Hauth Hpost Hvalid Hc Hb Kb Hpos Hsmall.
  destruct (budget_loop Decimal request cur (map fst Expense.CATEGORY_CHOICES) w Hok)
    as (res & w1 & Hloop & _ & _ & _ & _ & Hall).
  destruct (Hall Hvalid) as [-> Hupd].
  unfold w'.
  rewrite (budget_management_post Decimal now request w Hauth Hpost _ _ Hloop).
  cbn [snd budgets set_messages]. unfold owner.
  rewrite (Hupd c v b NoDup_categories Hc Hpos Hb Kb).
  rewrite two_places_subcent; [reflexivity| |assumption].
  unfold submission in Hpos.
  destruct (HttpRequest.POST request !! ("budget_" +:+ c)) as [amount|]; [|discriminate].
  destruct (String.eqb amount ""); [discriminate|].
  destruct (Decimal amount) as [value|]; [|discriminate].
  destruct (Decimal_gt value 0) eqn:L; [|discriminate].
  injection Hpos as <-. apply Decimal_gt_0. assumption.
Qed.

(** C10, at the failing input: 0.001 submitted for Food, which has an
    allocation of 500.00, is greater than zero and passes the guard, and the
    store keeps it as 0.00 - the update reduces the allocation to zero,
    where the claim says it never does.  The 0 submitted for Bills is
    skipped. *)
Theorem budget_update_writes_zero :
  let run := budget_management demo_Decimal demo_now demo_subcent_post demo_world in
  budgets demo_world = [Budget.mk (Some 1) 1 "Food" 50000 "2024-06"]
  /\ table_ok (budgets demo_world) = true
  /\ HttpRequest.POST demo_subcent_post !! "budget_Food" = Some "0.001"
  /\ demo_Decimal "0.001" = Some (1 # 1000)
  /\ submission demo_Decimal demo_subcent_post "Food" = Positive (1 # 1000)
  /\ submission demo_Decimal demo_subcent_post "Bills" = Nothing
  /\ fst run = Return (redirect "budget_management")
  /\ budgets (snd run) = [Budget.mk (Some 1) 1 "Food" 0 "2024-06"]
  /\ messages (snd run) = [(SUCCESS, "Budgets updated successfully!")].
Proof.
  vm_compute. repeat split; reflexivity.
Qed.


(** ** The statements at the demo ledger *)


(** Moving the demo lunch from 15 March to 2 April 2024 moves it from the
    bucket 2024-03 to the bucket 2024-04. *)
Lemma save_moves_bucket :
  Expense.month_year demo_lunch = "2024-03"
  /\ exists e' etbl',
       Expense.save demo_lunch_moved [demo_lunch] = Return (e', etbl')
       /\ Expense.month_year e' = "2024-04"
       /\ Expense.id e' = Expense.id demo_lunch
       /\ In e' etbl'
       /\ (forall r, In r etbl' -> Expense.id r = Expense.id e' -> r = e').
Proof.
  split; [reflexivity|].
  destruct (save_recomputes_bucket demo_lunch_moved [demo_lunch] demo_deposit []
              eq_refl eq_refl) as [(e' & etbl' & Hs & Hm & _ & _ & Hid & Hin & Hone) _].
  exists e', etbl'.
  split; [exact (Hs "2024-03")|]. split; [exact Hm|].
  split; [apply Hid; discriminate|]. split; assumption.
Qed.


Lemma dashboard_budget_fallback_witness :
  has_budgets 1 "2024-06" (budgets demo_world_may_budget) = false
  /\ exists ctx w',
       dashboard demo_now demo_get demo_world_may_budget
       = (Return (render "budget/dashboard.html" (Dashboard ctx)), w')
       /\ ctx_current_month ctx = "2024-06"
       /\ ctx_budget_month_used ctx = "2024-05"
       /\ most_recent_prior 1 "2024-06" (ctx_budget_month_used ctx)
            (budgets demo_world_may_budget).
Proof.
  split; [reflexivity|].
  destruct (dashboard_budget_fallback demo_now demo_get demo_world_may_budget
              eq_refl eq_refl ltac:(vm_compute; reflexivity) eq_refl eq_refl)
    as (ctx & w' & Hrun & Hcur & Hlines & Hsome & _).
  exists ctx, w'. split; [exact Hrun|]. split; [exact Hcur|].
  destruct Hsome as ([Hhas Hmax] & _ & Hprior).
  { eexists. split; [left; reflexivity|reflexivity]. }
  assert (P : most_recent_prior 1 "2024-06" (ctx_budget_month_used ctx)
                (budgets demo_world_may_budget)).
  { apply Hprior. intros b [<-|[]] _. reflexivity. }
  split; [|exact P].
  apply has_budgets_true in Hhas. destruct Hhas as (b & [<-|[]] & _ & Hm).
  symmetry. exact Hm.
Defined.

Lemma reset_month_spec_witness :
  exists w',
    reset_month demo_now demo_post demo_world = (Return (redirect "dashboard"), w')
    /\ map Expense.id (expenses w') = [Some 3; Some 4]
    /\ investments w' = []
    /\ messages w'
       = [(SUCCESS, "Reset complete: deleted 2 expenses and 1 investments for 2024-06.")]
    /\ reset_month demo_now demo_get demo_world
       = (Return (render "budget/reset_month.html" NoContext), demo_world).
Proof.
  pose proof (reset_month_spec demo_now demo_post demo_world) as H.
  cbv zeta in H. destruct H as (Hpost & _).
  destruct (Hpost eq_refl eq_refl) as (w' & Hrun & He & Hi & _ & _ & Hm & _).
  exists w'. split; [exact Hrun|].
  split; [rewrite He; reflexivity|]. split; [rewrite Hi; reflexivity|].
  split; [rewrite Hm; reflexivity|].
  pose proof (reset_month_spec demo_now demo_get demo_world) as G.
  cbv zeta in G. destruct G as (_ & Hget & _).
  apply Hget; [reflexivity|discriminate].
Defined.

Lemma spending_trend_spec_witness :
  datetime.valid demo_now = true
  /\ 30 * (Z.of_nat 6 - 1) < datetime.toordinal demo_now
  /\ exists points,
       spending_trend 6 demo_now demo_user (expenses demo_world) = Return points
       /\ length points = 6%nat
       /\ map trend_month points
          = ["2024-01"; "2024-02"; "2024-03"; "2024-04"; "2024-05"; "2024-06"].
Proof.
  split; [reflexivity|]. split; [reflexivity|].
  destruct (spending_trend_spec 6 demo_now demo_user (expenses demo_world) eq_refl eq_refl)
    as ((points & Hrun & Hlen & _) & _).
  exists points. split; [exact Hrun|]. split; [exact Hlen|].
  assert (E : Return points
              = spending_trend 6 demo_now demo_user (expenses demo_world))
    by (symmetry; exact Hrun).
  vm_compute in E. injection E as ->. reflexivity.
Defined.


(** * Further properties of the views *)

(** ** Adding, editing and deleting transactions *)

Lemma violates_unconstrained {A : Type} `{Model A} (x : A) (tbl : list A) :
  (forall a b, same_unique a b = false) -> violates x tbl = false.
Proof.
  intros Hu. unfold violates. induction tbl as [|r tbl IH]; simpl; [reflexivity|].
  rewrite Hu, IH. reflexivity.
Qed.

Lemma filter_none {A : Type} (p : A -> bool) (l : list A) :
  (forall x, In x l -> p x = false) -> List.filter p l = [].
Proof.
  induction l as [|x l IH]; simpl; intros Hp; [reflexivity|].
  rewrite (Hp x) by (left; reflexivity). apply IH. intros y Hy. apply Hp. right. assumption.
Qed.

(** A table with distinct primary keys holds at most one row per key. *)
Lemma filter_by_pk {A : Type} `{Model A} (k : Z) (q : A -> bool) (tbl : list A) :
  primary_keys tbl = true ->
  ((forall r, In r tbl -> has_pk k r = true -> q r = false)
   /\ List.filter (fun r => has_pk k r && q r) tbl = [])
  \/ exists x, List.filter (fun r => has_pk k r && q r) tbl = [x]
               /\ In x tbl /\ pk x = Some k /\ q x = true
               /\ forall r, In r tbl -> has_pk k r = true -> r = x.
Proof.
  induction tbl as [|r tbl IH]; simpl.
  { intros _. left. split; [tauto|reflexivity]. }
  destruct (pk r) as [kr|] eqn:Hr; [|discriminate].
  intros Hk. apply andb_prop in Hk. destruct Hk as [Hfresh Hk].
  apply negb_true_iff in Hfresh.
  destruct (has_pk k r) eqn:Hkr; simpl.
  - assert (kr = k) as ->.
    { unfold has_pk in Hkr. rewrite Hr in Hkr. apply Z.eqb_eq in Hkr. assumption. }
    assert (Hnone : forall y, In y tbl -> has_pk k y = false).
    { intros y Hy. destruct (has_pk k y) eqn:E; [|reflexivity].
      assert (existsb (has_pk k) tbl = true); [|congruence].
      apply existsb_exists. eauto. }
    assert (Hrest : List.filter (fun r => has_pk k r && q r) tbl = []).
    { apply filter_none. intros y Hy. rewrite (Hnone y Hy). reflexivity. }
    rewrite Hrest. destruct (q r) eqn:Hq.
    + right. exists r.
      split; [reflexivity|]. split; [left; reflexivity|].
      split; [assumption|]. split; [assumption|].
      intros y [<-|Hy] Hy'; [reflexivity|].
      rewrite (Hnone y Hy) in Hy'. discriminate.
    + left. split; [|reflexivity].
      intros y [<-|Hy] Hy'; [assumption|].
      rewrite (Hnone y Hy) in Hy'. discriminate.
  - destruct (IH Hk) as [[Hno E]|(x & E & Hin & Hx & Hq & Huniq)].
    + left. split; [|assumption].
      intros y [<-|Hy] Hy'; [congruence|]. apply Hno; assumption.
    + right. exists x. split; [assumption|]. split; [right; assumption|].
      split; [assumption|]. split; [assumption|].
      intros y [<-|Hy] Hy'; [congruence|]. apply Huniq; assumption.
Qed.

Lemma table_ok_primary_keys {A : Type} `{Model A} (tbl : list A) :
  table_ok tbl = true -> primary_keys tbl = true.
Proof. unfold table_ok. intros E. apply andb_prop in E. tauto. Qed.

(** [get_object_or_404] on the primary key and the owner. *)
Lemma get_owned {A : Type} `{Model A} (k : Z) (q : A -> bool) (tbl : list A) :
  primary_keys tbl = true ->
  ((forall r, In r tbl -> has_pk k r = true -> q r = false)
   /\ get_object_or_404 (fun r => has_pk k r && q r) tbl = Return None)
  \/ exists x, get_object_or_404 (fun r => has_pk k r && q r) tbl = Return (Some x)
               /\ In x tbl /\ pk x = Some k /\ q x = true
               /\ forall r, In r tbl -> has_pk k r = true -> r = x.
Proof.
  intros Hk. unfold get_object_or_404.
  destruct (filter_by_pk k q tbl Hk) as [[Hno E]|(x & E & Hx)]; rewrite E.
  - left. split; [assumption|reflexivity].
  - right. exists x. split; [reflexivity|assumption].
Qed.

(** Replacing the row of a key changes one row of a table with distinct
    keys. *)
Lemma replace_row {A : Type} `{Model A} (k : Z) (x x' : A) (tbl : list A) :
  primary_keys tbl = true -> In x tbl -> pk x = Some k -> pk x' = Some k ->
  let tbl' := map (fun r => if has_pk k r then x' else r) tbl in
  length tbl' = length tbl
  /\ In x' tbl'
  /\ List.filter (fun r => negb (has_pk k r)) tbl'
     = List.filter (fun r => negb (has_pk k r)) tbl
  /\ (forall r, In r tbl -> r <> x -> In r tbl')
  /\ (forall r, In r tbl' -> r = x' \/ (In r tbl /\ r <> x)).
Proof.
  intros Hk Hin Hx Hx' tbl'.
  assert (Hkx' : has_pk k x' = true) by (unfold has_pk; rewrite Hx', Z.eqb_refl; reflexivity).
  assert (Hkx : has_pk k x = true) by (unfold has_pk; rewrite Hx, Z.eqb_refl; reflexivity).
  split; [apply length_map|].
  split.
  { apply in_map_iff. exists x. split; [|assumption]. rewrite Hkx. reflexivity. }
  split.
  { apply filter_map_frame. intros r _.
    destruct (has_pk k r) eqn:E; [right|left; reflexivity].
    rewrite Hkx'. split; reflexivity. }
  split.
  - intros r Hr Hne. apply in_map_iff. exists r. split; [|assumption].
    destruct (has_pk k r) eqn:E; [|reflexivity].
    exfalso. apply Hne. apply (primary_keys_unique tbl); try assumption.
    unfold has_pk in E. destruct (pk r) as [kr|]; [|discriminate].
    apply Z.eqb_eq in E. congruence.
  - intros r Hr. apply in_map_iff in Hr. destruct Hr as (r0 & E & Hr0).
    destruct (has_pk k r0) eqn:E0; [left; congruence|right].
    subst r0. split; [assumption|]. intros ->. congruence.
Qed.

(** Deleting the row of a key removes one row of a table with distinct
    keys. *)
Lemma delete_row {A : Type} `{Model A} (x : A) (k : Z) (tbl : list A) :
  primary_keys tbl = true -> In x tbl -> pk x = Some k ->
  fst (delete (is_row x) tbl) = 1
  /\ length tbl = S (length (snd (delete (is_row x) tbl)))
  /\ (forall r, In r (snd (delete (is_row x) tbl)) <-> In r tbl /\ r <> x).
Proof.
  intros Hk Hin Hx. unfold delete. cbn [fst snd].
  assert (Hrow : forall r, In r tbl -> (is_row x r = true <-> r = x)).
  { intros r Hr. unfold is_row. rewrite Hx. split.
    - intros E. apply (primary_keys_unique tbl); try assumption.
      unfold has_pk in E. destruct (pk r) as [kr|]; [|discriminate].
      apply Z.eqb_eq in E. congruence.
    - intros ->. unfold has_pk. rewrite Hx, Z.eqb_refl. reflexivity. }
  assert (Hone : List.filter (is_row x) tbl = [x]).
  { rewrite (filter_ext (is_row x) (fun r => has_pk k r && true)).
    2:{ intros r. unfold is_row. rewrite Hx, andb_true_r. reflexivity. }
    destruct (filter_by_pk k (fun _ => true) tbl Hk) as [[Hno _]|(y & E & _ & _ & _ & Hy)].
    - exfalso. specialize (Hno x Hin). apply Hrow in Hin as Hxx.
      unfold is_row in Hxx. rewrite Hx in Hxx.
      assert (has_pk k x = true) by (apply Hxx; reflexivity).
      specialize (Hno H0). discriminate.
    - rewrite E. f_equal. symmetry. apply Hy; [assumption|].
      unfold has_pk. rewrite Hx, Z.eqb_refl. reflexivity. }
  rewrite Hone. split; [reflexivity|]. split.
  - rewrite (length_filter_split (is_row x) tbl), Hone. simpl. lia.
  - intros r. rewrite filter_In. split.
    + intros [Hr E]. split; [assumption|]. intros ->.
      apply negb_true_iff in E.
      assert (is_row x x = true) by (apply Hrow; auto). congruence.
    + intros [Hr Hne]. split; [assumption|]. apply negb_true_iff.
      destruct (is_row x r) eqn:E; [|reflexivity].
      exfalso. apply Hne. apply Hrow; assumption.
Qed.

#[global] Instance Expense_laws : ModelLaws Expense.t.
Proof. split; intros; reflexivity. Qed.

#[global] Instance Investment_laws : ModelLaws Investment.t.
Proof. split; intros; reflexivity. Qed.

Lemma Expense_save_new (e : Expense.t) (tbl : list Expense.t) :
  Expense.id e = None ->
  let e' :=
    Expense.mk (Some (next_pk tbl)) (Expense.user e) (Expense.category e)
      (Expense.amount e) (Expense.description e) (Expense.date e)
      (datetime.strftime (Expense.date e) "%Y-%m") in
  Expense.save e tbl = Return (e', (tbl ++ [e'])%list).
Proof.
  intros Hid. unfold Expense.save, Model_save.
  rewrite violates_unconstrained by reflexivity.
  destruct e as [i u c a ds d m]; simpl in *. subst i. reflexivity.
Qed.

Lemma Expense_save_row (e : Expense.t) (k : Z) (tbl : list Expense.t) :
  Expense.id e = Some k -> existsb (has_pk k) tbl = true ->
  let e' := Expense.set_month_year e (datetime.strftime (Expense.date e) "%Y-%m") in
  Expense.save e tbl = Return (e', map (fun r => if has_pk k r then e' else r) tbl).
Proof.
  intros Hid Hex. unfold Expense.save, Model_save.
  rewrite violates_unconstrained by reflexivity.
  destruct e as [i u c a ds d m]; simpl in *. subst i. rewrite Hex. reflexivity.
Qed.

Lemma Investment_save_new (e : Investment.t) (tbl : list Investment.t) :
  Investment.id e = None ->
  let e' :=
    Investment.mk (Some (next_pk tbl)) (Investment.user e) (Investment.investment_type e)
      (Investment.amount e) (Investment.description e) (Investment.date e)
      (datetime.strftime (Investment.date e) "%Y-%m") in
  Investment.save e tbl = Return (e', (tbl ++ [e'])%list).
Proof.
  intros Hid. unfold Investment.save, Model_save.
  rewrite violates_unconstrained by reflexivity.
  destruct e as [i u c a ds d m]; simpl in *. subst i. reflexivity.
Qed.

Lemma Investment_save_row (e : Investment.t) (k : Z) (tbl : list Investment.t) :
  Investment.id e = Some k -> existsb (has_pk k) tbl = true ->
  let e' := Investment.set_month_year e (datetime.strftime (Investment.date e) "%Y-%m") in
  Investment.save e tbl = Return (e', map (fun r => if has_pk k r then e' else r) tbl).
Proof.
  intros Hid Hex. unfold Investment.save, Model_save.
  rewrite violates_unconstrained by reflexivity.
  destruct e as [i u c a ds d m]; simpl in *. subst i. rewrite Hex. reflexivity.
Qed.

Lemma has_pk_In {A : Type} `{Model A} (k : Z) (x : A) (tbl : list A) :
  In x tbl -> pk x = Some k -> existsb (has_pk k) tbl = true.
Proof.
  intros Hin Hx. apply existsb_exists. exists x. split; [assumption|].
  unfold has_pk. rewrite Hx, Z.eqb_refl. reflexivity.
Qed.

Lemma unique_unconstrained {A : Type} (same : A -> A -> bool) (l : list A) :
  (forall a b, same a b = false) -> unique_together same l = true.
Proof.
  intros Hs. induction l as [|r l IH]; simpl; [reflexivity|].
  rewrite IH, andb_true_r. apply negb_true_iff.
  induction l as [|y l IHl]; simpl; [reflexivity|].
  rewrite Hs. apply IHl. simpl in IH. apply andb_prop in IH. tauto.
Qed.

Lemma add_expense_runs (ExpenseForm : gmap string string -> option ExpenseFields)
    (request : HttpRequest.t) (w : World) (cleaned : ExpenseFields) :
  let user := HttpRequest.user request in
  User.is_authenticated user = true ->
  HttpRequest.method request = "POST" ->
  ExpenseForm (HttpRequest.POST request) = Some cleaned ->
  add_expense ExpenseForm request w
  = (Return (plain (redirect "expense_list")),
     set_messages
       (set_expenses w
          (expenses w
           ++ [Expense.mk (Some (next_pk (expenses w))) (User.id user)
                 (exp_category cleaned) (exp_amount cleaned) (exp_description cleaned)
                 (exp_date cleaned) (datetime.strftime (exp_date cleaned) "%Y-%m")]))
       (messages w ++ [(SUCCESS, "Expense added successfully!")])).
Proof.
  intros user Hauth Hpost Hform.
  unfold add_expense, login_required_page. fold user. rewrite Hauth.
  unfold add_expense_view. rewrite Hpost, Hform. cbn [String.eqb Ascii.eqb Bool.eqb].
  unfold bind, on_table, messages_add, ret. fold user.
  rewrite Expense_save_new by reflexivity. reflexivity.
Qed.

Lemma add_investment_runs
    (InvestmentForm : gmap string string -> option InvestmentFields)
    (request : HttpRequest.t) (w : World) (cleaned : InvestmentFields) :
  let user := HttpRequest.user request in
  User.is_authenticated user = true ->
  HttpRequest.method request = "POST" ->
  InvestmentForm (HttpRequest.POST request) = Some cleaned ->
  add_investment InvestmentForm request w
  = (Return (plain (redirect "investment_list")),
     set_messages
       (set_investments w
          (investments w
           ++ [Investment.mk (Some (next_pk (investments w))) (User.id user)
                 (inv_investment_type cleaned) (inv_amount cleaned)
                 (inv_description cleaned) (inv_date cleaned)
                 (datetime.strftime (inv_date cleaned) "%Y-%m")]))
       (messages w ++ [(SUCCESS, "Investment added successfully!")])).
Proof.
  intros user Hauth Hpost Hform.
  unfold add_investment, login_required_page. fold user. rewrite Hauth.
  unfold add_investment_view. rewrite Hpost, Hform. cbn [String.eqb Ascii.eqb Bool.eqb].
  unfold bind, on_table, messages_add, ret. fold user.
  rewrite Investment_save_new by reflexivity. reflexivity.
Qed.

(** X1: a new expense or investment is stored for the requesting user, whatever
    the form data says, in the bucket of its date, under a fresh key and
    after the rows the table held; a request that is no POST, or whose form
    is not valid, stores nothing. *)
Theorem add_transaction_stores_owned
    (ExpenseForm : gmap string string -> option ExpenseFields)
    (InvestmentForm : gmap string string -> option InvestmentFields)
    (request : HttpRequest.t) (w : World) :
  let user := HttpRequest.user request in
  User.is_authenticated user = true ->
  (forall cleaned,
      HttpRequest.method request = "POST" ->
      ExpenseForm (HttpRequest.POST request) = Some cleaned ->
      let e :=
        Expense.mk (Some (next_pk (expenses w))) (User.id user) (exp_category cleaned)
          (exp_amount cleaned) (exp_description cleaned) (exp_date cleaned)
          (datetime.strftime (exp_date cleaned) "%Y-%m") in
      add_expense ExpenseForm request w
      = (Return (plain (redirect "expense_list")),
         set_messages (set_expenses w (expenses w ++ [e]))
           (messages w ++ [(SUCCESS, "Expense added successfully!")]))
      /\ forall r, In r (expenses w) -> Expense.id r <> Expense.id e)
  /\ (forall cleaned,
      HttpRequest.method request = "POST" ->
      InvestmentForm (HttpRequest.POST request) = Some cleaned ->
      let i :=
        Investment.mk (Some (next_pk (investments w))) (User.id user)
          (inv_investment_type cleaned) (inv_amount cleaned) (inv_description cleaned)
          (inv_date cleaned) (datetime.strftime (inv_date cleaned) "%Y-%m") in
      add_investment InvestmentForm request w
      = (Return (plain (redirect "investment_list")),
         set_messages (set_investments w (investments w ++ [i]))
           (messages w ++ [(SUCCESS, "Investment added successfully!")]))
      /\ forall r, In r (investments w) -> Investment.id r <> Investment.id i)
  /\ (HttpRequest.method request <> "POST"
      \/ ExpenseForm (HttpRequest.POST request) = None ->
      add_expense ExpenseForm request w = (Return (form_page "budget/add_expense.html"), w))
  /\ (HttpRequest.method request <> "POST"
      \/ InvestmentForm (HttpRequest.POST request) = None ->
      add_investment InvestmentForm request w
      = (Return (form_page "budget/add_investment.html"), w)).
Proof.
  intros user Hauth.
  split; [|split; [|split]].
  - intros cleaned Hpost Hform e.
    split.
    + apply add_expense_runs; assumption.
    + intros r Hr E. cbn in E.
      pose proof (next_pk_above (expenses w) r _ Hr E). lia.
  - intros cleaned Hpost Hform i.
    split.
    + apply add_investment_runs; assumption.
    + intros r Hr E. cbn in E.
      pose proof (next_pk_above (investments w) r _ Hr E). lia.
  - intros H. unfold add_expense, login_required_page. fold user. rewrite Hauth.
    unfold add_expense_view.
    destruct (String.eqb_spec (HttpRequest.method request) "POST") as [E|E]; [|reflexivity].
    destruct H as [H|H]; [contradiction|]. rewrite H. reflexivity.
  - intros H. unfold add_investment, login_required_page. fold user. rewrite Hauth.
    unfold add_investment_view.
    destruct (String.eqb_spec (HttpRequest.method request) "POST") as [E|E]; [|reflexivity].
    destruct H as [H|H]; [contradiction|]. rewrite H. reflexivity.
Qed.

Lemma add_transaction_stores_owned_witness :
  User.is_authenticated (HttpRequest.user demo_transaction_post) = true
  /\ expenses (snd (add_expense demo_ExpenseForm demo_transaction_post demo_world))
     = (expenses demo_world
        ++ [Expense.mk (Some 5) 1 "Food" 1250 "lunch" demo_now "2024-06"])%list
  /\ investments (snd (add_investment demo_InvestmentForm demo_transaction_post demo_world))
     = (investments demo_world
        ++ [Investment.mk (Some 2) 1 "Savings" 1250 "lunch" demo_now "2024-06"])%list.
Proof.
  split; [reflexivity|].
  pose proof (add_transaction_stores_owned demo_ExpenseForm demo_InvestmentForm
                demo_transaction_post demo_world) as H.
  cbv zeta in H. destruct (H eq_refl) as (He & Hi & _).
  split.
  - destruct (He (mkExpenseFields "Food" 1250 "lunch" demo_now) eq_refl eq_refl) as [E _].
    rewrite E. reflexivity.
  - destruct (Hi (mkInvestmentFields "Savings" 1250 "lunch" demo_now) eq_refl eq_refl)
      as [E _].
    rewrite E. reflexivity.
Defined.

(** X2: the pages that edit or delete a transaction answer 404 and change
    nothing when the key names no row of the requesting user - a missing row
    and another user's row alike - whatever the method and the form. *)
Theorem foreign_transaction_not_found
    (ExpenseForm : gmap string string -> option ExpenseFields)
    (InvestmentForm : gmap string string -> option InvestmentFields)
    (key : Z) (request : HttpRequest.t) (w : World) :
  let user := HttpRequest.user request in
  User.is_authenticated user = true ->
  ((forall e, In e (expenses w) -> Expense.id e = Some key ->
              Expense.user e <> User.id user) ->
   edit_expense ExpenseForm key request w = (Return Http404, w)
   /\ delete_expense key request w = (Return Http404, w))
  /\ ((forall i, In i (investments w) -> Investment.id i = Some key ->
                 Investment.user i <> User.id user) ->
      edit_investment InvestmentForm key request w = (Return Http404, w)
      /\ delete_investment key request w = (Return Http404, w)).
Proof.
  intros user Hauth. split.
  - intros Hforeign.
    assert (E : List.filter (fun e => has_pk key e && (Expense.user e =? User.id user))
                  (expenses w) = []).
    { apply filter_none. intros e He.
      destruct (has_pk key e) eqn:Hk; [|reflexivity].
      apply (has_pk_iff (A := Expense.t)) in Hk.
      apply Z.eqb_neq. apply Hforeign; assumption. }
    split.
    + unfold edit_expense, login_required_page. fold user. rewrite Hauth.
      unfold edit_expense_view, bind, query, get_object_or_404. fold user.
      rewrite E. reflexivity.
    + unfold delete_expense, login_required_page. fold user. rewrite Hauth.
      unfold delete_expense_view, bind, query, get_object_or_404. fold user.
      rewrite E. reflexivity.
  - intros Hforeign.
    assert (E : List.filter (fun i => has_pk key i && (Investment.user i =? User.id user))
                  (investments w) = []).
    { apply filter_none. intros i Hi.
      destruct (has_pk key i) eqn:Hk; [|reflexivity].
      apply (has_pk_iff (A := Investment.t)) in Hk.
      apply Z.eqb_neq. apply Hforeign; assumption. }
    split.
    + unfold edit_investment, login_required_page. fold user. rewrite Hauth.
      unfold edit_investment_view, bind, query, get_object_or_404. fold user.
      rewrite E. reflexivity.
    + unfold delete_investment, login_required_page. fold user. rewrite Hauth.
      unfold delete_investment_view, bind, query, get_object_or_404. fold user.
      rewrite E. reflexivity.
Qed.

Lemma foreign_transaction_not_found_witness :
  User.is_authenticated (HttpRequest.user demo_transaction_post) = true
  /\ In (Expense.mk (Some 4) 2 "Food" 990 "another user's lunch"
           (datetime.mk 2024 6 9 0 0 0) "2024-06") (expenses demo_world)
  /\ edit_expense demo_ExpenseForm 4 demo_transaction_post demo_world
     = (Return Http404, demo_world)
  /\ delete_expense 4 demo_transaction_post demo_world = (Return Http404, demo_world).
Proof.
  split; [reflexivity|]. split; [cbn; tauto|].
  pose proof (foreign_transaction_not_found demo_ExpenseForm demo_InvestmentForm 4
                demo_transaction_post demo_world) as H.
  cbv zeta in H. destruct (H eq_refl) as (He & _).
  apply He. intros e He' Hid.
  cbn in He'.
  destruct He' as [<-|[<-|[<-|[<-|[]]]]]; cbn in Hid |- *;
    try discriminate; lia.
Defined.

(** X3: editing an own expense or investment with a valid form rewrites that
    one row: it keeps its key and its owner, takes the cleaned fields and the
    bucket of the new date, and the other rows stay as they are. *)
Theorem edit_transaction_rewrites_row
    (ExpenseForm : gmap string string -> option ExpenseFields)
    (InvestmentForm : gmap string string -> option InvestmentFields)
    (key : Z) (request : HttpRequest.t) (w : World) :
  let user := HttpRequest.user request in
  User.is_authenticated user = true ->
  HttpRequest.method request = "POST" ->
  (forall old cleaned,
      table_ok (expenses w) = true ->
      In old (expenses w) -> Expense.id old = Some key -> Expense.user old = User.id user ->
      ExpenseForm (HttpRequest.POST request) = Some cleaned ->
      let e :=
        Expense.mk (Some key) (User.id user) (exp_category cleaned) (exp_amount cleaned)
          (exp_description cleaned) (exp_date cleaned)
          (datetime.strftime (exp_date cleaned) "%Y-%m") in
      let tbl' := map (fun r => if has_pk key r then e else r) (expenses w) in
      edit_expense ExpenseForm key request w
      = (Return (plain (redirect "expense_list")),
         set_messages (set_expenses w tbl')
           (messages w ++ [(SUCCESS, "Expense updated successfully!")]))
      /\ length tbl' = length (expenses w)
      /\ In e tbl'
      /\ (forall r, In r (expenses w) -> r <> old -> In r tbl')
      /\ (forall r, In r tbl' -> r = e \/ (In r (expenses w) /\ r <> old))
      /\ table_ok tbl' = true)
  /\ (forall old cleaned,
      table_ok (investments w) = true ->
      In old (investments w) -> Investment.id old = Some key ->
      Investment.user old = User.id user ->
      InvestmentForm (HttpRequest.POST request) = Some cleaned ->
      let i :=
        Investment.mk (Some key) (User.id user) (inv_investment_type cleaned)
          (inv_amount cleaned) (inv_description cleaned) (inv_date cleaned)
          (datetime.strftime (inv_date cleaned) "%Y-%m") in
      let tbl' := map (fun r => if has_pk key r then i else r) (investments w) in
      edit_investment InvestmentForm key request w
      = (Return (plain (redirect "investment_list")),
         set_messages (set_investments w tbl')
           (messages w ++ [(SUCCESS, "Investment updated successfully!")]))
      /\ length tbl' = length (investments w)
      /\ In i tbl'
      /\ (forall r, In r (investments w) -> r <> old -> In r tbl')
      /\ (forall r, In r tbl' -> r = i \/ (In r (investments w) /\ r <> old))
      /\ table_ok tbl' = true).
Proof.
  intros user Hauth Hpost. split.
  - intros old cleaned Hok Hin Hid Hown Hform e tbl'.
    pose proof (table_ok_primary_keys _ Hok) as Hk.
    destruct (get_owned key (fun e => Expense.user e =? User.id user) (expenses w) Hk)
      as [[Hno _]|(x & Hget & Hx & Hxk & Hxu & Huniq)].
    { exfalso.
      assert (Hpk : has_pk key old = true) by (apply (has_pk_iff (A := Expense.t)); exact Hid).
      specialize (Hno old Hin Hpk). cbn beta in Hno.
      rewrite Hown, Z.eqb_refl in Hno. discriminate. }
    assert (x = old) as ->.
    { symmetry. apply Huniq; [assumption|].
      apply (has_pk_iff (A := Expense.t)). exact Hid. }
    assert (Hrun : edit_expense ExpenseForm key request w
                   = (Return (plain (redirect "expense_list")),
                      set_messages (set_expenses w tbl')
                        (messages w ++ [(SUCCESS, "Expense updated successfully!")]))).
    { unfold edit_expense, login_required_page. fold user. rewrite Hauth.
      unfold edit_expense_view, bind, query. fold user. rewrite Hget.
      rewrite Hpost, Hform. cbn [String.eqb Ascii.eqb Bool.eqb].
      unfold on_table, messages_add, ret.
      rewrite (Expense_save_row _ key); [|exact Hid|apply (has_pk_In key old); assumption].
      cbv zeta. unfold Expense.set_month_year. cbn [Expense.id Expense.user Expense.category
        Expense.amount Expense.description Expense.date Expense.month_year].
      rewrite Hid, Hown. reflexivity. }
    split; [exact Hrun|].
    destruct (replace_row key old e (expenses w) Hk Hin Hid eq_refl)
      as (Hlen & Hine & _ & Hkeep & Hnew).
    split; [exact Hlen|]. split; [exact Hine|]. split; [exact Hkeep|].
    split; [exact Hnew|].
    unfold table_ok. apply andb_true_intro. split.
    + unfold tbl'.
      rewrite <- (primary_keys_map (fun r => if has_pk key r then e else r)) in Hk;
        [exact Hk|].
      intros r. destruct (has_pk key r) eqn:E; [|reflexivity].
      apply (has_pk_iff (A := Expense.t)) in E. rewrite E. reflexivity.
    + apply unique_unconstrained. reflexivity.
  - intros old cleaned Hok Hin Hid Hown Hform i tbl'.
    pose proof (table_ok_primary_keys _ Hok) as Hk.
    destruct (get_owned key (fun i => Investment.user i =? User.id user) (investments w) Hk)
      as [[Hno _]|(x & Hget & Hx & Hxk & Hxu & Huniq)].
    { exfalso.
      assert (Hpk : has_pk key old = true)
        by (apply (has_pk_iff (A := Investment.t)); exact Hid).
      specialize (Hno old Hin Hpk). cbn beta in Hno.
      rewrite Hown, Z.eqb_refl in Hno. discriminate. }
    assert (x = old) as ->.
    { symmetry. apply Huniq; [assumption|].
      apply (has_pk_iff (A := Investment.t)). exact Hid. }
    assert (Hrun : edit_investment InvestmentForm key request w
                   = (Return (plain (redirect "investment_list")),
                      set_messages (set_investments w tbl')
                        (messages w ++ [(SUCCESS, "Investment updated successfully!")]))).
    { unfold edit_investment, login_required_page. fold user. rewrite Hauth.
      unfold edit_investment_view, bind, query. fold user. rewrite Hget.
      rewrite Hpost, Hform. cbn [String.eqb Ascii.eqb Bool.eqb].
      unfold on_table, messages_add, ret.
      rewrite (Investment_save_row _ key); [|exact Hid|apply (has_pk_In key old); assumption].
      cbv zeta. unfold Investment.set_month_year.
      cbn [Investment.id Investment.user Investment.investment_type Investment.amount
           Investment.description Investment.date Investment.month_year].
      rewrite Hid, Hown. reflexivity. }
    split; [exact Hrun|].
    destruct (replace_row key old i (investments w) Hk Hin Hid eq_refl)
      as (Hlen & Hine & _ & Hkeep & Hnew).
    split; [exact Hlen|]. split; [exact Hine|]. split; [exact Hkeep|].
    split; [exact Hnew|].
    unfold table_ok. apply andb_true_intro. split.
    + unfold tbl'.
      rewrite <- (primary_keys_map (fun r => if has_pk key r then i else r)) in Hk;
        [exact Hk|].
      intros r. destruct (has_pk key r) eqn:E; [|reflexivity].
      apply (has_pk_iff (A := Investment.t)) in E. rewrite E. reflexivity.
    + apply unique_unconstrained. reflexivity.
Qed.

Lemma edit_transaction_rewrites_row_witness :
  User.is_authenticated (HttpRequest.user demo_transaction_post) = true
  /\ HttpRequest.method demo_transaction_post = "POST"
  /\ table_ok (expenses demo_world) = true
  /\ map Expense.amount
       (expenses (snd (edit_expense demo_ExpenseForm 1 demo_transaction_post demo_world)))
     = [1250; 118000; 7000; 990].
Proof.
  split; [reflexivity|]. split; [reflexivity|]. split; [reflexivity|].
  pose proof (edit_transaction_rewrites_row demo_ExpenseForm demo_InvestmentForm 1
                demo_transaction_post demo_world) as H.
  cbv zeta in H. destruct (H eq_refl eq_refl) as (He & _).
  destruct (He (Expense.mk (Some 1) 1 "Food" 62000 "Demo Food expense for 2024-06"
                  (datetime.mk 2024 6 5 0 0 0) "2024-06")
               (mkExpenseFields "Food" 1250 "lunch" demo_now)
               eq_refl (or_introl eq_refl) eq_refl eq_refl eq_refl) as (E & _).
  rewrite E. reflexivity.
Defined.

(** X4: deleting an own expense or investment on a POST removes that one row
    and no other; any other method shows the confirmation page for the row
    and changes nothing. *)
Theorem delete_transaction_removes_row (key : Z) (request : HttpRequest.t) (w : World) :
  let user := HttpRequest.user request in
  User.is_authenticated user = true ->
  (forall old,
      table_ok (expenses w) = true ->
      In old (expenses w) -> Expense.id old = Some key -> Expense.user old = User.id user ->
      (HttpRequest.method request = "POST" ->
       exists tbl',
         delete_expense key request w
         = (Return (plain (redirect "expense_list")),
            set_messages (set_expenses w tbl')
              (messages w ++ [(SUCCESS, "Expense deleted successfully!")]))
         /\ length (expenses w) = S (length tbl')
         /\ forall r, In r tbl' <-> In r (expenses w) /\ r <> old)
      /\ (HttpRequest.method request <> "POST" ->
          delete_expense key request w
          = (Return (expense_page "budget/delete_expense.html" old), w)))
  /\ (forall old,
      table_ok (investments w) = true ->
      In old (investments w) -> Investment.id old = Some key ->
      Investment.user old = User.id user ->
      (HttpRequest.method request = "POST" ->
       exists tbl',
         delete_investment key request w
         = (Return (plain (redirect "investment_list")),
            set_messages (set_investments w tbl')
              (messages w ++ [(SUCCESS, "Investment deleted successfully!")]))
         /\ length (investments w) = S (length tbl')
         /\ forall r, In r tbl' <-> In r (investments w) /\ r <> old)
      /\ (HttpRequest.method request <> "POST" ->
          delete_investment key request w
          = (Return (investment_page "budget/delete_investment.html" old), w))).
Proof.
  intros user Hauth. split.
  - intros old Hok Hin Hid Hown.
    pose proof (table_ok_primary_keys _ Hok) as Hk.
    destruct (get_owned key (fun e => Expense.user e =? User.id user) (expenses w) Hk)
      as [[Hno _]|(x & Hget & Hx & Hxk & Hxu & Huniq)].
    { exfalso.
      assert (Hpk : has_pk key old = true) by (apply (has_pk_iff (A := Expense.t)); exact Hid).
      specialize (Hno old Hin Hpk). cbn beta in Hno.
      rewrite Hown, Z.eqb_refl in Hno. discriminate. }
    assert (x = old) as ->.
    { symmetry. apply Huniq; [assumption|].
      apply (has_pk_iff (A := Expense.t)). exact Hid. }
    split.
    + intros Hpost.
      destruct (delete_row old key (expenses w) Hk Hin Hid) as (_ & Hlen & Hrows).
      exists (snd (delete (is_row old) (expenses w))).
      split; [|split; assumption].
      unfold delete_expense, login_required_page. fold user. rewrite Hauth.
      unfold delete_expense_view, bind, query. fold user. rewrite Hget, Hpost.
      reflexivity.
    + intros Hget'.
      unfold delete_expense, login_required_page. fold user. rewrite Hauth.
      unfold delete_expense_view, bind, query. fold user. rewrite Hget.
      destruct (String.eqb_spec (HttpRequest.method request) "POST"); [contradiction|].
      reflexivity.
  - intros old Hok Hin Hid Hown.
    pose proof (table_ok_primary_keys _ Hok) as Hk.
    destruct (get_owned key (fun i => Investment.user i =? User.id user) (investments w) Hk)
      as [[Hno _]|(x & Hget & Hx & Hxk & Hxu & Huniq)].
    { exfalso.
      assert (Hpk : has_pk key old = true)
        by (apply (has_pk_iff (A := Investment.t)); exact Hid).
      specialize (Hno old Hin Hpk). cbn beta in Hno.
      rewrite Hown, Z.eqb_refl in Hno. discriminate. }
    assert (x = old) as ->.
    { symmetry. apply Huniq; [assumption|].
      apply (has_pk_iff (A := Investment.t)). exact Hid. }
    split.
    + intros Hpost.
      destruct (delete_row old key (investments w) Hk Hin Hid) as (_ & Hlen & Hrows).
      exists (snd (delete (is_row old) (investments w))).
      split; [|split; assumption].
      unfold delete_investment, login_required_page. fold user. rewrite Hauth.
      unfold delete_investment_view, bind, query. fold user. rewrite Hget, Hpost.
      reflexivity.
    + intros Hget'.
      unfold delete_investment, login_required_page. fold user. rewrite Hauth.
      unfold delete_investment_view, bind, query. fold user. rewrite Hget.
      destruct (String.eqb_spec (HttpRequest.method request) "POST"); [contradiction|].
      reflexivity.
Qed.

Lemma delete_transaction_removes_row_witness :
  User.is_authenticated (HttpRequest.user demo_post) = true
  /\ table_ok (investments demo_world) = true
  /\ investments (snd (delete_investment 1 demo_post demo_world)) = []
  /\ map Expense.id (expenses (snd (delete_expense 2 demo_post demo_world)))
     = [Some 1; Some 3; Some 4].
Proof.
  split; [reflexivity|]. split; [reflexivity|].
  pose proof (delete_transaction_removes_row 1 demo_post demo_world) as H.
  cbv zeta in H. destruct (H eq_refl) as (_ & Hi).
  destruct (Hi (Investment.mk (Some 1) 1 "Stocks" 30000 "Demo Stocks investment for 2024-06"
                  (datetime.mk 2024 6 10 0 0 0) "2024-06")
               eq_refl (or_introl eq_refl) eq_refl eq_refl) as (Hpost & _).
  destruct (Hpost eq_refl) as (tbl' & E & Hlen & _).
  split.
  - rewrite E. cbn [snd investments set_messages set_investments].
    destruct tbl' as [|r tbl']; [reflexivity|]. cbn in Hlen. lia.
  - reflexivity.
Defined.
(** ** The listings *)

Lemma tuple_leb_refl (a : list Z) : tuple_leb a a = true.
Proof.
  induction a as [|x a IH]; simpl; [reflexivity|].
  rewrite Z.ltb_irrefl. assumption.
Qed.

Lemma tuple_leb_total (a b : list Z) :
  length a = length b -> tuple_leb a b = true \/ tuple_leb b a = true.
Proof.
  revert b; induction a as [|x a IH]; intros [|y b] Hl; simpl in *; try discriminate; auto.
  destruct (Z.ltb_spec x y); [auto|].
  destruct (Z.ltb_spec y x); [auto|].
  apply IH. lia.
Qed.

Lemma tuple_leb_trans (a b c : list Z) :
  length a = length b -> length b = length c ->
  tuple_leb a b = true -> tuple_leb b c = true -> tuple_leb a c = true.
Proof.
  revert b c; induction a as [|x a IH]; intros [|y b] [|z c] H1 H2; simpl in *;
    try discriminate; auto.
  destruct (Z.ltb_spec x y), (Z.ltb_spec y z), (Z.ltb_spec x z); auto; try lia;
    destruct (Z.ltb_spec y x), (Z.ltb_spec z y), (Z.ltb_spec z x); auto; try lia;
    try discriminate.
  apply IH; lia.
Qed.

Lemma datetime_leb_refl (a : datetime.t) : datetime_leb a a = true.
Proof. apply tuple_leb_refl. Qed.

Lemma datetime_leb_total (a b : datetime.t) :
  datetime_leb a b = true \/ datetime_leb b a = true.
Proof. apply tuple_leb_total. reflexivity. Qed.

Lemma datetime_leb_trans (a b c : datetime.t) :
  datetime_leb a b = true -> datetime_leb b c = true -> datetime_leb a c = true.
Proof. apply tuple_leb_trans; reflexivity. Qed.

Section Ordered.
Context {A : Type} (before : A -> A -> bool).
Hypothesis before_trans :
  forall a b c, before a b = true -> before b c = true -> before a c = true.
Hypothesis before_total : forall a b, before a b = true \/ before b a = true.

Lemma forallb_insert_sorted (p : A -> bool) (x : A) (l : list A) :
  forallb p (insert_sorted before x l) = p x && forallb p l.
Proof using Type.
  induction l as [|y l IH]; simpl; [reflexivity|].
  destruct (before x y); simpl; [reflexivity|].
  rewrite IH. destruct (p x), (p y); reflexivity.
Qed.

Lemma ordered_insert_sorted (x : A) (l : list A) :
  ordered before l = true -> ordered before (insert_sorted before x l) = true.
Proof using before_trans before_total.
  induction l as [|y l IH]; simpl; [reflexivity|].
  intros H. apply andb_prop in H. destruct H as [Hy Hl].
  destruct (before x y) eqn:E; simpl.
  - rewrite E, Hy, Hl. simpl. rewrite andb_true_r.
    apply forallb_forall. intros z Hz.
    apply (before_trans x y z); [assumption|].
    rewrite forallb_forall in Hy. apply Hy. assumption.
  - rewrite forallb_insert_sorted, Hy, (IH Hl), !andb_true_r.
    destruct (before_total x y); congruence.
Qed.

Lemma ordered_order_by (l : list A) : ordered before (order_by before l) = true.
Proof using before_trans before_total.
  unfold order_by. induction l as [|x l IH]; simpl; [reflexivity|].
  apply ordered_insert_sorted. assumption.
Qed.

Lemma forallb_filter (p q : A -> bool) (l : list A) :
  forallb p l = true -> forallb p (List.filter q l) = true.
Proof using Type.
  induction l as [|y l IH]; simpl; [reflexivity|].
  intros H. apply andb_prop in H. destruct H as [Hy Hl].
  destruct (q y); simpl; [rewrite Hy|]; auto.
Qed.

Lemma ordered_filter (q : A -> bool) (l : list A) :
  ordered before l = true -> ordered before (List.filter q l) = true.
Proof using Type.
  induction l as [|y l IH]; simpl; [reflexivity|].
  intros H. apply andb_prop in H. destruct H as [Hy Hl].
  destruct (q y); simpl; [|auto].
  rewrite (forallb_filter _ _ _ Hy), (IH Hl). reflexivity.
Qed.

Lemma total_where_insert_sorted (p : A -> bool) (amount : A -> decimal2) (x : A)
    (l : list A) :
  total_where p amount (insert_sorted before x l)
  = (if p x then amount x else 0) + total_where p amount l.
Proof using Type.
  induction l as [|y l IH]; simpl; [reflexivity|].
  destruct (before x y); simpl; [reflexivity|]. rewrite IH. lia.
Qed.

Lemma total_where_order_by (p : A -> bool) (amount : A -> decimal2) (l : list A) :
  total_where p amount (order_by before l) = total_where p amount l.
Proof using Type.
  unfold order_by. induction l as [|x l IH]; simpl; [reflexivity|].
  rewrite total_where_insert_sorted, IH. reflexivity.
Qed.
End Ordered.

Lemma filter_filter {A : Type} (p q : A -> bool) (l : list A) :
  List.filter p (List.filter q l) = List.filter (fun x => q x && p x) l.
Proof.
  induction l as [|x l IH]; simpl; [reflexivity|].
  destruct (q x); simpl; [destruct (p x)|]; rewrite IH; reflexivity.
Qed.

Lemma filter_all {A : Type} (l : list A) : List.filter (fun _ => true) l = l.
Proof. induction l as [|x l IH]; simpl; [|rewrite IH]; reflexivity. Qed.

Lemma total_where_filter {A : Type} (p q : A -> bool) (amount : A -> decimal2)
    (l : list A) :
  total_where p amount (List.filter q l) = total_where (fun x => q x && p x) amount l.
Proof.
  induction l as [|x l IH]; simpl; [reflexivity|].
  destruct (q x); simpl; rewrite IH; reflexivity.
Qed.

Lemma filter_if {A : Type} (c : bool) (p : A -> bool) (l : list A) :
  (if c then List.filter p l else l) = List.filter (fun x => negb c || p x) l.
Proof. destruct c; simpl; [reflexivity|symmetry; apply filter_all]. Qed.

Lemma filter_option {A B : Type} (o : option B) (p : B -> A -> bool) (l : list A) :
  match o with Some b => List.filter (p b) l | None => l end
  = List.filter (fun x => match o with Some b => p b x | None => true end) l.
Proof. destruct o; simpl; [reflexivity|symmetry; apply filter_all]. Qed.

Lemma filter_expenses_passes (icontains : string -> string -> bool)
    (cleaned : option FilterFields) (l : list Expense.t) :
  filter_expenses icontains cleaned l = List.filter (expense_passes icontains cleaned) l.
Proof.
  unfold filter_expenses, expense_passes, passes.
  destruct cleaned as [f|]; [|symmetry; apply filter_all].
  rewrite (filter_if _ _ l).
  rewrite (filter_option (flt_start_date f)
             (fun s e => date_leb s (date_of (Expense.date e)))).
  rewrite (filter_option (flt_end_date f)
             (fun s e => date_leb (date_of (Expense.date e)) s)).
  rewrite filter_if, !filter_filter.
  apply filter_ext. intros e. rewrite !negb_involutive, !andb_assoc. reflexivity.
Qed.

Lemma filter_investments_passes (icontains : string -> string -> bool)
    (cleaned : option FilterFields) (l : list Investment.t) :
  filter_investments icontains cleaned l
  = List.filter (investment_passes icontains cleaned) l.
Proof.
  unfold filter_investments, investment_passes, passes.
  destruct cleaned as [f|]; [|symmetry; apply filter_all].
  rewrite (filter_if _ _ l).
  rewrite (filter_option (flt_start_date f)
             (fun s i => date_leb s (date_of (Investment.date i)))).
  rewrite (filter_option (flt_end_date f)
             (fun s i => date_leb (date_of (Investment.date i)) s)).
  rewrite filter_if, !filter_filter.
  apply filter_ext. intros e. rewrite !negb_involutive, !andb_assoc. reflexivity.
Qed.

(** *** Pages *)

Lemma chunks_concat {A : Type} (per k : nat) (l : list A) :
  (concat (map (fun i => firstn per (skipn (i * per) l)) (seq 0 k))
   ++ skipn (k * per) l)%list = l.
Proof.
  induction k as [|k IH].
  - reflexivity.
  - rewrite seq_S, map_app, concat_app. cbn [map concat Nat.add].
    rewrite app_nil_r, <- app_assoc.
    replace (S k * per)%nat with (per + k * per)%nat by lia.
    rewrite <- skipn_skipn, firstn_skipn. exact IH.
Qed.

Lemma In_slice {A : Type} (n m : nat) (l : list A) (x : A) :
  In x (firstn n (skipn m l)) -> In x l.
Proof.
  intros H. rewrite <- (firstn_skipn m l). apply in_or_app. right.
  rewrite <- (firstn_skipn n (skipn m l)). apply in_or_app. left. exact H.
Qed.

Section Pages.
Context {A : Type} (l : list A).
Let pages := Paginator.num_pages l 20.

Lemma num_pages_bounds :
  1 <= pages /\ (pages - 1) * 20 < Z.max 1 (Z.of_nat (length l)) <= pages * 20.
Proof using Type.
  unfold pages, Paginator.num_pages, Paginator.count.
  set (c := Z.max 1 (Z.of_nat (length l) - 0)).
  assert (1 <= c) by (unfold c; lia).
  replace (Z.max 1 (Z.of_nat (length l))) with c by (unfold c; lia).
  pose proof (Z.div_mod (c + 20 - 1) 20 ltac:(lia)).
  pose proof (Z.mod_pos_bound (c + 20 - 1) 20 ltac:(lia)).
  lia.
Qed.

Lemma page_inner (n : nat) :
  Z.of_nat (S n) < pages ->
  object_list (Paginator.page l 20 (Z.of_nat (S n))) = firstn 20 (skipn (n * 20) l)
  /\ length (object_list (Paginator.page l 20 (Z.of_nat (S n)))) = 20%nat.
Proof using Type.
  intros Hn. pose proof num_pages_bounds as [H1 [H2 H3]].
  unfold Paginator.page, Paginator.slice, Paginator.count. cbn [object_list].
  destruct (Z.leb_spec (Z.of_nat (length l)) ((Z.of_nat (S n) - 1) * 20 + 20 + 0)); [lia|].
  replace (Z.to_nat ((Z.of_nat (S n) - 1) * 20 + 20 - (Z.of_nat (S n) - 1) * 20))
    with 20%nat by lia.
  replace (Z.to_nat ((Z.of_nat (S n) - 1) * 20)) with (n * 20)%nat by lia.
  split; [reflexivity|].
  rewrite length_firstn, length_skipn. lia.
Qed.

Lemma page_last (n : nat) :
  Z.of_nat (S n) = pages ->
  object_list (Paginator.page l 20 (Z.of_nat (S n))) = skipn (n * 20) l
  /\ (length (object_list (Paginator.page l 20 (Z.of_nat (S n)))) <= 20)%nat.
Proof using Type.
  intros Hn. pose proof num_pages_bounds as [H1 [H2 H3]].
  unfold Paginator.page, Paginator.slice, Paginator.count. cbn [object_list].
  destruct (Z.leb_spec (Z.of_nat (length l)) ((Z.of_nat (S n) - 1) * 20 + 20 + 0)); [|lia].
  replace (Z.to_nat ((Z.of_nat (S n) - 1) * 20)) with (n * 20)%nat by lia.
  rewrite firstn_all2 by (rewrite length_skipn; lia).
  split; [reflexivity|]. rewrite length_skipn. lia.
Qed.

Lemma pages_concat :
  concat (map (fun n => object_list (Paginator.page l 20 (Z.of_nat n)))
              (seq 1 (Z.to_nat pages))) = l.
Proof using Type.
  pose proof num_pages_bounds as [H1 _].
  destruct (Z.to_nat pages) as [|m] eqn:Em; [lia|].
  rewrite <- seq_shift, map_map, seq_S, map_app, concat_app. cbn [map concat Nat.add].
  rewrite app_nil_r.
  rewrite (proj1 (page_last m ltac:(lia))).
  etransitivity; [|apply (chunks_concat 20 m l)]. f_equal. f_equal.
  apply map_ext_in. intros i Hi. apply in_seq in Hi.
  apply page_inner. lia.
Qed.

Lemma page_rows (n : Z) (x : A) :
  In x (object_list (Paginator.page l 20 n)) -> In x l.
Proof using Type.
  unfold Paginator.page, Paginator.slice. cbn [object_list]. intros H.
  apply In_slice in H. exact H.
Qed.

Lemma get_page_is_page (p : option Z) :
  exists n, 1 <= n <= pages
            /\ Paginator.get_page l 20 p = Paginator.page l 20 n
            /\ n = match p with
                   | None => 1
                   | Some k => if (k <? 1) || (pages <? k) then pages else k
                   end.
Proof using Type.
  pose proof num_pages_bounds as [H1 _].
  unfold Paginator.get_page. fold pages.
  destruct p as [k|].
  - destruct (Z.ltb_spec k 1); [exists pages; cbn; split; [lia|split; reflexivity]|].
    destruct (Z.ltb_spec pages k); [exists pages|exists k]; cbn;
      (split; [lia|split; reflexivity]).
  - exists 1. split; [lia|split; reflexivity].
Qed.

Lemma page_length (n : Z) :
  1 <= n <= pages -> (length (object_list (Paginator.page l 20 n)) <= 20)%nat.
Proof using Type.
  intros Hn. replace n with (Z.of_nat (S (Z.to_nat (n - 1)))) by lia.
  destruct (Z.eq_dec n pages) as [E|E].
  - apply page_last. lia.
  - rewrite (proj2 (page_inner (Z.to_nat (n - 1)) ltac:(lia))). lia.
Qed.
End Pages.

(** *** What a listing holds *)

Lemma length_filter_insert_sorted {A : Type} (before : A -> A -> bool) (p : A -> bool)
    (x : A) (l : list A) :
  length (List.filter p (insert_sorted before x l))
  = ((if p x then 1 else 0) + length (List.filter p l))%nat.
Proof.
  induction l as [|y l IH]; simpl; [destruct (p x); reflexivity|].
  destruct (before x y); simpl; [destruct (p x); reflexivity|].
  destruct (p y); simpl; rewrite IH; destruct (p x); lia.
Qed.


Lemma ordered_skipn {A : Type} (before : A -> A -> bool) (n : nat) (l : list A) :
  ordered before l = true -> ordered before (skipn n l) = true.
Proof.
  revert l; induction n as [|n IH]; intros [|x l]; simpl; auto.
  intros H. apply andb_prop in H. apply IH. tauto.
Qed.

Lemma forallb_firstn {A : Type} (p : A -> bool) (n : nat) (l : list A) :
  forallb p l = true -> forallb p (firstn n l) = true.
Proof.
  revert l; induction n as [|n IH]; intros [|x l]; simpl; auto.
  intros H. apply andb_prop in H. destruct H as [-> H]. apply IH. assumption.
Qed.

Lemma ordered_firstn {A : Type} (before : A -> A -> bool) (n : nat) (l : list A) :
  ordered before l = true -> ordered before (firstn n l) = true.
Proof.
  revert l; induction n as [|n IH]; intros [|x l]; simpl; auto.
  intros H. apply andb_prop in H. destruct H as [H1 H2].
  rewrite (forallb_firstn _ _ _ H1), (IH _ H2). reflexivity.
Qed.

Section Listing.
Context {A : Type} (owner passing : A -> bool) (before : A -> A -> bool)
        (tbl : list A).
Hypothesis before_trans :
  forall a b c, before a b = true -> before b c = true -> before a c = true.
Hypothesis before_total : forall a b, before a b = true \/ before b a = true.

Let listing := List.filter passing (order_by before (List.filter owner tbl)).

Lemma listing_In (x : A) :
  In x listing <-> In x tbl /\ owner x && passing x = true.
Proof using Type.
  unfold listing. rewrite filter_In, In_order_by, filter_In, andb_true_iff. tauto.
Qed.

Lemma listing_ordered : ordered before listing = true.
Proof using before_trans before_total.
  apply ordered_filter. apply ordered_order_by; assumption.
Qed.

Lemma listing_total (amount : A -> decimal2) :
  or_zero (Sum (map amount listing))
  = total_where (fun x => owner x && passing x) amount tbl.
Proof using Type.
  unfold listing. rewrite or_zero_Sum, total_where_order_by, total_where_filter.
  reflexivity.
Qed.

End Listing.

Lemma listing_length {A : Type} (owner passing : A -> bool) (before : A -> A -> bool)
    (tbl : list A) :
  length (List.filter passing (order_by before (List.filter owner tbl)))
  = length (List.filter (fun x => owner x && passing x) tbl).
Proof.
  rewrite <- filter_filter.
  generalize (List.filter owner tbl). intros l.
  unfold order_by. induction l as [|x l IH]; simpl; [reflexivity|].
  rewrite length_filter_insert_sorted, IH. destruct (passing x); reflexivity.
Qed.

Lemma newest_first_trans {A : Type} (date : A -> datetime.t) (a b c : A) :
  datetime_leb (date b) (date a) = true -> datetime_leb (date c) (date b) = true ->
  datetime_leb (date c) (date a) = true.
Proof. intros H1 H2. exact (datetime_leb_trans _ _ _ H2 H1). Qed.

Lemma newest_first_total {A : Type} (date : A -> datetime.t) (a b : A) :
  datetime_leb (date b) (date a) = true \/ datetime_leb (date a) (date b) = true.
Proof. apply datetime_leb_total. Qed.

Lemma expense_list_runs (icontains : string -> string -> bool)
    (cleaned : option FilterFields) (page_number : option Z) (request : HttpRequest.t)
    (w : World) :
  let user := HttpRequest.user request in
  let listing :=
    List.filter (expense_passes icontains cleaned)
      (order_by (fun a b => datetime_leb (Expense.date b) (Expense.date a))
         (List.filter (fun e => Expense.user e =? User.id user) (expenses w))) in
  User.is_authenticated user = true ->
  expense_list icontains cleaned page_number request w
  = (Return (expense_list_page (Paginator.get_page listing 20 page_number)
               (total_where
                  (fun e => (Expense.user e =? User.id user)
                            && expense_passes icontains cleaned e)
                  Expense.amount (expenses w))), w).
Proof.
  intros user listing Hauth.
  unfold expense_list, login_required_page. fold user. rewrite Hauth.
  unfold expense_list_view, bind, get_world, ret. fold user.
  rewrite filter_expenses_passes. fold listing.
  unfold listing. rewrite listing_total. reflexivity.
Qed.

Lemma investment_list_runs (icontains : string -> string -> bool)
    (cleaned : option FilterFields) (page_number : option Z) (request : HttpRequest.t)
    (w : World) :
  let user := HttpRequest.user request in
  let listing :=
    List.filter (investment_passes icontains cleaned)
      (order_by (fun a b => datetime_leb (Investment.date b) (Investment.date a))
         (List.filter (fun i => Investment.user i =? User.id user) (investments w))) in
  User.is_authenticated user = true ->
  investment_list icontains cleaned page_number request w
  = (Return (investment_list_page (Paginator.get_page listing 20 page_number)
               (total_where
                  (fun i => (Investment.user i =? User.id user)
                            && investment_passes icontains cleaned i)
                  Investment.amount (investments w))), w).
Proof.
  intros user listing Hauth.
  unfold investment_list, login_required_page. fold user. rewrite Hauth.
  unfold investment_list_view, bind, get_world, ret. fold user.
  rewrite filter_investments_passes. fold listing.
  unfold listing. rewrite listing_total. reflexivity.
Qed.

(** X5: a listing shows only rows of the requesting user that pass the filter
    form, newest first and at most 20 on the page, leaves the world as it
    is, and its total is the sum over all such rows, not over the page. *)
Theorem listing_shows_own_transactions (icontains : string -> string -> bool)
    (cleaned : option FilterFields) (page_number : option Z) (request : HttpRequest.t)
    (w : World) :
  let user := HttpRequest.user request in
  let own_expense e :=
    (Expense.user e =? User.id user) && expense_passes icontains cleaned e in
  let own_investment i :=
    (Investment.user i =? User.id user) && investment_passes icontains cleaned i in
  User.is_authenticated user = true ->
  (exists page_obj,
     expense_list icontains cleaned page_number request w
     = (Return (expense_list_page page_obj
                  (total_where own_expense Expense.amount (expenses w))), w)
     /\ (forall e, In e (object_list page_obj) ->
                   In e (expenses w) /\ own_expense e = true)
     /\ ordered (fun a b => datetime_leb (Expense.date b) (Expense.date a))
                (object_list page_obj) = true
     /\ (length (object_list page_obj) <= 20)%nat)
  /\ (exists page_obj,
     investment_list icontains cleaned page_number request w
     = (Return (investment_list_page page_obj
                  (total_where own_investment Investment.amount (investments w))), w)
     /\ (forall i, In i (object_list page_obj) ->
                   In i (investments w) /\ own_investment i = true)
     /\ ordered (fun a b => datetime_leb (Investment.date b) (Investment.date a))
                (object_list page_obj) = true
     /\ (length (object_list page_obj) <= 20)%nat).
Proof.
  intros user own_expense own_investment Hauth. split.
  - eexists. split; [apply expense_list_runs; assumption|].
    match goal with |- context [Paginator.get_page ?l 20 _] => set (listing := l) end.
    destruct (get_page_is_page listing page_number) as (n & Hn & -> & _).
    split; [|split].
    + intros e He. apply page_rows in He. apply listing_In in He. exact He.
    + unfold Paginator.page, Paginator.slice. cbn [object_list].
      apply ordered_firstn, ordered_skipn.
      apply listing_ordered; [apply newest_first_trans|apply newest_first_total].
    + apply page_length. assumption.
  - eexists. split; [apply investment_list_runs; assumption|].
    match goal with |- context [Paginator.get_page ?l 20 _] => set (listing := l) end.
    destruct (get_page_is_page listing page_number) as (n & Hn & -> & _).
    split; [|split].
    + intros e He. apply page_rows in He. apply listing_In in He. exact He.
    + unfold Paginator.page, Paginator.slice. cbn [object_list].
      apply ordered_firstn, ordered_skipn.
      apply listing_ordered; [apply newest_first_trans|apply newest_first_total].
    + apply page_length. assumption.
Qed.

Lemma listing_shows_own_transactions_witness :
  User.is_authenticated (HttpRequest.user demo_get) = true
  /\ exists page_obj,
       expense_list demo_icontains (Some demo_filter) None demo_get demo_world
       = (Return (expense_list_page page_obj 62000), demo_world)
       /\ map Expense.id (object_list page_obj) = [Some 1].
Proof.
  split; [reflexivity|].
  destruct (listing_shows_own_transactions demo_icontains (Some demo_filter) None demo_get
              demo_world eq_refl) as [(page_obj & Hrun & _) _].
  exists page_obj. split; [exact Hrun|].
  assert (E : fst (expense_list demo_icontains (Some demo_filter) None demo_get demo_world)
              = Return (expense_list_page page_obj 62000))
    by (rewrite Hrun; reflexivity).
  vm_compute in E. injection E as <-. reflexivity.
Defined.

Lemma get_page_pages {A : Type} (l : list A) :
  let page p := object_list (Paginator.get_page l 20 p) in
  let last := Paginator.num_pages l 20 in
  1 <= last
  /\ page None = page (Some 1)
  /\ (forall n, n < 1 \/ last < n -> page (Some n) = page (Some last))
  /\ (forall n, 1 <= n < last -> length (page (Some n)) = 20%nat)
  /\ concat (map (fun n => page (Some (Z.of_nat n))) (seq 1 (Z.to_nat last))) = l.
Proof.
  intros page last.
  pose proof (num_pages_bounds l) as [H1 _]. fold last in H1.
  assert (Hin : forall n, 1 <= n <= last -> page (Some n) = object_list (Paginator.page l 20 n)).
  { intros n Hn. unfold page, Paginator.get_page. fold last.
    destruct (Z.ltb_spec n 1); [lia|]. destruct (Z.ltb_spec last n); [lia|]. reflexivity. }
  split; [assumption|]. split.
  { rewrite Hin by lia. reflexivity. }
  split.
  { intros n Hn. rewrite (Hin last) by lia.
    unfold page, Paginator.get_page. fold last.
    destruct (Z.ltb_spec n 1); [reflexivity|].
    destruct (Z.ltb_spec last n); [reflexivity|lia]. }
  split.
  { intros n Hn. rewrite Hin by lia.
    replace n with (Z.of_nat (S (Z.to_nat (n - 1)))) by lia.
    apply page_inner. fold last. lia. }
  etransitivity; [|apply (pages_concat l)]. fold last.
  apply f_equal, map_ext_in. intros n Hn. apply in_seq in Hn.
  apply Hin. lia.
Qed.

(** X6: the pages of a listing: a page parameter that is missing or no number
    shows the first page, one out of range the last page; every page before
    the last holds 20 rows; and the pages in order hold each row of the
    requesting user that passes the filter exactly once, newest first. *)
Theorem listing_pages_cover_rows (icontains : string -> string -> bool)
    (cleaned : option FilterFields) (request : HttpRequest.t) (w : World) :
  let user := HttpRequest.user request in
  let own_expense e :=
    (Expense.user e =? User.id user) && expense_passes icontains cleaned e in
  let own_investment i :=
    (Investment.user i =? User.id user) && investment_passes icontains cleaned i in
  User.is_authenticated user = true ->
  (let shown p := expenses_shown (expense_list icontains cleaned p request w) in
   let last := pages_of (expense_list icontains cleaned None request w) in
   let all := concat (map (fun n => shown (Some (Z.of_nat n))) (seq 1 (Z.to_nat last))) in
   1 <= last
   /\ shown None = shown (Some 1)
   /\ (forall n, n < 1 \/ last < n -> shown (Some n) = shown (Some last))
   /\ (forall n, 1 <= n < last -> length (shown (Some n)) = 20%nat)
   /\ (forall e, In e all <-> In e (expenses w) /\ own_expense e = true)
   /\ length all = length (List.filter own_expense (expenses w))
   /\ ordered (fun a b => datetime_leb (Expense.date b) (Expense.date a)) all = true)
  /\ (let shown p := investments_shown (investment_list icontains cleaned p request w) in
      let last := pages_of (investment_list icontains cleaned None request w) in
      let all := concat (map (fun n => shown (Some (Z.of_nat n))) (seq 1 (Z.to_nat last))) in
      1 <= last
      /\ shown None = shown (Some 1)
      /\ (forall n, n < 1 \/ last < n -> shown (Some n) = shown (Some last))
      /\ (forall n, 1 <= n < last -> length (shown (Some n)) = 20%nat)
      /\ (forall i, In i all <-> In i (investments w) /\ own_investment i = true)
      /\ length all = length (List.filter own_investment (investments w))
      /\ ordered (fun a b => datetime_leb (Investment.date b) (Investment.date a)) all
         = true).
Proof.
  intros user own_expense own_investment Hauth. split.
  - intros shown last all.
    set (listing :=
           List.filter (expense_passes icontains cleaned)
             (order_by (fun a b => datetime_leb (Expense.date b) (Expense.date a))
                (List.filter (fun e => Expense.user e =? User.id user) (expenses w)))).
    assert (Hshown : forall p, shown p = object_list (Paginator.get_page listing 20 p)).
    { intros p. unfold shown, expenses_shown.
      rewrite (expense_list_runs icontains cleaned p request w Hauth). reflexivity. }
    assert (Hlast : last = Paginator.num_pages listing 20).
    { unfold last, pages_of.
      rewrite (expense_list_runs icontains cleaned None request w Hauth). reflexivity. }
    destruct (get_page_pages listing) as (H1 & H2 & H3 & H4 & H5).
    assert (Hall : all = listing).
    { unfold all. rewrite Hlast. etransitivity; [|exact H5].
      apply f_equal, map_ext. intros n. apply Hshown. }
    rewrite Hall, Hlast, !Hshown.
    split; [assumption|]. split; [assumption|].
    split; [intros n Hn; rewrite !Hshown; apply H3; assumption|].
    split; [intros n Hn; rewrite Hshown; apply H4; assumption|].
    split; [intros e; apply listing_In|].
    split; [apply listing_length|].
    apply listing_ordered; [apply newest_first_trans|apply newest_first_total].
  - intros shown last all.
    set (listing :=
           List.filter (investment_passes icontains cleaned)
             (order_by (fun a b => datetime_leb (Investment.date b) (Investment.date a))
                (List.filter (fun i => Investment.user i =? User.id user) (investments w)))).
    assert (Hshown : forall p, shown p = object_list (Paginator.get_page listing 20 p)).
    { intros p. unfold shown, investments_shown.
      rewrite (investment_list_runs icontains cleaned p request w Hauth). reflexivity. }
    assert (Hlast : last = Paginator.num_pages listing 20).
    { unfold last, pages_of.
      rewrite (investment_list_runs icontains cleaned None request w Hauth). reflexivity. }
    destruct (get_page_pages listing) as (H1 & H2 & H3 & H4 & H5).
    assert (Hall : all = listing).
    { unfold all. rewrite Hlast. etransitivity; [|exact H5].
      apply f_equal, map_ext. intros n. apply Hshown. }
    rewrite Hall, Hlast, !Hshown.
    split; [assumption|]. split; [assumption|].
    split; [intros n Hn; rewrite !Hshown; apply H3; assumption|].
    split; [intros n Hn; rewrite Hshown; apply H4; assumption|].
    split; [intros e; apply listing_In|].
    split; [apply listing_length|].
    apply listing_ordered; [apply newest_first_trans|apply newest_first_total].
Qed.

Lemma listing_pages_cover_rows_witness :
  User.is_authenticated (HttpRequest.user demo_get) = true
  /\ pages_of (expense_list demo_icontains None None demo_get demo_world) = 1
  /\ map Expense.id
       (expenses_shown (expense_list demo_icontains None (Some 7) demo_get demo_world))
     = [Some 2; Some 1; Some 3].
Proof.
  split; [reflexivity|]. split; [reflexivity|].
  destruct (listing_pages_cover_rows demo_icontains None demo_get demo_world eq_refl)
    as [(_ & _ & Hout & _) _].
  rewrite (Hout 7) by (right; vm_compute; reflexivity).
  reflexivity.
Defined.

(** ** Profiles made on the way *)

Lemma profile_get_or_create_cases (u : Z) (tbl : list UserProfile.t) :
  table_ok tbl = true ->
  (exists q, In q tbl /\ UserProfile.user q = u
             /\ get_or_create (fun p => UserProfile.user p =? u) (UserProfile.mk None u 0) tbl
                = Return (q, false, tbl))
  \/ ((forall q, In q tbl -> UserProfile.user q <> u)
      /\ get_or_create (fun p => UserProfile.user p =? u) (UserProfile.mk None u 0) tbl
         = Return (UserProfile.mk (Some (next_pk tbl)) u 0, true,
                   (tbl ++ [UserProfile.mk (Some (next_pk tbl)) u 0])%list)
      /\ table_ok (tbl ++ [UserProfile.mk (Some (next_pk tbl)) u 0]) = true).
Proof.
  intros Hok'. pose proof (table_ok_unique _ Hok') as Hok.
  unfold get_or_create.
  destruct (unique_filter _ (fun p => UserProfile.user p =? u) tbl Hok) as [E|[x E]].
  { intros a b Ha Hb. apply Z.eqb_eq in Ha, Hb. cbn. rewrite Ha, Hb. apply Z.eqb_refl. }
  - right. rewrite E.
    assert (Hno : forall q, In q tbl -> UserProfile.user q <> u).
    { intros q Hq. pose proof (filter_nil_none _ _ q E Hq) as N. cbn in N.
      apply Z.eqb_neq in N. assumption. }
    assert (V : violates (UserProfile.mk None u 0) tbl = false).
    { unfold violates. apply not_true_is_false. intros X.
      apply existsb_exists in X. destruct X as (r & Hr & S).
      apply andb_prop in S. destruct S as [S _]. cbn in S.
      apply Z.eqb_eq in S. symmetry in S. exact (Hno r Hr S). }
    assert (S : Model_save (UserProfile.mk None u 0) tbl
                = Return (UserProfile.mk (Some (next_pk tbl)) u 0,
                          (tbl ++ [UserProfile.mk (Some (next_pk tbl)) u 0])%list)).
    { unfold Model_save. rewrite V. reflexivity. }
    rewrite S. split; [assumption|]. split; [reflexivity|].
    eapply Model_save_ok; [exact Hok'|exact S].
  - left. rewrite E. exists x.
    assert (Hx : In x (List.filter (fun p => UserProfile.user p =? u) tbl))
      by (rewrite E; left; reflexivity).
    apply filter_In in Hx. destruct Hx as [Hx Hxu]. apply Z.eqb_eq in Hxu.
    split; [assumption|]. split; [assumption|reflexivity].
Qed.

(** ** Analytics *)

Lemma monthly_points_steps (now : datetime.t) (user : User.t) (exps : list Expense.t)
    (invs : list Investment.t) (steps : list Z) :
  (forall i, In i steps -> exists d, datetime.sub_days now (30 * i) = Some d) ->
  exists points,
    monthly_points now user exps invs steps = Return points
    /\ Forall2 (datum_at now user exps invs) steps points.
Proof.
  induction steps as [|i steps IH]; intros Hs.
  - exists []. split; [reflexivity|constructor].
  - destruct (Hs i (or_introl eq_refl)) as [d Hd].
    destruct IH as (points & Hp & Hf); [intros j Hj; apply Hs; right; assumption|].
    eexists. cbn [monthly_points]. rewrite Hd, Hp. split; [reflexivity|].
    constructor; [|assumption].
    exists d. split; [assumption|]. rewrite !or_zero_Sum. reflexivity.
Qed.

Lemma monthly_data_entries (now : datetime.t) (user : User.t) (exps : list Expense.t)
    (invs : list Investment.t) :
  datetime.valid now = true ->
  330 < datetime.toordinal now ->
  exists points,
    monthly_data now user exps invs = Return points
    /\ length points = 12%nat
    /\ forall k, (k < 12)%nat ->
         exists p, nth_error points k = Some p
                   /\ datum_at now user exps invs (Z.of_nat (11 - k)) p.
Proof.
  intros V Hn.
  destruct (monthly_points_steps now user exps invs (range 12)) as (points & Hp & F).
  { intros i Hi. unfold range in Hi. apply in_map_iff in Hi.
    destruct Hi as (j & <- & Hj). apply in_seq in Hj.
    apply sub_days_some; [assumption|lia]. }
  exists (rev points). unfold monthly_data. rewrite Hp.
  pose proof (Forall2_length F) as L. rewrite length_range in L.
  split; [reflexivity|]. split; [rewrite length_rev; lia|].
  intros k Hk. rewrite nth_error_rev.
  destruct (Nat.ltb_spec k (length points)); [|lia].
  destruct (Forall2_nth_error _ _ _ (length points - S k) (Z.of_nat (11 - k)) F)
    as (p & Hp' & Hpt).
  { rewrite nth_error_range by lia. do 2 f_equal. lia. }
  eauto.
Qed.

(** What [analytics] answers once its twelve steps exist. *)
Lemma analytics_runs (now : datetime.t) (request : HttpRequest.t) (w : World) :
  let user := HttpRequest.user request in
  let cur := datetime.strftime now "%Y-%m" in
  User.is_authenticated user = true ->
  datetime.valid now = true ->
  330 < datetime.toordinal now ->
  table_ok (profiles w) = true ->
  exists data profile profiles',
    monthly_data now user (expenses w) (investments w) = Return data
    /\ get_or_create (fun p => UserProfile.user p =? User.id user)
         (UserProfile.mk None (User.id user) 0) (profiles w)
       = Return (profile, negb (existsb (fun p => UserProfile.user p =? User.id user)
                                        (profiles w)), profiles')
    /\ analytics now request w
       = (Return
            (analytics_page
               (mkAnalyticsContext data
                  (expense_breakdown user cur (expenses w))
                  (investment_breakdown user cur (investments w))
                  (let total_income :=
                     float_of_decimal (UserProfile.monthly_salary profile) in
                   let total_expenses :=
                     float_of_decimal
                       (total_where (expense_in (User.id user) cur) Expense.amount
                          (expenses w)) in
                   if (0 <? total_income)%float
                   then Float (((total_income - total_expenses) / total_income) * 100)%float
                   else Int 0)
                  (float_of_decimal (UserProfile.monthly_salary profile))
                  (float_of_decimal
                     (total_where (expense_in (User.id user) cur) Expense.amount
                        (expenses w))))),
          set_profiles w profiles').
Proof.
  intros user cur Hauth V Hord Hok.
  destruct (monthly_data_entries now user (expenses w) (investments w) V Hord)
    as (data & Hdata & _).
  exists data.
  assert (Hrun : forall profile created profiles',
             get_or_create (fun p => UserProfile.user p =? User.id user)
               (UserProfile.mk None (User.id user) 0) (profiles w)
             = Return (profile, created, profiles') ->
             analytics now request w
             = (Return
                  (analytics_page
                     (mkAnalyticsContext data
                        (expense_breakdown user cur (expenses w))
                        (investment_breakdown user cur (investments w))
                        (let total_income :=
                           float_of_decimal (UserProfile.monthly_salary profile) in
                         let total_expenses :=
                           float_of_decimal
                             (total_where (expense_in (User.id user) cur) Expense.amount
                                (expenses w)) in
                         if (0 <? total_income)%float
                         then Float (((total_income - total_expenses) / total_income) * 100)%float
                         else Int 0)
                        (float_of_decimal (UserProfile.monthly_salary profile))
                        (float_of_decimal
                           (total_where (expense_in (User.id user) cur) Expense.amount
                              (expenses w))))),
                set_profiles w profiles')).
  { intros profile created profiles' Hg.
    unfold analytics, login_required_page. fold user. rewrite Hauth.
    unfold analytics_view, bind, get_world, lift, on_table, ret. fold user cur.
    rewrite Hdata, Hg. cbv zeta.
    rewrite or_zero_Sum. reflexivity. }
  destruct (profile_get_or_create_cases (User.id user) (profiles w) Hok)
    as [(q & Hq & Hu & Hg)|(Hno & Hg & _)].
  - exists q, (profiles w). split; [exact Hdata|].
    assert (E : existsb (fun p => UserProfile.user p =? User.id user) (profiles w) = true).
    { apply existsb_exists. exists q. split; [assumption|]. apply Z.eqb_eq. assumption. }
    rewrite E. split; [exact Hg|]. apply (Hrun _ _ _ Hg).
  - eexists _, _. split; [exact Hdata|].
    assert (E : existsb (fun p => UserProfile.user p =? User.id user) (profiles w) = false).
    { apply not_true_is_false. intros X. apply existsb_exists in X.
      destruct X as (r & Hr & S). apply Z.eqb_eq in S. exact (Hno r Hr S). }
    rewrite E. split; [exact Hg|]. apply (Hrun _ _ _ Hg).
Qed.

(** X7: the analytics page holds twelve monthly entries, oldest first: the
    entry [k] is for the bucket of the date [30 * (11 - k)] days before the
    request, with the user's expense and investment totals of that bucket;
    the view changes nothing but the profile table. *)
Theorem analytics_monthly_entries (now : datetime.t) (request : HttpRequest.t)
    (w : World) :
  let user := HttpRequest.user request in
  User.is_authenticated user = true ->
  datetime.valid now = true ->
  330 < datetime.toordinal now ->
  table_ok (profiles w) = true ->
  exists context w',
    analytics now request w = (Return (analytics_page context), w')
    /\ only_profiles w w'
    /\ length (an_monthly_data context) = 12%nat
    /\ forall k, (k < 12)%nat ->
         exists p, nth_error (an_monthly_data context) k = Some p
                   /\ datum_at now user (expenses w) (investments w) (Z.of_nat (11 - k)) p.
Proof.
  intros user Hauth V Hord Hok.
  destruct (analytics_runs now request w Hauth V Hord Hok)
    as (data & profile & profiles' & Hdata & _ & Hrun).
  destruct (monthly_data_entries now user (expenses w) (investments w) V Hord)
    as (points & Hpoints & Hlen & Hnth).
  fold user in Hdata. rewrite Hdata in Hpoints. injection Hpoints as <-.
  eexists _, _. split; [exact Hrun|]. cbn [an_monthly_data].
  split; [repeat split|]. split; assumption.
Qed.

Lemma analytics_monthly_entries_witness :
  User.is_authenticated (HttpRequest.user demo_get) = true
  /\ datetime.valid demo_now = true
  /\ 330 < datetime.toordinal demo_now
  /\ table_ok (profiles demo_world) = true
  /\ exists context,
       analytics demo_now demo_get demo_world = (Return (analytics_page context), demo_world)
       /\ length (an_monthly_data context) = 12%nat
       /\ nth_error (an_monthly_data context) 11 = Some (mkMonthlyDatum "2024-06" 1800 300).
Proof.
  split; [reflexivity|]. split; [reflexivity|]. split; [reflexivity|].
  split; [reflexivity|].
  destruct (analytics_monthly_entries demo_now demo_get demo_world eq_refl eq_refl eq_refl
              eq_refl) as (context & w' & Hrun & _ & Hlen & _).
  exists context.
  assert (E : (Return (analytics_page context), w')
              = analytics demo_now demo_get demo_world) by (symmetry; exact Hrun).
  vm_compute in E. injection E as -> ->.
  split; [vm_compute; reflexivity|]. split; [reflexivity|]. vm_compute. reflexivity.
Defined.

(** X8: the savings rate of the analytics page is the share of the salary that
    the month's expenses leave, in percent, investments not counted; for a
    profile without salary, and for the profile the view makes for a user
    who has none, it is the integer 0 and nothing is divided. *)
Theorem analytics_savings_rate (now : datetime.t) (request : HttpRequest.t)
    (w : World) :
  let user := HttpRequest.user request in
  let spent :=
    float_of_decimal
      (total_where (expense_in (User.id user) (datetime.strftime now "%Y-%m"))
                   Expense.amount (expenses w)) in
  User.is_authenticated user = true ->
  datetime.valid now = true ->
  330 < datetime.toordinal now ->
  table_ok (profiles w) = true ->
  exists context w',
    analytics now request w = (Return (analytics_page context), w')
    /\ an_total_expenses context = spent
    /\ (forall q, In q (profiles w) -> UserProfile.user q = User.id user ->
          let income := float_of_decimal (UserProfile.monthly_salary q) in
          w' = w
          /\ an_total_income context = income
          /\ an_savings_rate context
             = (if (0 <? income)%float
                then Float (((income - spent) / income) * 100)%float
                else Int 0)
          /\ (UserProfile.monthly_salary q = 0 -> an_savings_rate context = Int 0))
    /\ ((forall q, In q (profiles w) -> UserProfile.user q <> User.id user) ->
        profiles w'
        = (profiles w ++ [UserProfile.mk (Some (next_pk (profiles w))) (User.id user) 0])%list
        /\ an_total_income context = 0%float
        /\ an_savings_rate context = Int 0).
Proof.
  intros user spent Hauth V Hord Hok.
  destruct (analytics_runs now request w Hauth V Hord Hok)
    as (data & profile & profiles' & _ & Hg & Hrun).
  fold user in Hg.
  eexists _, _. split; [exact Hrun|].
  cbn [an_total_expenses an_total_income an_savings_rate]. split; [reflexivity|].
  destruct (profile_get_or_create_cases (User.id user) (profiles w) Hok)
    as [(q & Hq & Hu & Hg')|(Hno & Hg' & _)];
    rewrite Hg' in Hg; injection Hg as <- _ <-.
  - split.
    + intros q' Hq' Hu'.
      assert (q' = q) as ->.
      { pose proof (table_ok_unique _ Hok) as Hun.
        apply (unique_together_In (same_unique (A := UserProfile.t)) (profiles w));
          try assumption.
        - intros a b. cbn. apply Z.eqb_sym.
        - cbn. rewrite Hu, Hu'. apply Z.eqb_refl. }
      split; [destruct w; reflexivity|]. split; [reflexivity|]. split; [reflexivity|].
      intros Hz. rewrite Hz. reflexivity.
    + intros Hno. exfalso. exact (Hno q Hq Hu).
  - split.
    + intros q Hq Hu. exfalso. exact (Hno q Hq Hu).
    + intros _. split; [reflexivity|]. split; reflexivity.
Qed.

Lemma analytics_savings_rate_witness :
  User.is_authenticated (HttpRequest.user demo_get) = true
  /\ datetime.valid demo_now = true
  /\ 330 < datetime.toordinal demo_now
  /\ table_ok (profiles demo_world) = true
  /\ exists context,
       analytics demo_now demo_get demo_world = (Return (analytics_page context), demo_world)
       /\ an_savings_rate context = Float (((5200 - 1800) / 5200) * 100)%float.
Proof.
  split; [reflexivity|]. split; [reflexivity|]. split; [reflexivity|].
  split; [reflexivity|].
  destruct (analytics_savings_rate demo_now demo_get demo_world eq_refl eq_refl eq_refl
              eq_refl) as (context & w' & Hrun & _ & Hown & _).
  destruct (Hown (UserProfile.mk (Some 1) 1 520000) (or_introl eq_refl) eq_refl)
    as (-> & _ & Hrate & _).
  exists context. split; [exact Hrun|].
  rewrite Hrate. vm_compute. reflexivity.
Defined.
(** ** Breakdowns *)

Lemma or_zero_Some (d : decimal2) : or_zero (Some d) = d.
Proof. unfold or_zero. destruct (Z.eqb_spec d 0); congruence. Qed.

Lemma total_add_to_group (p : string -> bool) (key : string) (a : decimal2)
    (groups : list (string * decimal2)) :
  total_where (fun g => p (fst g)) snd (add_to_group key a groups)
  = total_where (fun g => p (fst g)) snd groups + (if p key then a else 0).
Proof.
  induction groups as [|[k t] groups IH]; cbn [add_to_group total_where fst snd].
  - lia.
  - destruct (String.eqb_spec k key) as [->|N]; cbn [total_where fst snd].
    + destruct (p key); lia.
    + rewrite IH. lia.
Qed.

Lemma keys_add_to_group (key k : string) (a : decimal2)
    (groups : list (string * decimal2)) :
  In k (map fst (add_to_group key a groups)) <-> k = key \/ In k (map fst groups).
Proof.
  induction groups as [|[k' t] groups IH]; cbn [add_to_group map fst In].
  - intuition.
  - destruct (String.eqb_spec k' key) as [->|N]; cbn [map fst In].
    + intuition.
    + rewrite IH. intuition.
Qed.

Lemma NoDup_add_to_group (key : string) (a : decimal2)
    (groups : list (string * decimal2)) :
  NoDup (map fst groups) -> NoDup (map fst (add_to_group key a groups)).
Proof.
  induction groups as [|[k' t] groups IH]; cbn [add_to_group map fst]; intros H.
  - constructor; [intros []|constructor].
  - destruct (String.eqb_spec k' key) as [->|N]; cbn [map fst]; [exact H|].
    inversion H as [|? ? Hnot Hrest]; subst. constructor; [|apply IH; assumption].
    rewrite keys_add_to_group. intros [E|E]; [congruence|contradiction].
Qed.

Lemma group_totals_from (rows groups : list (string * decimal2)) :
  let result :=
    fold_left (fun groups row => add_to_group (fst row) (snd row) groups) rows groups in
  (NoDup (map fst groups) -> NoDup (map fst result))
  /\ (forall k, In k (map fst result) <-> In k (map fst rows) \/ In k (map fst groups))
  /\ (forall p, total_where (fun g => p (fst g)) snd result
                = total_where (fun g => p (fst g)) snd rows
                  + total_where (fun g => p (fst g)) snd groups).
Proof.
  revert groups; induction rows as [|[k a] rows IH]; intros groups; cbn [fold_left].
  - cbv zeta. split; [auto|]. split; [cbn; tauto|]. intros p. cbn. lia.
  - specialize (IH (add_to_group (fst (k, a)) (snd (k, a)) groups)).
    cbv zeta in *. destruct IH as (IH1 & IH2 & IH3). cbn [fst snd] in *.
    split; [intros H; apply IH1, NoDup_add_to_group; assumption|].
    split.
    + intros k'. rewrite IH2, keys_add_to_group. cbn [map fst In]. intuition.
    + intros p. rewrite IH3, total_add_to_group. cbn [total_where fst snd]. lia.
Qed.

Lemma NoDup_keys_insert_sorted {A B : Type} (f : A -> B) (before : A -> A -> bool)
    (x : A) (l : list A) :
  NoDup (map f (x :: l)) -> NoDup (map f (insert_sorted before x l)).
Proof.
  induction l as [|y l IH]; cbn [insert_sorted]; [auto|].
  destruct (before x y); [auto|].
  cbn [map]. intros H. inversion H as [|? ? Hx Hrest]; subst.
  inversion Hrest as [|? ? Hy Hl]; subst.
  constructor.
  - intros Hin. apply in_map_iff in Hin. destruct Hin as (z & E & Hz).
    apply In_insert_sorted in Hz. destruct Hz as [->|Hz].
    + apply Hx. left. symmetry. assumption.
    + apply Hy. apply in_map_iff. eauto.
  - apply IH. cbn [map]. constructor; [|assumption].
    intros Hin. apply Hx. right. assumption.
Qed.

Lemma NoDup_keys_order_by {A B : Type} (f : A -> B) (before : A -> A -> bool)
    (l : list A) :
  NoDup (map f l) -> NoDup (map f (order_by before l)).
Proof.
  unfold order_by. induction l as [|x l IH]; cbn [fold_right map]; [auto|].
  intros H. inversion H as [|? ? Hx Hl]; subst.
  apply NoDup_keys_insert_sorted. cbn [map]. constructor; [|apply IH; assumption].
  intros Hin. apply Hx. apply in_map_iff in Hin. destruct Hin as (z & E & Hz).
  apply In_order_by in Hz. apply in_map_iff. eauto.
Qed.

Lemma total_of_key (k : string) (t : decimal2) (groups : list (string * decimal2)) :
  NoDup (map fst groups) -> In (k, t) groups ->
  total_where (fun g => String.eqb (fst g) k) snd groups = t.
Proof.
  induction groups as [|[k' t'] groups IH]; cbn [map fst In total_where snd]; [tauto|].
  intros H Hin. inversion H as [|? ? Hk Hrest]; subst.
  destruct Hin as [E|Hin].
  - injection E as -> ->. rewrite String.eqb_refl.
    rewrite (total_where_none (fun g => String.eqb (fst g) k)); [lia|].
    apply filter_none. intros [k2 t2] H2. cbn [fst].
    apply String.eqb_neq. intros ->. apply Hk. apply in_map_iff. exists (k, t2). auto.
  - destruct (String.eqb_spec k' k) as [->|N].
    + exfalso. apply Hk. apply in_map_iff. exists (k, t). auto.
    + rewrite IH by assumption. lia.
Qed.

Lemma total_where_map {A B : Type} (f : A -> B) (p : B -> bool) (amount : B -> decimal2)
    (l : list A) :
  total_where p amount (map f l) = total_where (fun x => p (f x)) (fun x => amount (f x)) l.
Proof. induction l as [|x l IH]; cbn [map total_where]; [|rewrite IH]; reflexivity. Qed.

(** What [breakdown_totals] makes of the rows of a query. *)
Lemma breakdown_totals_spec (rows : list (string * decimal2)) :
  let slices := breakdown_totals rows in
  NoDup (map fst slices)
  /\ (forall k t, In (k, t) slices
                  <-> In k (map fst rows)
                      /\ t = total_where (fun g => String.eqb (fst g) k) snd rows)
  /\ total_where (fun _ => true) snd slices = total_where (fun _ => true) snd rows
  /\ ordered (fun a b => snd b <=? snd a) slices = true.
Proof.
  intros slices. unfold slices, breakdown_totals, group_totals.
  destruct (group_totals_from rows []) as (H1 & H2 & H3). cbv zeta in *.
  set (groups := fold_left _ rows []) in *.
  assert (Hnd : NoDup (map fst groups)) by (apply H1; constructor).
  assert (Hnd' : NoDup (map fst (order_by (fun a b => snd b <=? snd a) groups)))
    by (apply NoDup_keys_order_by; assumption).
  assert (Htot : forall k, total_where (fun g => String.eqb (fst g) k) snd groups
                           = total_where (fun g => String.eqb (fst g) k) snd rows).
  { intros k. rewrite (H3 (fun x => String.eqb x k)). cbn. lia. }
  split; [assumption|]. split; [|split].
  - intros k t. rewrite In_order_by. split.
    + intros Hin. split.
      * assert (Hk : In k (map fst groups)) by (apply in_map_iff; exists (k, t); auto).
        apply H2 in Hk. destruct Hk as [Hk|[]]. assumption.
      * rewrite <- Htot. symmetry. apply total_of_key; assumption.
    + intros [Hk ->].
      assert (Hk' : In k (map fst groups)) by (apply H2; left; assumption).
      apply in_map_iff in Hk'. destruct Hk' as ([k' t'] & E & Hin). cbn in E. subst k'.
      rewrite <- Htot, (total_of_key k t' groups) by assumption. assumption.
  - rewrite total_where_order_by. rewrite (H3 (fun _ => true)). cbn. lia.
  - apply ordered_order_by.
    + intros a b c Hab Hbc. apply Z.leb_le in Hab, Hbc. apply Z.leb_le. lia.
    + intros a b. destruct (Z.leb_spec (snd b) (snd a)); [auto|right].
      apply Z.leb_le. lia.
Qed.

(** X9: the breakdowns of a month: one slice per category or investment type
    in which the user has a row that month, each with the total of its rows,
    the largest first; together the slices add up to the month's total. *)
Theorem breakdown_adds_up (user : User.t) (month : string) (exps : list Expense.t)
    (invs : list Investment.t) :
  (exists slices,
     expense_breakdown user month exps
     = map (fun s => (fst s, float_of_decimal (snd s))) slices
     /\ NoDup (map fst slices)
     /\ (forall c t,
           In (c, t) slices
           <-> (exists e, In e exps /\ expense_in (User.id user) month e = true
                          /\ Expense.category e = c)
               /\ t = total_where
                        (fun e => expense_in (User.id user) month e
                                  && String.eqb (Expense.category e) c)
                        Expense.amount exps)
     /\ total_where (fun _ => true) snd slices
        = total_where (expense_in (User.id user) month) Expense.amount exps
     /\ ordered (fun a b => snd b <=? snd a) slices = true)
  /\ (exists slices,
     investment_breakdown user month invs
     = map (fun s => (fst s, float_of_decimal (snd s))) slices
     /\ NoDup (map fst slices)
     /\ (forall c t,
           In (c, t) slices
           <-> (exists i, In i invs /\ investment_in (User.id user) month i = true
                          /\ Investment.investment_type i = c)
               /\ t = total_where
                        (fun i => investment_in (User.id user) month i
                                  && String.eqb (Investment.investment_type i) c)
                        Investment.amount invs)
     /\ total_where (fun _ => true) snd slices
        = total_where (investment_in (User.id user) month) Investment.amount invs
     /\ ordered (fun a b => snd b <=? snd a) slices = true).
Proof.
  split.
  - set (rows := map (fun e => (Expense.category e, Expense.amount e))
                   (List.filter (expense_in (User.id user) month) exps)).
    destruct (breakdown_totals_spec rows) as (Hnd & Hin & Hsum & Hord).
    exists (breakdown_totals rows).
    split.
    { unfold expense_breakdown. fold (expense_in (User.id user) month). fold rows.
      apply map_ext. intros s. rewrite or_zero_Some. reflexivity. }
    split; [assumption|]. split; [|split; [|assumption]].
    + intros c t. rewrite Hin. unfold rows.
      rewrite map_map. cbn [fst]. rewrite total_where_map. cbn [fst snd].
      rewrite total_where_filter. rewrite in_map_iff.
      split; intros [He Ht]; (split; [|exact Ht]).
      * destruct He as (e & Hc & He). apply filter_In in He. exists e. tauto.
      * destruct He as (e & He & Hm & Hc). exists e. split; [assumption|].
        apply filter_In. tauto.
    + rewrite Hsum. unfold rows. rewrite total_where_map, total_where_filter.
      apply total_where_ext. intros r. apply andb_true_r.
  - set (rows := map (fun i => (Investment.investment_type i, Investment.amount i))
                   (List.filter (investment_in (User.id user) month) invs)).
    destruct (breakdown_totals_spec rows) as (Hnd & Hin & Hsum & Hord).
    exists (breakdown_totals rows).
    split.
    { unfold investment_breakdown. fold (investment_in (User.id user) month). fold rows.
      apply map_ext. intros s. rewrite or_zero_Some. reflexivity. }
    split; [assumption|]. split; [|split; [|assumption]].
    + intros c t. rewrite Hin. unfold rows.
      rewrite map_map. cbn [fst]. rewrite total_where_map. cbn [fst snd].
      rewrite total_where_filter. rewrite in_map_iff.
      split; intros [He Ht]; (split; [|exact Ht]).
      * destruct He as (e & Hc & He). apply filter_In in He. exists e. tauto.
      * destruct He as (e & He & Hm & Hc). exists e. split; [assumption|].
        apply filter_In. tauto.
    + rewrite Hsum. unfold rows. rewrite total_where_map, total_where_filter.
      apply total_where_ext. intros r. apply andb_true_r.
Qed.
(** ** The dashboard *)

Lemma dashboard_with_profile (now : datetime.t) (request : HttpRequest.t) (w : World)
    (profile : UserProfile.t) (created : bool) (profiles' : list UserProfile.t) :
  let user := HttpRequest.user request in
  let cur := datetime.strftime now "%Y-%m" in
  User.is_authenticated user = true ->
  datetime.valid now = true ->
  150 < datetime.toordinal now ->
  get_or_create (fun p => UserProfile.user p =? User.id user)
    (UserProfile.mk None (User.id user) 0) (profiles w)
  = Return (profile, created, profiles') ->
  exists trend,
    spending_trend 6 now user (expenses w) = Return trend
    /\ dashboard now request w
       = (Return
            (render "budget/dashboard.html"
               (Dashboard
                  (mkDashboardContext profile (monthly_totals profile user cur w)
                     (map (budget_line (expenses w))
                          (snd (budgets_shown user cur (budgets w))))
                     trend cur (fst (budgets_shown user cur (budgets w)))))),
          set_profiles w profiles').
Proof.
  intros user cur Hauth V Hord Hg.
  destruct (spending_trend_points 6 now user (expenses w) V) as (trend & Ht & _);
    [simpl; lia|].
  exists trend. split; [assumption|].
  unfold dashboard, login_required. fold user. rewrite Hauth.
  unfold dashboard_view, bind, on_table, get_world, lift, ret. fold user.
  rewrite Hg. cbn [expenses budgets set_profiles]. unfold cur.
  destruct (budgets_shown user (datetime.strftime now "%Y-%m") (budgets w)) as [used shown].
  cbn [fst snd]. rewrite Ht. reflexivity.
Qed.

Lemma set_profiles_same (w : World) : set_profiles w (profiles w) = w.
Proof. destruct w; reflexivity. Qed.

(** X10: the dashboard writes nothing but a profile: a user without one gets a
    profile with salary 0 on the first visit, and a visit of a user who has
    one - so every later visit - leaves the world as it is and shows the
    same page. *)
Theorem dashboard_makes_profile_once (now : datetime.t) (request : HttpRequest.t)
    (w : World) :
  let user := HttpRequest.user request in
  User.is_authenticated user = true ->
  datetime.valid now = true ->
  150 < datetime.toordinal now ->
  table_ok (profiles w) = true ->
  exists response w',
    dashboard now request w = (Return response, w')
    /\ only_profiles w w'
    /\ table_ok (profiles w') = true
    /\ ((exists q, In q (profiles w) /\ UserProfile.user q = User.id user) -> w' = w)
    /\ ((forall q, In q (profiles w) -> UserProfile.user q <> User.id user) ->
        profiles w'
        = (profiles w
           ++ [UserProfile.mk (Some (next_pk (profiles w))) (User.id user) 0])%list)
    /\ dashboard now request w' = (Return response, w').
Proof.
  intros user Hauth V Hord Hok.
  destruct (profile_get_or_create_cases (User.id user) (profiles w) Hok)
    as [(q & Hq & Hu & Hg)|(Hno & Hg & Hok')].
  - destruct (dashboard_with_profile now request w _ _ _ Hauth V Hord Hg)
      as (trend & _ & Hrun).
    rewrite set_profiles_same in Hrun.
    eexists _, w. split; [exact Hrun|]. split; [repeat split|].
    split; [assumption|]. split; [reflexivity|]. split; [|exact Hrun].
    intros Hnone. exfalso. exact (Hnone q Hq Hu).
  - destruct (dashboard_with_profile now request w _ _ _ Hauth V Hord Hg)
      as (trend & Ht & Hrun).
    set (p := UserProfile.mk (Some (next_pk (profiles w))) (User.id user) 0) in *.
    set (w' := set_profiles w (profiles w ++ [p])) in *.
    eexists _, w'. split; [exact Hrun|]. split; [repeat split|].
    split; [exact Hok'|]. split.
    { intros (q & Hq & Hu). exfalso. exact (Hno q Hq Hu). }
    split; [reflexivity|].
    destruct (profile_get_or_create_cases (User.id user) (profiles w') Hok')
      as [(q & Hq & Hu & Hg')|(Hno' & _)].
    + assert (q = p) as ->.
      { cbn in Hq. apply in_app_or in Hq. destruct Hq as [Hq|[<-|[]]]; [|reflexivity].
        exfalso. exact (Hno q Hq Hu). }
      destruct (dashboard_with_profile now request w' _ _ _ Hauth V Hord Hg')
        as (trend' & Ht' & Hrun').
      rewrite set_profiles_same in Hrun'. rewrite Hrun'.
      cbn [expenses w' set_profiles] in Ht'. fold user in Ht, Ht'.
      rewrite Ht in Ht'. injection Ht' as <-. reflexivity.
    + exfalso. apply (Hno' p); [|reflexivity].
      cbn. apply in_or_app. right. left. reflexivity.
Qed.

Lemma dashboard_makes_profile_once_witness :
  User.is_authenticated (HttpRequest.user (HttpRequest.mk "GET" demo_other_user ∅)) = true
  /\ datetime.valid demo_now = true
  /\ 150 < datetime.toordinal demo_now
  /\ table_ok (profiles demo_world) = true
  /\ profiles (snd (dashboard demo_now (HttpRequest.mk "GET" demo_other_user ∅) demo_world))
     = [UserProfile.mk (Some 1) 1 520000; UserProfile.mk (Some 2) 2 0].
Proof.
  split; [reflexivity|]. split; [reflexivity|]. split; [reflexivity|].
  split; [reflexivity|].
  destruct (dashboard_makes_profile_once demo_now (HttpRequest.mk "GET" demo_other_user ∅)
              demo_world eq_refl eq_refl eq_refl eq_refl)
    as (response & w' & Hrun & _ & _ & _ & Hnew & _).
  rewrite Hrun. cbn [snd]. rewrite Hnew; [reflexivity|].
  intros q [<-|[]]. cbn. lia.
Defined.

(** X11: when the user has Budget rows in the current bucket the dashboard shows
    those, one line per row in the order of the categories, and reports the
    current bucket as the one used: it falls back to no other month. *)
Theorem dashboard_shows_current_budgets (now : datetime.t) (request : HttpRequest.t)
    (w : World) :
  let user := HttpRequest.user request in
  let cur := datetime.strftime now "%Y-%m" in
  User.is_authenticated user = true ->
  datetime.valid now = true ->
  150 < datetime.toordinal now ->
  table_ok (profiles w) = true ->
  has_budgets (User.id user) cur (budgets w) = true ->
  exists ctx w',
    dashboard now request w
    = (Return (render "budget/dashboard.html" (Dashboard ctx)), w')
    /\ ctx_budget_month_used ctx = cur
    /\ ctx_budget_vs_actual ctx
       = map (budget_line (expenses w)) (budgets_of_month user cur (budgets w))
    /\ (forall line,
          In line (ctx_budget_vs_actual ctx)
          <-> exists b, In b (budgets w) /\ Budget.user b = User.id user
                        /\ Budget.month_year b = cur
                        /\ line = budget_line (expenses w) b)
    /\ ordered String.leb (map line_category (ctx_budget_vs_actual ctx)) = true.
Proof.
  intros user cur Hauth V Hord Hok Hhas.
  destruct (dashboard_renders now request w Hauth V Hord Hok)
    as (p & tbl' & trend & Hd & _).
  fold user cur in Hd. rewrite (budgets_shown_present user cur (budgets w) Hhas) in Hd.
  cbn [fst snd] in Hd.
  eexists _, _. split; [exact Hd|].
  cbn [ctx_budget_month_used ctx_budget_vs_actual].
  split; [reflexivity|]. split; [reflexivity|]. split.
  - intros line. rewrite in_map_iff. unfold budgets_of_month. split.
    + intros (b & <- & Hb). apply In_order_by, filter_In in Hb.
      destruct Hb as [Hb Hp]. apply andb_prop in Hp. destruct Hp as [Hu Hm].
      apply Z.eqb_eq in Hu. apply String.eqb_eq in Hm. exists b. auto.
    + intros (b & Hb & Hu & Hm & ->). exists b. split; [reflexivity|].
      apply In_order_by, filter_In. split; [assumption|].
      rewrite Hu, Hm, Z.eqb_refl, String.eqb_refl. reflexivity.
  - unfold budgets_of_month.
    generalize (List.filter
                  (fun b => (Budget.user b =? User.id user)
                            && String.eqb (Budget.month_year b) cur) (budgets w)).
    intros l.
    assert (Ho : ordered Budget.ordering (order_by Budget.ordering l) = true).
    { apply ordered_order_by.
      - intros a b c. unfold Budget.ordering. apply leb_trans.
      - intros a b. unfold Budget.ordering. apply String.leb_total. }
    revert Ho. generalize (order_by Budget.ordering l). clear. intros l.
    rewrite map_map. cbn [budget_line line_category].
    induction l as [|b l IH]; cbn [ordered map]; [reflexivity|].
    intros H. apply andb_prop in H. destruct H as [H1 H2].
    rewrite (IH H2), andb_true_r. clear IH H2.
    induction l as [|c l IH]; cbn [forallb map] in *; [reflexivity|].
    apply andb_prop in H1. destruct H1 as [H1 H2].
    unfold Budget.ordering in H1. rewrite H1. apply IH. assumption.
Qed.

Lemma dashboard_shows_current_budgets_witness :
  User.is_authenticated (HttpRequest.user demo_get) = true
  /\ datetime.valid demo_now = true
  /\ 150 < datetime.toordinal demo_now
  /\ table_ok (profiles demo_world) = true
  /\ has_budgets 1 "2024-06" (budgets demo_world) = true
  /\ exists ctx w',
       dashboard demo_now demo_get demo_world
       = (Return (render "budget/dashboard.html" (Dashboard ctx)), w')
       /\ ctx_budget_month_used ctx = "2024-06"
       /\ ctx_budget_vs_actual ctx = [mkBudgetLine "Food" 500 620 (-120)].
Proof.
  split; [reflexivity|]. split; [reflexivity|]. split; [reflexivity|].
  split; [reflexivity|]. split; [reflexivity|].
  destruct (dashboard_shows_current_budgets demo_now demo_get demo_world eq_refl eq_refl
              eq_refl eq_refl eq_refl) as (ctx & w' & Hrun & Hused & Hlines & _).
  exists ctx, w'. split; [exact Hrun|]. split; [exact Hused|].
  rewrite Hlines. vm_compute. reflexivity.
Defined.
(** ** The budget page *)

Lemma float_of_decimal_0 : float_of_decimal 0 = 0%float.
Proof. reflexivity. Qed.

(** X12: without a POST the budget page changes nothing and lists the eight
    categories of [CATEGORY_CHOICES] in their order, each exactly once; a
    category without a Budget row of the user in the current bucket has no
    amount to prefill, an allocation of 0 and 0 percent used, and a Budget
    row of a category outside the choices is not shown. *)
Theorem budget_page_lists_categories (Decimal : string -> option Q)
    (now : datetime.t) (request : HttpRequest.t) (w : World) :
  let user := HttpRequest.user request in
  let cur := datetime.strftime now "%Y-%m" in
  let categories := map fst Expense.CATEGORY_CHOICES in
  User.is_authenticated user = true ->
  HttpRequest.method request <> "POST" ->
  exists ctx,
    budget_management Decimal now request w
    = (Return (render "budget/budget_management.html" (BudgetManagement ctx)), w)
    /\ bctx_current_month ctx = cur
    /\ map row_category (bctx_budget_vs_actual ctx) = categories
    /\ map fst (bctx_categories_with_values ctx) = categories
    /\ forall c,
         In c categories ->
         (forall b, In b (budgets w) -> budget_key_is (User.id user) c cur b = false) ->
         let actual :=
           total_where
             (fun e => expense_in (User.id user) cur e && String.eqb (Expense.category e) c)
             Expense.amount (expenses w) in
         bctx_budget_dict ctx !! c = None
         /\ In (c, None) (bctx_categories_with_values ctx)
         /\ In (mkBudgetRow c 0 (float_of_decimal actual) (float_of_decimal (0 - actual))
                  (PrimFloat.abs (float_of_decimal (0 - actual))) 0)
               (bctx_budget_vs_actual ctx).
Proof.
  intros user cur categories Hauth Hget.
  unfold budget_management, login_required. fold user. rewrite Hauth.
  unfold budget_management_view.
  destruct (String.eqb_spec (HttpRequest.method request) "POST"); [contradiction|].
  unfold bind, get_world, ret. fold user cur categories.
  eexists. split; [reflexivity|].
  cbn [bctx_current_month bctx_budget_vs_actual bctx_categories_with_values
       bctx_budget_dict].
  split; [reflexivity|].
  split; [rewrite map_map; unfold budget_row; cbn [row_category]; apply map_id|].
  split; [rewrite map_map; cbn [fst]; apply map_id|].
  intros c Hc Hno.
  set (dict := fold_left _ _ _).
  assert (Hd : dict !! c = None).
  { unfold dict. rewrite budget_dict_other; [apply lookup_empty|].
    intros b Hb Hcat. unfold budgets_of_month in Hb.
    apply In_order_by, filter_In in Hb. destruct Hb as [Hb Hp].
    specialize (Hno b Hb). unfold budget_key_is in Hno.
    apply andb_prop in Hp. destruct Hp as [Hu Hm].
    rewrite Hu, Hm, Hcat, String.eqb_refl in Hno. discriminate. }
  split; [exact Hd|]. split.
  - apply in_map_iff. exists c. rewrite Hd. split; [reflexivity|assumption].
  - apply in_map_iff. exists c. split; [|assumption].
    unfold budget_row. rewrite Hd. unfold default. cbn [from_option id].
    rewrite or_zero_Sum.
    rewrite (total_where_ext _
               (fun e => expense_in (User.id user) cur e
                         && String.eqb (Expense.category e) c)).
    2:{ intros e. unfold expense_in.
        destruct (Expense.user e =? User.id user), (String.eqb (Expense.category e) c),
          (String.eqb (Expense.month_year e) cur); reflexivity. }
    reflexivity.
Qed.

Lemma budget_page_lists_categories_witness :
  User.is_authenticated (HttpRequest.user demo_get) = true
  /\ HttpRequest.method demo_get <> "POST"
  /\ exists ctx,
       budget_management demo_Decimal demo_now demo_get demo_world
       = (Return (render "budget/budget_management.html" (BudgetManagement ctx)), demo_world)
       /\ In ("Bills", None) (bctx_categories_with_values ctx)
       /\ In (mkBudgetRow "Bills" 0 1180 (-1180) 1180 0) (bctx_budget_vs_actual ctx).
Proof.
  split; [reflexivity|]. split; [discriminate|].
  destruct (budget_page_lists_categories demo_Decimal demo_now demo_get demo_world
              eq_refl ltac:(discriminate)) as (ctx & Hrun & _ & _ & _ & Hnone).
  exists ctx. split; [exact Hrun|].
  destruct (Hnone "Bills") as (_ & Hv & Hrow).
  - cbn. tauto.
  - intros b [<-|[]]. reflexivity.
  - split; [exact Hv|]. exact Hrow.
Defined.





(** ** Reset and totals *)

Lemma float_sub_0 (x : float) : (x - 0)%float = x.
Proof.
  apply Prim2SF_inj. rewrite sub_spec.
  change (Prim2SF 0) with (S754_zero false).
  destruct (Prim2SF x) as [[]|[]| |s m e]; reflexivity.
Qed.

Lemma total_where_gone {A : Type} (p q : A -> bool) (amount : A -> decimal2)
    (l : list A) :
  (forall r, p r = true -> q r = true) ->
  total_where p amount (List.filter (fun r => negb (q r)) l) = 0.
Proof.
  intros Hpq. rewrite total_where_filter.
  induction l as [|r l IH]; cbn [total_where]; [reflexivity|].
  rewrite IH. destruct (q r) eqn:Hq; cbn [negb andb]; [reflexivity|].
  destruct (p r) eqn:Hp; [|reflexivity]. rewrite (Hpq r Hp) in Hq. discriminate.
Qed.

Lemma total_where_kept {A : Type} (p q : A -> bool) (amount : A -> decimal2)
    (l : list A) :
  (forall r, p r = true -> q r = false) ->
  total_where p amount (List.filter (fun r => negb (q r)) l) = total_where p amount l.
Proof.
  intros Hpq. rewrite total_where_filter.
  apply total_where_ext. intros r.
  destruct (p r) eqn:Hp; [rewrite (Hpq r Hp)|rewrite andb_false_r]; reflexivity.
Qed.

Lemma set_tables_same (w : World) :
  set_investments (set_expenses w (expenses w)) (investments w) = w.
Proof. destruct w; reflexivity. Qed.

Lemma reset_month_post (now : datetime.t) (request : HttpRequest.t) (w : World) :
  let user := HttpRequest.user request in
  let cur := datetime.strftime now "%Y-%m" in
  User.is_authenticated user = true ->
  HttpRequest.method request = "POST" ->
  reset_month now request w
  = (Return (redirect "dashboard"),
     set_messages
       (set_investments
          (set_expenses w
             (List.filter (fun e => negb (expense_in (User.id user) cur e)) (expenses w)))
          (List.filter (fun i => negb (investment_in (User.id user) cur i)) (investments w)))
       (messages w
        ++ [(SUCCESS,
             "Reset complete: deleted "
             +:+ str_int (Z.of_nat (length (List.filter (expense_in (User.id user) cur)
                                                        (expenses w))))
             +:+ " expenses and "
             +:+ str_int (Z.of_nat (length (List.filter (investment_in (User.id user) cur)
                                                        (investments w))))
             +:+ " investments for " +:+ cur +:+ ".")])).
Proof.
  intros user cur Hauth Hpost.
  unfold reset_month, login_required. fold user. rewrite Hauth.
  unfold reset_month_view. rewrite Hpost. reflexivity.
Qed.

(** X14: after a reset the totals of the current month show no expenses and no
    investments and savings equal to the income; the totals of the other
    months and of the other users are what they were; and a second reset
    finds nothing to delete and says so. *)
Theorem reset_month_clears_totals (now : datetime.t) (request : HttpRequest.t)
    (w : World) :
  let user := HttpRequest.user request in
  let cur := datetime.strftime now "%Y-%m" in
  let w' := snd (reset_month now request w) in
  User.is_authenticated user = true ->
  HttpRequest.method request = "POST" ->
  (forall profile,
      monthly_totals profile user cur w'
      = mkTotals (float_of_decimal (UserProfile.monthly_salary profile)) 0 0
                 (float_of_decimal (UserProfile.monthly_salary profile)))
  /\ (forall profile other month,
        User.id other <> User.id user \/ month <> cur ->
        monthly_totals profile other month w' = monthly_totals profile other month w)
  /\ reset_month now request w'
     = (Return (redirect "dashboard"),
        set_messages w'
          (messages w'
           ++ [(SUCCESS,
                "Reset complete: deleted 0 expenses and 0 investments for " +:+ cur +:+ ".")])).
Proof.
  intros user cur w' Hauth Hpost.
  pose proof (reset_month_post now request w Hauth Hpost) as Hrun.
  fold user cur in Hrun.
  assert (He : expenses w'
               = List.filter (fun e => negb (expense_in (User.id user) cur e)) (expenses w))
    by (unfold w'; rewrite Hrun; reflexivity).
  assert (Hi : investments w'
               = List.filter (fun i => negb (investment_in (User.id user) cur i))
                             (investments w))
    by (unfold w'; rewrite Hrun; reflexivity).
  split; [|split].
  - intros profile. unfold monthly_totals. rewrite He, Hi, !or_zero_Sum.
    rewrite (total_where_gone _ (expense_in (User.id user) cur)) by auto.
    rewrite (total_where_gone _ (investment_in (User.id user) cur)) by auto.
    rewrite float_of_decimal_0, !float_sub_0. reflexivity.
  - intros profile other month Hother. unfold monthly_totals.
    rewrite He, Hi, !or_zero_Sum.
    rewrite (total_where_kept _ (expense_in (User.id user) cur)).
    2:{ intros r Hr. apply andb_prop in Hr. destruct Hr as [Hu Hm].
        apply Z.eqb_eq in Hu. apply String.eqb_eq in Hm. unfold expense_in.
        destruct Hother as [N|N].
        - rewrite Hu. apply Z.eqb_neq in N. rewrite N. reflexivity.
        - rewrite Hm. apply String.eqb_neq in N. rewrite N. apply andb_false_r. }
    rewrite (total_where_kept _ (investment_in (User.id user) cur)).
    2:{ intros r Hr. apply andb_prop in Hr. destruct Hr as [Hu Hm].
        apply Z.eqb_eq in Hu. apply String.eqb_eq in Hm. unfold investment_in.
        destruct Hother as [N|N].
        - rewrite Hu. apply Z.eqb_neq in N. rewrite N. reflexivity.
        - rewrite Hm. apply String.eqb_neq in N. rewrite N. apply andb_false_r. }
    reflexivity.
  - assert (Hne : List.filter (expense_in (User.id user) cur) (expenses w') = []).
    { rewrite He. apply filter_none. intros x Hx. apply filter_In in Hx.
      destruct Hx as [_ Hx]. apply negb_true_iff in Hx. exact Hx. }
    assert (Hni : List.filter (investment_in (User.id user) cur) (investments w') = []).
    { rewrite Hi. apply filter_none. intros x Hx. apply filter_In in Hx.
      destruct Hx as [_ Hx]. apply negb_true_iff in Hx. exact Hx. }
    assert (Hke : List.filter (fun e => negb (expense_in (User.id user) cur e)) (expenses w')
                  = expenses w').
    { rewrite He, filter_filter. apply filter_ext. intros x. apply andb_diag. }
    assert (Hki : List.filter (fun i => negb (investment_in (User.id user) cur i))
                    (investments w') = investments w').
    { rewrite Hi, filter_filter. apply filter_ext. intros x. apply andb_diag. }
    rewrite (reset_month_post now request w' Hauth Hpost). fold user cur.
    rewrite Hne, Hni, Hke, Hki, set_tables_same. reflexivity.
Qed.

Lemma reset_month_clears_totals_witness :
  User.is_authenticated (HttpRequest.user demo_post) = true
  /\ HttpRequest.method demo_post = "POST"
  /\ monthly_totals (UserProfile.mk (Some 1) 1 520000) demo_user "2024-06"
       (snd (reset_month demo_now demo_post demo_world))
     = mkTotals 5200 0 0 5200.
Proof.
  split; [reflexivity|]. split; [reflexivity|].
  pose proof (reset_month_clears_totals demo_now demo_post demo_world) as H.
  cbv zeta in H. destruct (H eq_refl eq_refl) as (Hcur & _).
  exact (Hcur (UserProfile.mk (Some 1) 1 520000)).
Defined.

(** ** Report files *)


















(** ** The months of the demo data *)

Lemma valid_mid_month (year month : Z) :
  1 <= month <= 12 ->
  datetime.valid (datetime.mk year month 15 12 0 0)
  = ((1 <=? year) && (year <=? 9999)).
Proof.
  intros Hm. unfold datetime.valid, datetime.MINYEAR, datetime.MAXYEAR.
  cbn [datetime.year datetime.month datetime.day datetime.hour datetime.minute
       datetime.second].
  assert (E : (15 <=? datetime._days_in_month year month) = true).
  { unfold datetime._days_in_month.
    assert (month = 1 \/ month = 2 \/ month = 3 \/ month = 4 \/ month = 5 \/ month = 6
            \/ month = 7 \/ month = 8 \/ month = 9 \/ month = 10 \/ month = 11
            \/ month = 12) as Hc by lia.
    repeat (destruct Hc as [->|Hc]; [destruct (datetime._is_leap year); reflexivity|]).
    subst. destruct (datetime._is_leap year); reflexivity. }
  rewrite E.
  destruct (Z.leb_spec 1 month), (Z.leb_spec month 12); try lia;
    cbn; rewrite ?andb_true_r; reflexivity.
Qed.

(** X17: the step [m] of the seed command is the calendar month [m] months
    before the current one - not 30 days times [m], as on the dashboard: its
    loop over the years runs at most once, the twelve steps are twelve
    different months in a row, and the date is refused only where the month
    lies before year 1. *)
Theorem seed_month_steps_by_calendar (fuel : nat) (now : datetime.t) (m : Z) :
  datetime.valid now = true ->
  0 <= m < 12 ->
  (1 <= fuel)%nat ->
  exists year month,
    1 <= month <= 12
    /\ 12 * year + month = 12 * datetime.year now + datetime.month now - m
    /\ seed_month fuel now m
       = Some (if 1 <=? year then Some (datetime.mk year month 15 12 0 0) else None)
    /\ (1 <= year <-> 1 < datetime.year now \/ m < datetime.month now).
Proof.
  intros V Hm Hfuel. apply valid_fields in V. destruct V as (Hy & Hmo & _).
  unfold seed_month.
  cbn [datetime.year datetime.month].
  destruct fuel as [|fuel]; [lia|].
  destruct (Z.ltb_spec (datetime.month now - m - 1) 0) as [Hneg|Hpos].
  - exists (datetime.year now - 1), (datetime.month now - m - 1 + 12 + 1).
    split; [lia|]. split; [lia|]. split.
    + cbn [shift_years].
      destruct (Z.ltb_spec (datetime.month now - m - 1) 0); [|lia].
      assert (E : shift_years fuel (datetime.month now - m - 1 + 12) (datetime.year now - 1)
                  = Some (datetime.month now - m - 1 + 12, datetime.year now - 1)).
      { destruct fuel; cbn [shift_years];
          destruct (Z.ltb_spec (datetime.month now - m - 1 + 12) 0); try lia; reflexivity. }
      rewrite E, valid_mid_month by lia.
      destruct (Z.leb_spec 1 (datetime.year now - 1)),
        (Z.leb_spec (datetime.year now - 1) 9999); try lia; reflexivity.
    + lia.
  - exists (datetime.year now), (datetime.month now - m - 1 + 1).
    split; [lia|]. split; [lia|]. split.
    + cbn [shift_years].
      destruct (Z.ltb_spec (datetime.month now - m - 1) 0); [lia|].
      rewrite valid_mid_month by lia.
      destruct (Z.leb_spec 1 (datetime.year now)), (Z.leb_spec (datetime.year now) 9999);
        try lia; reflexivity.
    + lia.
Qed.

Lemma seed_month_steps_by_calendar_witness :
  datetime.valid demo_now = true
  /\ 0 <= 7 < 12
  /\ (1 <= 1)%nat
  /\ seed_month 1 demo_now 7 = Some (Some (datetime.mk 2023 11 15 12 0 0)).
Proof.
  split; [reflexivity|]. split; [lia|]. split; [lia|].
  destruct (seed_month_steps_by_calendar 1 demo_now 7 eq_refl ltac:(lia) ltac:(lia))
    as (year & month & Hm & Hsum & Hrun & _).
  rewrite Hrun. cbn [datetime.year datetime.month demo_now] in Hsum.
  assert (year = 2023) as -> by lia. assert (month = 11) as -> by lia.
  reflexivity.
Defined.

(** ** Ordinals and dates *)

Lemma year_decomposition (y : Z) :
  1 <= y ->
  exists a b c e,
    y = 400 * a + 100 * b + 4 * c + e + 1
    /\ 0 <= a /\ 0 <= b < 4 /\ 0 <= c < 25 /\ 0 <= e < 4.
Proof.
  intros Hy.
  exists ((y - 1) / 400), ((y - 1) mod 400 / 100), ((y - 1) mod 400 mod 100 / 4),
    ((y - 1) mod 400 mod 100 mod 4).
  Z.div_mod_to_equations. lia.
Qed.

Lemma days_before_year_decomposition (a b c e : Z) :
  0 <= b < 4 -> 0 <= c < 25 -> 0 <= e < 4 ->
  datetime._days_before_year (400 * a + 100 * b + 4 * c + e + 1)
  = 146097 * a + 36524 * b + 1461 * c + 365 * e.
Proof.
  intros Hb Hc He. unfold datetime._days_before_year.
  Z.div_mod_to_equations. lia.
Qed.

Lemma is_leap_decomposition (a b c e : Z) :
  0 <= b < 4 -> 0 <= c < 25 -> 0 <= e < 4 ->
  datetime._is_leap (400 * a + 100 * b + 4 * c + e + 1)
  = (e =? 3) && (negb (c =? 24) || (b =? 3)).
Proof.
  intros Hb Hc He. unfold datetime._is_leap.
  destruct (Z.eqb_spec ((400 * a + 100 * b + 4 * c + e + 1) mod 4) 0) as [E4|E4];
    destruct (Z.eqb_spec ((400 * a + 100 * b + 4 * c + e + 1) mod 100) 0) as [E100|E100];
    destruct (Z.eqb_spec ((400 * a + 100 * b + 4 * c + e + 1) mod 400) 0) as [E400|E400];
    destruct (Z.eqb_spec e 3), (Z.eqb_spec c 24), (Z.eqb_spec b 3);
    try reflexivity; exfalso;
    revert E4 E100 E400; Z.div_mod_to_equations; lia.
Qed.

Ltac table_lookup :=
  repeat match goal with
         | |- context [datetime.item ?l ?k] =>
             let v := eval vm_compute in (datetime.item l k) in
             change (datetime.item l k) with v
         | H : context [datetime.item ?l ?k] |- _ =>
             let v := eval vm_compute in (datetime.item l k) in
             change (datetime.item l k) with v in H
         | |- context [if ?c then 1 else 0] =>
             let v := eval vm_compute in c in
             change c with v; cbv iota
         | H : context [if ?c then 1 else 0] |- _ =>
             let v := eval vm_compute in c in
             change c with v in H; cbv iota in H
         end.

(** The day [d] of the month [m] is read back from its day of the year. *)
Lemma month_and_day_at (leap : bool) (m d before_month days : Z) :
  datetime.item datetime._DAYS_BEFORE_MONTH m + (if (2 <? m) && leap then 1 else 0)
  = before_month ->
  datetime.item datetime._DAYS_IN_MONTH m + (if (m =? 2) && leap then 1 else 0) = days ->
  (m < 12 ->
   datetime.item datetime._DAYS_BEFORE_MONTH (m + 1)
   + (if (2 <? m + 1) && leap then 1 else 0) = before_month + days) ->
  1 <= m <= 12 ->
  32 * m - 50 <= before_month ->
  before_month + days - 1 < 32 * (m + 2) - 50 ->
  1 <= d <= days ->
  (m = 12 -> before_month + d - 1 + 50 < 32 * 13) ->
  month_and_day leap (before_month + d - 1) = (m, d).
Proof.
  intros Hb Hdays Hnext Hm Hlow Hhigh Hd H12.
  unfold month_and_day. rewrite Z.shiftr_div_pow2 by lia. change (2 ^ 5) with 32.
  set (t := before_month + d - 1).
  assert (Hq : (t + 50) / 32 = m \/ ((t + 50) / 32 = m + 1 /\ m < 12)).
  { subst t. Z.div_mod_to_equations. lia. }
  destruct Hq as [Hq|[Hq Hlt]]; rewrite Hq; cbv zeta.
  - rewrite Hb. destruct (Z.ltb_spec t before_month); [subst t; lia|].
    f_equal. subst t. lia.
  - rewrite (Hnext Hlt). destruct (Z.ltb_spec t (before_month + days)); [|subst t; lia].
    replace (m + 1 - 1) with m by lia. rewrite Hdays.
    f_equal. subst t. lia.
Qed.

Lemma month_and_day_spec (leap : bool) (m d : Z) :
  1 <= m <= 12 ->
  1 <= d <= datetime.item datetime._DAYS_IN_MONTH m
            + (if (m =? 2) && leap then 1 else 0) ->
  let t :=
    datetime.item datetime._DAYS_BEFORE_MONTH m
    + (if (2 <? m) && leap then 1 else 0) + d - 1 in
  0 <= t
  /\ ((t = 365 /\ m = 12 /\ d = 31 /\ leap = true)
      \/ (t <= 364 /\ month_and_day leap t = (m, d))).
Proof.
  intros Hm Hd t.
  assert (m = 1 \/ m = 2 \/ m = 3 \/ m = 4 \/ m = 5 \/ m = 6 \/ m = 7 \/ m = 8 \/ m = 9
          \/ m = 10 \/ m = 11 \/ m = 12) as Hc by lia.
  repeat (destruct Hc as [Hc|Hc]); subst m; destruct leap; subst t;
    table_lookup; (split; [lia|]).
  all: try (destruct (Z.eq_dec d 31) as [->|Hd31];
            [left; repeat split; reflexivity|]).
  all: right; (split; [lia|]).
  all: match goal with
       | Hd : _ <= ?d <= ?D |- month_and_day ?l (?b + ?d - 1) = (?m, ?d) =>
           apply (month_and_day_at l m d b D); try reflexivity; try lia;
           try (intros _; reflexivity)
       end.
Qed.

Lemma ord2ymd_of_parts (a b c e t : Z) :
  let leap := (e =? 3) && (negb (c =? 24) || (b =? 3)) in
  let year := 400 * a + 100 * b + 4 * c + e + 1 in
  0 <= a -> 0 <= b < 4 -> 0 <= c < 25 -> 0 <= e < 4 -> 0 <= t ->
  t <= 364 \/ (t = 365 /\ leap = true) ->
  datetime._ord2ymd (146097 * a + 36524 * b + 1461 * c + 365 * e + t + 1)
  = if t =? 365 then (year, 12, 31)
    else (year, fst (month_and_day leap t), snd (month_and_day leap t)).
Proof.
  intros leap year Ha Hb Hc He Ht Hcase.
  unfold datetime._ord2ymd.
  change datetime._DI400Y with 146097. change datetime._DI100Y with 36524.
  change datetime._DI4Y with 1461.
  set (N0 := 146097 * a + 36524 * b + 1461 * c + 365 * e + t).
  replace (N0 + 1 - 1) with N0 by lia.
  set (N1 := 36524 * b + 1461 * c + 365 * e + t).
  assert (E0 : N0 / 146097 = a).
  { subst N0 leap. destruct Hcase as [H|[H L]].
    - Z.div_mod_to_equations. lia.
    - apply andb_prop in L. destruct L as [L1 L2]. apply Z.eqb_eq in L1.
      Z.div_mod_to_equations. lia. }
  assert (M0 : N0 mod 146097 = N1).
  { rewrite Z.mod_eq by lia. rewrite E0. subst N0 N1. lia. }
  cbv zeta. rewrite E0, M0.
  destruct Hcase as [Hle|[H365 L]].
  - set (N2 := 1461 * c + 365 * e + t).
    assert (E1 : N1 / 36524 = b).
    { subst N1. Z.div_mod_to_equations. lia. }
    assert (M1 : N1 mod 36524 = N2).
    { rewrite Z.mod_eq by lia. rewrite E1. subst N1 N2. lia. }
    rewrite E1, M1.
    set (N3 := 365 * e + t).
    assert (E2 : N2 / 1461 = c).
    { subst N2. Z.div_mod_to_equations. lia. }
    assert (M2 : N2 mod 1461 = N3).
    { rewrite Z.mod_eq by lia. rewrite E2. subst N2 N3. lia. }
    rewrite E2, M2.
    assert (E3 : N3 / 365 = e).
    { subst N3. Z.div_mod_to_equations. lia. }
    assert (M3 : N3 mod 365 = t).
    { rewrite Z.mod_eq by lia. rewrite E3. subst N3. lia. }
    rewrite E3, M3.
    destruct (Z.eqb_spec e 4); [lia|]. destruct (Z.eqb_spec b 4); [lia|].
    destruct (Z.eqb_spec t 365); [lia|]. cbn [orb].
    fold leap. unfold month_and_day.
    replace (a * 400 + 1 + b * 100 + c * 4 + e) with year by (subst year; lia).
    destruct (t <? _); reflexivity.
  - subst leap. apply andb_prop in L. destruct L as [L1 L2]. apply Z.eqb_eq in L1.
    subst e t. rewrite Z.eqb_refl.
    destruct (Z.eqb_spec c 24) as [->|Nc].
    + cbn [negb orb] in L2. apply Z.eqb_eq in L2. subst b. subst N1 year.
      replace (36524 * 3 + 1461 * 24 + 365 * 3 + 365) with 146096 by lia.
      change (146096 / 36524) with 4. change (146096 mod 36524) with 0.
      change (0 / 1461) with 0. change (0 mod 1461) with 0.
      change (0 / 365) with 0. cbn [Z.eqb Pos.eqb orb].
      f_equal. f_equal. lia.
    + assert (E1 : N1 / 36524 = b).
      { subst N1. Z.div_mod_to_equations. lia. }
      assert (M1 : N1 mod 36524 = 1461 * c + 1460).
      { rewrite Z.mod_eq by lia. rewrite E1. subst N1. lia. }
      rewrite E1, M1.
      assert (E2 : (1461 * c + 1460) / 1461 = c) by (Z.div_mod_to_equations; lia).
      assert (M2 : (1461 * c + 1460) mod 1461 = 1460).
      { rewrite Z.mod_eq by lia. rewrite E2. lia. }
      rewrite E2, M2. change (1460 / 365) with 4. cbn [Z.eqb Pos.eqb orb].
      f_equal. f_equal. subst year. lia.
Qed.

(** [date.fromordinal(d.toordinal())] is [d]. *)
Lemma ord2ymd_ymd2ord (y m d : Z) :
  1 <= y -> 1 <= m <= 12 -> 1 <= d <= datetime._days_in_month y m ->
  datetime._ord2ymd (datetime._ymd2ord y m d) = (y, m, d).
Proof.
  intros Hy Hm Hd.
  destruct (year_decomposition y Hy) as (a & b & c & e & -> & Ha & Hb & Hc & He).
  unfold datetime._ymd2ord, datetime._days_before_month.
  unfold datetime._days_in_month in Hd.
  rewrite days_before_year_decomposition by assumption.
  rewrite is_leap_decomposition in * by assumption.
  set (leap := (e =? 3) && (negb (c =? 24) || (b =? 3))) in *.
  assert (Hd' : 1 <= d <= datetime.item datetime._DAYS_IN_MONTH m
                          + (if (m =? 2) && leap then 1 else 0)).
  { destruct ((m =? 2) && leap) eqn:E; [|lia].
    apply andb_prop in E. destruct E as [E _]. apply Z.eqb_eq in E. subst m.
    change (datetime.item datetime._DAYS_IN_MONTH 2) with 28. lia. }
  destruct (month_and_day_spec leap m d Hm Hd') as (Ht & Hcase).
  set (t := datetime.item datetime._DAYS_BEFORE_MONTH m
            + (if (2 <? m) && leap then 1 else 0) + d - 1) in *.
  replace (146097 * a + 36524 * b + 1461 * c + 365 * e
           + (datetime.item datetime._DAYS_BEFORE_MONTH m
              + (if (2 <? m) && leap then 1 else 0)) + d)
    with (146097 * a + 36524 * b + 1461 * c + 365 * e + t + 1) by (subst t; lia).
  rewrite ord2ymd_of_parts; try assumption.
  - fold leap. destruct Hcase as [(H365 & -> & -> & _)|(Hle & Hmd)].
    + rewrite H365. reflexivity.
    + destruct (Z.eqb_spec t 365); [lia|]. rewrite Hmd. reflexivity.
  - fold leap. destruct Hcase as [(H365 & _ & _ & L)|(Hle & _)]; [right|left]; auto.
Qed.

Lemma sub_days_0 (d : datetime.t) :
  datetime.valid d = true -> datetime.sub_days d 0 = Some d.
Proof.
  intros V. pose proof (toordinal_bounds d V) as Hb.
  pose proof (valid_fields d V) as (Hy & Hm & Hd).
  unfold datetime.sub_days. rewrite Z.sub_0_r.
  destruct (Z.ltb_spec 0 (datetime.toordinal d)); [|lia].
  destruct (Z.leb_spec (datetime.toordinal d) datetime._MAXORDINAL); [|lia].
  cbn [andb]. unfold datetime.toordinal.
  rewrite ord2ymd_ymd2ord by lia. destruct d; reflexivity.
Qed.

(** X19: the newest entry of the spending trend of the dashboard and of the
    monthly data of the analytics page is the current month, and its
    expenses are the total the page shows beside it. *)
Theorem newest_entry_is_current_month (now : datetime.t) (request : HttpRequest.t)
    (w : World) :
  let user := HttpRequest.user request in
  let cur := datetime.strftime now "%Y-%m" in
  User.is_authenticated user = true ->
  datetime.valid now = true ->
  330 < datetime.toordinal now ->
  table_ok (profiles w) = true ->
  (exists ctx w',
      dashboard now request w
      = (Return (render "budget/dashboard.html" (Dashboard ctx)), w')
      /\ nth_error (ctx_spending_trend ctx) 5
         = Some (mkTrendPoint cur (total_expenses (ctx_totals ctx)))
      /\ ctx_current_month ctx = cur)
  /\ (exists context w',
        analytics now request w = (Return (analytics_page context), w')
        /\ nth_error (an_monthly_data context) 11
           = Some (mkMonthlyDatum cur (an_total_expenses context)
                     (float_of_decimal
                        (total_where (investment_in (User.id user) cur) Investment.amount
                                     (investments w))))).
Proof.
  intros user cur Hauth V Hord Hok. split.
  - destruct (dashboard_renders now request w Hauth V ltac:(lia) Hok)
      as (p & tbl' & trend & Hd & Ht & _).
    fold user cur in Hd, Ht.
    destruct (spending_trend_points 6 now user (expenses w) V ltac:(simpl; lia))
      as (points & Hp & _ & Hnth).
    rewrite Ht in Hp. injection Hp as <-.
    destruct (Hnth 5%nat ltac:(lia)) as (pt & Hpt & d & Hsub & ->).
    change (30 * Z.of_nat (6 - 1 - 5)) with (30 * 0) in Hsub.
    change (30 * 0) with 0 in Hsub.
    rewrite (sub_days_0 now V) in Hsub. injection Hsub as <-.
    eexists _, _. split; [exact Hd|].
    cbn [ctx_spending_trend ctx_totals ctx_current_month].
    split; [|reflexivity]. rewrite Hpt. unfold monthly_totals. cbn [total_expenses].
    rewrite or_zero_Sum. reflexivity.
  - destruct (analytics_runs now request w Hauth V Hord Hok)
      as (data & profile & profiles' & Hdata & _ & Hrun).
    destruct (monthly_data_entries now user (expenses w) (investments w) V Hord)
      as (points & Hp & _ & Hnth).
    fold user in Hdata. rewrite Hdata in Hp. injection Hp as <-.
    destruct (Hnth 11%nat ltac:(lia)) as (pt & Hpt & d & Hsub & ->).
    change (30 * Z.of_nat (11 - 11)) with 0 in Hsub.
    rewrite (sub_days_0 now V) in Hsub. injection Hsub as <-.
    eexists _, _. split; [exact Hrun|].
    cbn [an_monthly_data an_total_expenses]. exact Hpt.
Qed.

Lemma newest_entry_is_current_month_witness :
  User.is_authenticated (HttpRequest.user demo_get) = true
  /\ datetime.valid demo_now = true
  /\ 330 < datetime.toordinal demo_now
  /\ table_ok (profiles demo_world) = true
  /\ exists ctx w',
       dashboard demo_now demo_get demo_world
       = (Return (render "budget/dashboard.html" (Dashboard ctx)), w')
       /\ nth_error (ctx_spending_trend ctx) 5 = Some (mkTrendPoint "2024-06" 1800).
Proof.
  split; [reflexivity|]. split; [reflexivity|]. split; [reflexivity|].
  split; [reflexivity|].
  destruct (newest_entry_is_current_month demo_now demo_get demo_world eq_refl eq_refl
              eq_refl eq_refl) as [(ctx & w' & Hrun & Hnth & _) _].
  exists ctx, w'. split; [exact Hrun|]. rewrite Hnth.
  assert (E : fst (dashboard demo_now demo_get demo_world)
              = Return (render "budget/dashboard.html" (Dashboard ctx)))
    by (rewrite Hrun; reflexivity).
  vm_compute in E. injection E as <-. reflexivity.
Defined.
(** ** Transactions and totals *)

Lemma total_where_app {A : Type} (p : A -> bool) (amount : A -> decimal2) (l k : list A) :
  total_where p amount (l ++ k) = total_where p amount l + total_where p amount k.
Proof. induction l as [|x l IH]; cbn [app total_where]; [|rewrite IH]; lia. Qed.

(** X20: an added expense or investment counts in the totals of its user for the
    month of its date, by its amount, and in no other total: the expenses or
    investments shown for that month rise by the amount, those of every other
    month and of every other user stay. *)
Theorem added_transaction_counts_in_its_month
    (ExpenseForm : gmap string string -> option ExpenseFields)
    (InvestmentForm : gmap string string -> option InvestmentFields)
    (request : HttpRequest.t) (w : World) :
  let user := HttpRequest.user request in
  User.is_authenticated user = true ->
  HttpRequest.method request = "POST" ->
  (forall cleaned profile other month,
      ExpenseForm (HttpRequest.POST request) = Some cleaned ->
      let w' := snd (add_expense ExpenseForm request w) in
      let counts :=
        (User.id user =? User.id other)
        && String.eqb (datetime.strftime (exp_date cleaned) "%Y-%m") month in
      total_expenses (monthly_totals profile other month w')
      = float_of_decimal
          (total_where (expense_in (User.id other) month) Expense.amount (expenses w)
           + (if counts then exp_amount cleaned else 0))
      /\ total_investments (monthly_totals profile other month w')
         = total_investments (monthly_totals profile other month w))
  /\ (forall cleaned profile other month,
      InvestmentForm (HttpRequest.POST request) = Some cleaned ->
      let w' := snd (add_investment InvestmentForm request w) in
      let counts :=
        (User.id user =? User.id other)
        && String.eqb (datetime.strftime (inv_date cleaned) "%Y-%m") month in
      total_investments (monthly_totals profile other month w')
      = float_of_decimal
          (total_where (investment_in (User.id other) month) Investment.amount
             (investments w)
           + (if counts then inv_amount cleaned else 0))
      /\ total_expenses (monthly_totals profile other month w')
         = total_expenses (monthly_totals profile other month w)).
Proof.
  intros user Hauth Hpost. split.
  - intros cleaned profile other month Hform w' counts.
    unfold w'. rewrite (add_expense_runs ExpenseForm request w cleaned Hauth Hpost Hform).
    cbn [snd]. unfold monthly_totals.
    cbn [total_expenses total_investments expenses investments set_messages set_expenses].
    split; [|reflexivity].
    rewrite or_zero_Sum, total_where_app. cbn [total_where Expense.user Expense.month_year
      Expense.amount]. fold user. unfold expense_in at 1. unfold counts.
    rewrite Z.add_0_r. reflexivity.
  - intros cleaned profile other month Hform w' counts.
    unfold w'.
    rewrite (add_investment_runs InvestmentForm request w cleaned Hauth Hpost Hform).
    cbn [snd]. unfold monthly_totals.
    cbn [total_expenses total_investments expenses investments set_messages
         set_investments].
    split; [|reflexivity].
    rewrite or_zero_Sum, total_where_app. cbn [total_where Investment.user
      Investment.month_year Investment.amount]. fold user. unfold counts.
    rewrite Z.add_0_r. reflexivity.
Qed.

Lemma added_transaction_counts_in_its_month_witness :
  User.is_authenticated (HttpRequest.user demo_transaction_post) = true
  /\ HttpRequest.method demo_transaction_post = "POST"
  /\ total_expenses
       (monthly_totals (UserProfile.mk (Some 1) 1 520000) demo_user "2024-06"
          (snd (add_expense demo_ExpenseForm demo_transaction_post demo_world)))
     = float_of_decimal (180000 + 1250).
Proof.
  split; [reflexivity|]. split; [reflexivity|].
  pose proof (added_transaction_counts_in_its_month demo_ExpenseForm demo_InvestmentForm
                demo_transaction_post demo_world) as H.
  cbv zeta in H. destruct (H eq_refl eq_refl) as (He & _).
  destruct (He (mkExpenseFields "Food" 1250 "lunch" demo_now)
               (UserProfile.mk (Some 1) 1 520000) demo_user "2024-06" eq_refl) as [E _].
  rewrite E. reflexivity.
Defined.
(** ** The recent rows of the dashboard *)

Lemma Permutation_insert_sorted {A : Type} (before : A -> A -> bool) (x : A) (l : list A) :
  Permutation (insert_sorted before x l) (x :: l).
Proof.
  induction l as [|y l IH]; cbn [insert_sorted]; [reflexivity|].
  destruct (before x y); [reflexivity|].
  etransitivity; [apply perm_skip, IH|apply perm_swap].
Qed.

Lemma Permutation_order_by {A : Type} (before : A -> A -> bool) (l : list A) :
  Permutation (order_by before l) l.
Proof.
  unfold order_by. induction l as [|x l IH]; cbn [fold_right]; [reflexivity|].
  etransitivity; [apply Permutation_insert_sorted|apply perm_skip, IH].
Qed.

Lemma ordered_split {A : Type} (before : A -> A -> bool) (n : nat) (l : list A) (x y : A) :
  ordered before l = true -> In x (firstn n l) -> In y (skipn n l) -> before x y = true.
Proof.
  revert l; induction n as [|n IH]; intros l Ho Hx Hy; [destruct Hx|].
  destruct l as [|z l]; [destruct Hx|].
  cbn [ordered] in Ho. apply andb_prop in Ho. destruct Ho as [Hz Ho].
  cbn [firstn skipn] in Hx, Hy. destruct Hx as [<-|Hx].
  - rewrite forallb_forall in Hz. apply Hz.
    rewrite <- (firstn_skipn n l). apply in_or_app. right. exact Hy.
  - apply (IH l); assumption.
Qed.

Section Recent.
Context {A : Type} (owner : A -> bool) (date : A -> datetime.t).

Let newest_first (a b : A) : bool := datetime_leb (date b) (date a).
Let recent (tbl : list A) : list A :=
  firstn 5 (order_by newest_first (List.filter owner tbl)).

Lemma recent_are_newest (tbl : list A) :
  length (recent tbl) = Nat.min 5 (length (List.filter owner tbl))
  /\ ordered newest_first (recent tbl) = true
  /\ exists older,
       Permutation (List.filter owner tbl) (recent tbl ++ older)
       /\ forall x y, In x (recent tbl) -> In y older ->
                      datetime_leb (date y) (date x) = true.
Proof.
  assert (Hord : ordered newest_first (order_by newest_first (List.filter owner tbl))
                 = true).
  { apply ordered_order_by.
    - intros a b c. apply newest_first_trans.
    - intros a b. apply newest_first_total. }
  split; [|split].
  - unfold recent. rewrite length_firstn, length_order_by. reflexivity.
  - apply ordered_firstn. exact Hord.
  - exists (skipn 5 (order_by newest_first (List.filter owner tbl))). split.
    + unfold recent. rewrite firstn_skipn. symmetry. apply Permutation_order_by.
    + intros x y Hx Hy.
      exact (ordered_split newest_first 5 _ x y Hord Hx Hy).
Qed.

End Recent.

(** X21: the dashboard's recent expenses and recent investments are the newest
    rows of the user: at most five, all five when the user has that many,
    newest first, and every other row of the user is no newer than any row
    shown. *)
Theorem dashboard_recent_are_newest (user : User.t) (expenses : list Expense.t)
    (investments : list Investment.t) :
  let own_expenses := List.filter (fun e => Expense.user e =? User.id user) expenses in
  let own_investments :=
    List.filter (fun i => Investment.user i =? User.id user) investments in
  (length (recent_expenses user expenses) = Nat.min 5 (length own_expenses)
   /\ ordered (fun a b => datetime_leb (Expense.date b) (Expense.date a))
        (recent_expenses user expenses) = true
   /\ exists older,
        Permutation own_expenses (recent_expenses user expenses ++ older)
        /\ forall x y, In x (recent_expenses user expenses) -> In y older ->
                       datetime_leb (Expense.date y) (Expense.date x) = true)
  /\ (length (recent_investments user investments) = Nat.min 5 (length own_investments)
      /\ ordered (fun a b => datetime_leb (Investment.date b) (Investment.date a))
           (recent_investments user investments) = true
      /\ exists older,
           Permutation own_investments (recent_investments user investments ++ older)
           /\ forall x y, In x (recent_investments user investments) -> In y older ->
                          datetime_leb (Investment.date y) (Investment.date x) = true).
Proof.
  intros own_expenses own_investments. split.
  - exact (recent_are_newest (fun e => Expense.user e =? User.id user) Expense.date
             expenses).
  - exact (recent_are_newest (fun i => Investment.user i =? User.id user) Investment.date
             investments).
Qed.

(** ** A budget update and the page after it *)





